(** * FAE.FeatureAnalysis.CrossValidation: a shallow embedding

    The module under study is a two-level experiment driver:
    [CrossValidation.Run] performs one pooled cross-validation pass and
    [CrossValidationOnFeatureNumber.Run] repeats it for 1, 2, ..., M selected
    features and picks the best feature count by argmax.

    Modelling conventions.
    - Python [float] values are rationals [Q]; NaN and infinities have no
      counterpart.  The single-precision cast of [np.asarray] is a parameter.
    - A Python [dict] is an insertion-ordered association list with unique
      keys ([PyDict.wf]); strings are byte strings, which agrees with Python
      on ASCII keys.
    - The classifier, the feature selector, the fold splitter and the metric
      estimator are collaborators: interfaces (type classes) or section
      variables.  They are total functions here; a fault raised inside a
      collaborator or by the operating system is outside the model, while
      the faults raised by the module's own indexing ([IndexError],
      [KeyError], [ValueError] of [np.argmax]) are modelled.
    - Effects are threaded through a state-and-error monad; everything
      written or drawn is appended to an event log. *)

From Stdlib Require Import QArith.
From stdpp Require Import base list strings sorting pretty.


(** ** Python values and exceptions *)

Inductive exn :=
  | IndexError
  | KeyError (key : string)
  | ValueError
  | AttributeError
  | TypeError
  | NameError.

Inductive result (A : Type) :=
  | Ok (a : A)
  | Raise (e : exn).
Arguments Ok {A} a.
Arguments Raise {A} e.

(** Numbers held by a metric record. *)
Inductive pyval :=
  | PyFloat (q : Q)
  | PyInt (z : Z).

(** [float(v)] *)
Definition float (v : pyval) : Q :=
  match v with
  | PyFloat q => q
  | PyInt z => inject_Z z
  end.

(** [s[n:]] *)
Fixpoint string_drop (n : nat) (s : string) : string :=
  match n, s with
  | O, _ => s
  | S n', String _ s' => string_drop n' s'
  | S _, EmptyString => EmptyString
  end.

(** [l[i]] for a non-negative index. *)
Definition list_index {A} (l : list A) (i : nat) : result A :=
  match l !! i with
  | Some x => Ok x
  | None => Raise IndexError
  end.

(** [x > y] on floats. *)
Definition Qgtb (x y : Q) : bool := negb (Qle_bool x y).

(** ** [np.argmax] on a one-dimensional sequence

    The scan keeps the running maximum [mp] and its index and replaces them
    only on a strictly greater element, as numpy's inner loop does. *)
Fixpoint argmax_go (mp : Q) (max_ind i : nat) (ip : list Q) : nat :=
  match ip with
  | [] => max_ind
  | x :: rest =>
      if Qgtb x mp then argmax_go x i (S i) rest
      else argmax_go mp max_ind (S i) rest
  end.

Definition argmax (a : list Q) : result nat :=
  match a with
  | [] => Raise ValueError
  | x :: rest => Ok (argmax_go x 0 1 rest)
  end.

(** The mathematical reading of "argmax, first occurrence on ties". *)
Definition is_first_argmax (a : list Q) (i : nat) : Prop :=
  ∃ m, a !! i = Some m ∧
       (∀ j x, a !! j = Some x → (x <= m)%Q) ∧
       (∀ j x, j < i → a !! j = Some x → (x < m)%Q).

(** ** Python dictionaries *)
Module PyDict.
Definition dict (V : Type) : Type := list (string * V).

Definition keys {V} (d : dict V) : list string := d.*1.

Definition wf {V} (d : dict V) : Prop := NoDup (keys d).

Fixpoint get {V} (k : string) (d : dict V) : option V :=
  match d with
  | [] => None
  | (k', v) :: d' => if decide (k' = k) then Some v else get k d'
  end.

(** [d[k]] *)
Definition getitem {V} (d : dict V) (k : string) : result V :=
  match get k d with
  | Some v => Ok v
  | None => Raise (KeyError k)
  end.

(** [d[k] = v]: an existing key keeps its position. *)
Fixpoint set {V} (k : string) (v : V) (d : dict V) : dict V :=
  match d with
  | [] => [(k, v)]
  | (k', v') :: d' =>
      if decide (k' = k) then (k, v) :: d' else (k', v') :: set k v d'
  end.

(** [dict(items)] *)
Definition of_items {V} (items : list (string * V)) : dict V :=
  foldl (λ acc kv, set kv.1 kv.2 acc) [] items.

(** [d.update(e)] *)
Definition update {V} (d e : dict V) : dict V :=
  foldl (λ acc kv, set kv.1 kv.2 acc) d e.

(** [d != {}] *)
Definition nonempty {V} (d : dict V) : bool :=
  match d with
  | [] => false
  | _ :: _ => true
  end.

(** [sorted(d.items(), key=lambda item: item[0])], a stable sort. *)
Fixpoint insert_by_key {V} (kv : string * V) (l : list (string * V))
  : list (string * V) :=
  match l with
  | [] => [kv]
  | kv' :: l' =>
      if String.ltb kv.1 kv'.1 then kv :: kv' :: l'
      else kv' :: insert_by_key kv l'
  end.

Definition sorted_items {V} (d : dict V) : list (string * V) :=
  foldl (λ acc kv, insert_by_key kv acc) [] d.

(** [dict(sorted(d.items(), key=lambda item: item[0]))] *)
Definition sorted_dict {V} (d : dict V) : dict V := of_items (sorted_items d).
End PyDict.
Import PyDict.

(** [os.path.join(a, b)] for a relative second component. *)
Fixpoint ends_with_slash (s : string) : bool :=
  match s with
  | EmptyString => false
  | String c EmptyString => bool_decide (String c EmptyString = "/")
  | String _ s' => ends_with_slash s'
  end.

Definition path_join (a b : string) : string :=
  if decide (a = "") then b
  else if ends_with_slash a then a +:+ b
  else a +:+ "/" +:+ b.

(** ** Data containers and collaborators *)

Definition matrix : Type := list (list Q).

Record DataContainer := {
  GetArray : matrix;
  GetLabel : list Z
}.

(** [ndarray.size]: the number of elements. *)
Definition array_size (a : matrix) : nat := length (concat a).

(** [a[index]] and [a[index, :]] with an index array. *)
Fixpoint take_rows {A} (a : list A) (index : list nat) : result (list A) :=
  match index with
  | [] => Ok []
  | i :: index' =>
      match a !! i, take_rows a index' with
      | Some x, Ok xs => Ok (x :: xs)
      | None, _ => Raise IndexError
      | _, Raise e => Raise e
      end
  end.

(** [FAE.FeatureAnalysis.Classifier]: the methods this module calls. *)
Class Classifier (C : Type) := {
  SetData : matrix → list Z → C → C;
  SetDataContainer : DataContainer → C → C;
  Fit : C → C;
  Predict : C → matrix → list Q;
  Save : string → C → C
}.

(** [FAE.FeatureAnalysis.FeatureSelector]: the methods this module calls. *)
Class FeatureSelector (S : Type) := {
  SetSelectedFeatureNumber : nat → S → S;
  SelectorRun : S → DataContainer → string → DataContainer * S
}.

(** The fold splitters of [sklearn.model_selection] that [__init__] and
    [SetCV] can install. *)
Inductive splitter :=
  | LeaveOneOut
  | StratifiedKFold (n_splits : nat).

(** Imported functions: [splitter.split], [FAE.Func.Metric.EstimateMetirc]
    and the casts of [np.asarray(..., dtype=np.float32)]. *)
Class Imports := {
  cv_split : splitter → matrix → list Z → list (list nat * list nat);
  EstimateMetirc : list Q → list Z → string → dict pyval;
  float32 : Q → Q
}.

(** [np.asarray(..., dtype=np.uint8)] on one label. *)
Definition uint8 (z : Z) : Z := (z mod 256)%Z.

(** A cell of the summary table and a value of the [info] mapping. *)
Inductive cell :=
  | CStr (s : string)
  | CNum (v : pyval).

Inductive info_value :=
  | Scalar (c : cell)
  | Sequence (cs : list cell).

(** ** Events, world and monad *)

(** One event per call into a collaborator and per file or directory
    written.  [EvCallRun] records a call of [CrossValidation.Run] itself,
    with its arguments. *)
Inductive event :=
  | EvCallRun (data test : DataContainer) (store_folder : string)
  | EvSetData (X : matrix) (y : list Z)
  | EvSetDataContainer (d : DataContainer)
  | EvFit
  | EvPredict (X : matrix)
  | EvClassifierSave (folder : string)
  | EvEstimate (pred : list Q) (lab : list Z) (phase : string)
  | EvMkdir (path : string)
  | EvSavePred (path : string) (a : list Q)
  | EvSaveLabel (path : string) (a : list Z)
  | EvToCsv (path : string) (index : list nat)
  | EvDrawROCList (pred : list Q) (lab : list Z) (store_path : string)
  | EvWriteRows (path : string) (rows : list (list cell))
  | EvLoadWaitBar (total n : nat)
  | EvSetSelectedFeatureNumber (n : nat)
  | EvSelectorRun (d : DataContainer) (folder : string)
  | EvDrawCurve (x : list nat) (series : list (list Q)) (ylabel : string)
      (name_list : list string) (store_path : string).

(** The fields of [self], the directories that exist and the event log. *)
Record world (C S : Type) := {
  classifier : C;
  cv : option splitter;
  max_feature_number : nat;
  feature_selector : S;
  dirs : list string;
  trace : list event
}.
Arguments classifier {C S} w.
Arguments cv {C S} w.
Arguments max_feature_number {C S} w.
Arguments feature_selector {C S} w.
Arguments dirs {C S} w.
Arguments trace {C S} w.

Definition M (C S A : Type) : Type := world C S → result (A * world C S).

Section Monad.
Context {C S : Type}.

Definition ret {A} (a : A) : M C S A := λ w, Ok (a, w).

Definition bind {A B} (m : M C S A) (f : A → M C S B) : M C S B :=
  λ w, match m w with
       | Ok (a, w') => f a w'
       | Raise e => Raise e
       end.

Definition raise {A} (e : exn) : M C S A := λ _, Raise e.

Definition lift {A} (r : result A) : M C S A :=
  λ w, match r with
       | Ok a => Ok (a, w)
       | Raise e => Raise e
       end.

Definition emit (e : event) : M C S unit :=
  λ w, Ok (tt, {| classifier := classifier w; cv := cv w;
                  max_feature_number := max_feature_number w;
                  feature_selector := feature_selector w;
                  dirs := dirs w; trace := trace w ++ [e] |}).

Definition with_classifier (f : C → C) : M C S unit :=
  λ w, Ok (tt, {| classifier := f (classifier w); cv := cv w;
                  max_feature_number := max_feature_number w;
                  feature_selector := feature_selector w;
                  dirs := dirs w; trace := trace w |}).

Definition with_selector {A} (f : S → A * S) : M C S A :=
  λ w, let r := f (feature_selector w) in
       Ok (r.1, {| classifier := classifier w; cv := cv w;
                   max_feature_number := max_feature_number w;
                   feature_selector := r.2;
                   dirs := dirs w; trace := trace w |}).

Definition ask {A} (f : world C S → A) : M C S A := λ w, Ok (f w, w).

(** [os.path.exists] and [os.path.isdir] on a folder path.  Only
    directories are tracked, so both ask whether the directory exists. *)
Definition path_exists (p : string) : M C S bool :=
  ask (λ w, bool_decide (p ∈ dirs w)).
Definition path_isdir (p : string) : M C S bool :=
  ask (λ w, bool_decide (p ∈ dirs w)).

(** [os.mkdir], taken to succeed. *)
Definition mkdir (p : string) : M C S unit :=
  λ w, Ok (tt, {| classifier := classifier w; cv := cv w;
                  max_feature_number := max_feature_number w;
                  feature_selector := feature_selector w;
                  dirs := dirs w ++ [p]; trace := trace w ++ [EvMkdir p] |}).

(** A [for] loop that threads an accumulator. *)
Fixpoint for_each {A B} (l : list A) (acc : B) (body : B → A → M C S B)
  : M C S B :=
  match l with
  | [] => ret acc
  | x :: l' => bind (body acc x) (λ acc', for_each l' acc' body)
  end.
End Monad.

Notation "'do' x <- m ; k" := (bind m (λ x, k))
  (at level 10, x name, m at level 100, k at level 200,
   format "'[v' 'do'  x  <-  m ; '/' k ']'").
Notation "'do' ' p <- m ; k" := (bind m (λ x, match x with p => k end))
  (at level 10, p pattern, m at level 100, k at level 200,
   format "'[v' 'do'  ' p  <-  m ; '/' k ']'").
Notation "'run' m ; k" := (bind m (λ _, k))
  (at level 10, m at level 100, k at level 200,
   format "'[v' 'run'  m ; '/' k ']'").

(** ** class CrossValidation *)
Module CrossValidation.
Section Methods.
Context {C S : Type} `{!Classifier C} `{!Imports}.
Abbreviation M := (M C S).

(** [__init__] and [SetCV]: the splitter named by [cv_method]. *)
Definition splitter_of (cv_method : string) : option splitter :=
  if decide (cv_method = "LOO") then Some LeaveOneOut
  else if decide (cv_method = "10-folder") then Some (StratifiedKFold 10)
  else if decide (cv_method = "5-folder") then Some (StratifiedKFold 5)
  else None.

(** *** SaveResult *)

(** [==] and [<] on cells; [<] between a string and a number is a
    [TypeError]. *)
Definition cell_eqb (c1 c2 : cell) : bool :=
  match c1, c2 with
  | CStr s1, CStr s2 => bool_decide (s1 = s2)
  | CNum v1, CNum v2 => Qeq_bool (float v1) (float v2)
  | _, _ => false
  end.

Definition cell_ltb (c1 c2 : cell) : result bool :=
  match c1, c2 with
  | CStr s1, CStr s2 => Ok (String.ltb s1 s2)
  | CNum v1, CNum v2 => Ok (Qgtb (float v2) (float v1))
  | _, _ => Raise TypeError
  end.

(** [<] on lists. *)
Fixpoint row_ltb (r1 r2 : list cell) : result bool :=
  match r1, r2 with
  | [], [] => Ok false
  | [], _ :: _ => Ok true
  | _ :: _, [] => Ok false
  | c1 :: r1', c2 :: r2' =>
      if cell_eqb c1 c2 then row_ltb r1' r2' else cell_ltb c1 c2
  end.

(** [list.sort()]: a stable comparison sort by [<].  Python runs timsort;
    every stable sort returns the same list when no comparison raises, and
    insertion from the left is the one written here. *)
Fixpoint insert_row (r : list cell) (l : list (list cell))
  : result (list (list cell)) :=
  match l with
  | [] => Ok [r]
  | r' :: l' =>
      match row_ltb r r' with
      | Ok true => Ok (r :: r' :: l')
      | Ok false =>
          match insert_row r l' with
          | Ok l'' => Ok (r' :: l'')
          | Raise e => Raise e
          end
      | Raise e => Raise e
      end
  end.

Fixpoint sort_rows_from (acc l : list (list cell)) : result (list (list cell)) :=
  match l with
  | [] => Ok acc
  | r :: l' =>
      match insert_row r acc with
      | Ok acc' => sort_rows_from acc' l'
      | Raise e => Raise e
      end
  end.

Definition sort_rows (l : list (list cell)) : result (list (list cell)) :=
  sort_rows_from [] l.

(** One pass of the loop over [info.keys()]. *)
Definition row_of (info : dict info_value) (key : string) : result (list cell) :=
  match getitem info key with
  | Ok (Scalar c) => Ok [CStr key; c]
  | Ok (Sequence cs) => Ok (CStr key :: cs)
  | Raise e => Raise e
  end.

Fixpoint rows_of (info : dict info_value) (ks : list string)
  : result (list (list cell)) :=
  match ks with
  | [] => Ok []
  | key :: ks' =>
      match row_of info key, rows_of info ks' with
      | Ok r, Ok rs => Ok (r :: rs)
      | Raise e, _ => Raise e
      | _, Raise e => Raise e
      end
  end.

Definition SaveResult (info : dict info_value) (store_path : string) : M unit :=
  let info := sorted_dict info in
  do write_info <- lift (rows_of info (keys info));
  do write_info <- lift (sort_rows write_info);
  do is_dir <- path_isdir store_path;
  let store_path :=
    if is_dir then path_join store_path "result.csv" else store_path in
  do write_info <- lift (sort_rows write_info);
  emit (EvWriteRows store_path write_info).

(** *** Calls into the collaborators *)

Definition classifier_SetData (X : matrix) (y : list Z) : M unit :=
  run emit (EvSetData X y);
  with_classifier (SetData X y).

Definition classifier_SetDataContainer (d : DataContainer) : M unit :=
  run emit (EvSetDataContainer d);
  with_classifier (SetDataContainer d).

Definition classifier_Fit : M unit :=
  run emit EvFit;
  with_classifier Fit.

Definition classifier_Predict (X : matrix) : M (list Q) :=
  run emit (EvPredict X);
  ask (λ w, Predict (classifier w) X).

Definition classifier_Save (folder : string) : M unit :=
  run emit (EvClassifierSave folder);
  with_classifier (Save folder).

Definition estimate (pred : list Q) (lab : list Z) (phase : string)
  : M (dict pyval) :=
  run emit (EvEstimate pred lab phase);
  ret (EstimateMetirc pred lab phase).

(** *** Run *)

Record pooled := {
  train_pred_list : list Q;
  train_label_list : list Z;
  val_pred_list : list Q;
  val_label_list : list Z;
  val_index_store : list nat
}.

Definition pooled_empty : pooled :=
  {| train_pred_list := []; train_label_list := [];
     val_pred_list := []; val_label_list := []; val_index_store := [] |}.

(** The body of the loop over [self.__cv.split(data, label)]. *)
Definition fold_body (data : matrix) (label : list Z)
    (acc : pooled) (fold : list nat * list nat) : M pooled :=
  let train_index := fold.1 in
  let val_index := fold.2 in
  let val_index_store' := val_index_store acc ++ val_index in
  do train_data <- lift (take_rows data train_index);
  do train_label <- lift (take_rows label train_index);
  do val_data <- lift (take_rows data val_index);
  do val_label <- lift (take_rows label val_index);
  run classifier_SetData train_data train_label;
  run classifier_Fit;
  do train_prob <- classifier_Predict train_data;
  do val_prob <- classifier_Predict val_data;
  ret {| train_pred_list := train_pred_list acc ++ train_prob;
         train_label_list := train_label_list acc ++ train_label;
         val_pred_list := val_pred_list acc ++ val_prob;
         val_label_list := val_label_list acc ++ val_label;
         val_index_store := val_index_store' |}.

(** [self.__cv.split(data, label)]; [self.__cv] may be [None]. *)
Definition folds_of (data : matrix) (label : list Z)
  : M (list (list nat * list nat)) :=
  do cv' <- ask cv;
  match cv' with
  | Some s => ret (cv_split s data label)
  | None => raise AttributeError
  end.

(** Lines 78 to 101: the pooled sequences after the last fold. *)
Definition run_folds (data_container : DataContainer) : M pooled :=
  let data := GetArray data_container in
  let label := GetLabel data_container in
  do folds <- folds_of data label;
  for_each folds pooled_empty (fold_body data label).

(** [info.update(metric)] *)
Definition info_update (info : dict info_value) (metric : dict pyval)
  : dict info_value :=
  update info (prod_map id (λ v, Scalar (CNum v)) <$> metric).

(** A local variable that is bound only inside a branch. *)
Definition read_local {A} (x : option A) : M A :=
  match x with
  | Some a => ret a
  | None => raise NameError
  end.

(** Lines 122 to 150: the branch [if store_folder:]. *)
Definition store_results (store_folder : string)
    (test_data_container : DataContainer)
    (total_train_pred : list Q) (total_train_label : list Z)
    (total_pred : list Q) (total_label : list Z) (val_index_store : list nat)
    (train_metric val_metric test_metric : dict pyval)
    (test_pred : option (list Q)) (test_label : option (list Z)) : M unit :=
  do present <- path_exists store_folder;
  run (if present then ret tt else mkdir store_folder);
  let info := [] in
  let info := info_update info train_metric in
  let info := info_update info val_metric in
  run emit (EvSavePred (path_join store_folder "train_predict.npy") total_train_pred);
  run emit (EvSavePred (path_join store_folder "val_predict.npy") total_pred);
  run emit (EvSaveLabel (path_join store_folder "train_label.npy") total_train_label);
  run emit (EvSaveLabel (path_join store_folder "val_label.npy") total_label);
  let cv_info_path := path_join store_folder "cv_info.csv" in
  run emit (EvToCsv cv_info_path val_index_store);
  run emit (EvDrawROCList total_train_pred total_train_label
              (path_join store_folder "train_ROC.jpg"));
  run emit (EvDrawROCList total_pred total_label
              (path_join store_folder "val_ROC.jpg"));
  do info <-
    (if bool_decide (0 < array_size (GetArray test_data_container)) then
       let info := info_update info test_metric in
       do test_pred <- read_local test_pred;
       run emit (EvSavePred (path_join store_folder "test_predict.npy") test_pred);
       do test_label <- read_local test_label;
       run emit (EvSaveLabel (path_join store_folder "test_label.npy") test_label);
       run emit (EvDrawROCList test_pred test_label
                   (path_join store_folder "test_ROC.jpg"));
       ret info
     else ret info);
  run classifier_Save store_folder;
  SaveResult info store_folder.

(** Lines 77 to 152.  The first event records the call; the default
    [test_data_container=DataContainer()] is an empty container that the
    caller passes. *)
Definition Run (data_container test_data_container : DataContainer)
    (store_folder : string) : M (dict pyval * dict pyval * dict pyval) :=
  run emit (EvCallRun data_container test_data_container store_folder);
  do acc <- run_folds data_container;
  let total_train_label := uint8 <$> train_label_list acc in
  let total_train_pred := float32 <$> train_pred_list acc in
  do train_metric <- estimate total_train_pred total_train_label "train";
  let total_label := uint8 <$> val_label_list acc in
  let total_pred := float32 <$> val_pred_list acc in
  do val_metric <- estimate total_pred total_label "val";
  run classifier_SetDataContainer data_container;
  run classifier_Fit;
  do test <-
    (if bool_decide (0 < array_size (GetArray test_data_container)) then
       let test_data := GetArray test_data_container in
       let test_label := GetLabel test_data_container in
       do test_pred <- classifier_Predict test_data;
       do test_metric <- estimate test_pred test_label "test";
       ret (test_metric, Some test_pred, Some test_label)
     else ret ([], None, None));
  let '(test_metric, test_pred, test_label) := test in
  run (if bool_decide (store_folder ≠ "") then
         store_results store_folder test_data_container
           total_train_pred total_train_label total_pred total_label
           (val_index_store acc) train_metric val_metric test_metric
           test_pred test_label
       else ret tt);
  ret (train_metric, val_metric, test_metric).

(** *** Construction and accessors *)

(** [__init__(cv_method)]; [Classifier()] is the classifier [fresh]. *)
Definition __init__ (fresh : C) (cv_method : string) : M unit :=
  λ w, Ok (tt, {| classifier := fresh;
                  cv := if decide (cv_method = "LOO") then Some LeaveOneOut
                        else if decide (cv_method = "10-folder")
                             then Some (StratifiedKFold 10)
                        else if decide (cv_method = "5-folder")
                             then Some (StratifiedKFold 5)
                        else None;
                  max_feature_number := max_feature_number w;
                  feature_selector := feature_selector w;
                  dirs := dirs w; trace := trace w |}).

Definition SetClassifier (classifier' : C) : M unit :=
  with_classifier (λ _, classifier').

Definition GetClassifier : M C := ask classifier.

(** [SetCV(cv)]: the chain has no [else]. *)
Definition SetCV (cv' : string) : M unit :=
  λ w, Ok (tt, {| classifier := classifier w;
                  cv := if decide (cv' = "LOO") then Some LeaveOneOut
                        else if decide (cv' = "10-folder")
                             then Some (StratifiedKFold 10)
                        else if decide (cv' = "5-folder")
                             then Some (StratifiedKFold 5)
                        else cv w;
                  max_feature_number := max_feature_number w;
                  feature_selector := feature_selector w;
                  dirs := dirs w; trace := trace w |}).

Definition GetCV : M (option splitter) := ask cv.
End Methods.
End CrossValidation.

(** The error monad of the pure passages. *)
Global Instance result_ret : MRet result := λ A a, Ok a.
Global Instance result_bind : MBind result := λ A B f r,
  match r with
  | Ok a => f a
  | Raise e => Raise e
  end.

(** ** class CrossValidationOnFeatureNumber(CrossValidation) *)
Module CrossValidationOnFeatureNumber.
Section Methods.
Context {C S : Type} `{!Classifier C} `{!FeatureSelector S} `{!Imports}.
Abbreviation M := (M C S).

Definition selector_SetSelectedFeatureNumber (n : nat) : M unit :=
  run emit (EvSetSelectedFeatureNumber n);
  with_selector (λ s, (tt, SetSelectedFeatureNumber n s)).

Definition selector_Run (d : DataContainer) (folder : string) : M DataContainer :=
  run emit (EvSelectorRun d folder);
  with_selector (λ s, SelectorRun s d folder).

Record metric_lists := {
  train_metric_list : list (dict pyval);
  val_metric_list : list (dict pyval);
  test_metric_list : list (dict pyval)
}.

Definition metric_lists_empty : metric_lists :=
  {| train_metric_list := []; val_metric_list := []; test_metric_list := [] |}.

(** Lines 180 to 195: one pass of the sweep. *)
Definition sweep_body (data_container test_data_container : DataContainer)
    (store_folder : string) (acc : metric_lists) (feature_number : nat)
  : M metric_lists :=
  do total <- ask max_feature_number;
  run emit (EvLoadWaitBar total feature_number);
  let feature_store_folder :=
    path_join store_folder ("feature_" +:+ pretty feature_number) in
  do present <- path_exists feature_store_folder;
  run (if present then ret tt else mkdir feature_store_folder);
  run selector_SetSelectedFeatureNumber feature_number;
  do feature_selected_data_container <-
    selector_Run data_container feature_store_folder;
  do metrics <- CrossValidation.Run feature_selected_data_container
                  test_data_container feature_store_folder;
  ret {| train_metric_list := train_metric_list acc ++ [metrics.1.1];
         val_metric_list := val_metric_list acc ++ [metrics.1.2];
         test_metric_list := test_metric_list acc ++ [metrics.2] |}.

(** Lines 175 to 195; [range(1, n + 1)] is [seq 1 n]. *)
Definition sweep (data_container test_data_container : DataContainer)
    (store_folder : string) : M metric_lists :=
  do n <- ask max_feature_number;
  for_each (seq 1 n) metric_lists_empty
    (sweep_body data_container test_data_container store_folder).

Record metric_dict := {
  md_train : list Q;
  md_val : list Q;
  md_test : list Q;
  md_name : string
}.

(** Lines 201 to 204. *)
Definition collect_body (ml : metric_lists) (metric : string)
    (md : metric_dict) (feature_number : nat) : result metric_dict :=
  tr ← list_index (train_metric_list ml) feature_number;
  trv ← getitem tr ("train_" +:+ metric);
  va ← list_index (val_metric_list ml) feature_number;
  vav ← getitem va ("val_" +:+ metric);
  t0 ← list_index (test_metric_list ml) 0;
  test' ←
    (if nonempty t0 then
       te ← list_index (test_metric_list ml) feature_number;
       tev ← getitem te ("test_" +:+ metric);
       mret (md_test md ++ [float tev])
     else mret (md_test md));
  mret {| md_train := md_train md ++ [float trv];
          md_val := md_val md ++ [float vav];
          md_test := test';
          md_name := md_name md |}.

Fixpoint collect_loop (ml : metric_lists) (metric : string)
    (md : metric_dict) (range : list nat) : result metric_dict :=
  match range with
  | [] => mret md
  | feature_number :: range' =>
      md' ← collect_body ml metric md feature_number;
      collect_loop ml metric md' range'
  end.

(** Lines 197 to 205. *)
Fixpoint collect (ml : metric_lists) (n : nat) (metric_name_list : list string)
  : result (list metric_dict) :=
  match metric_name_list with
  | [] => mret []
  | metric :: rest =>
      let metric_ditc :=
        {| md_train := []; md_val := []; md_test := []; md_name := metric |} in
      md ← collect_loop ml metric metric_ditc (seq 0 n);
      mds ← collect ml n rest;
      mret (md :: mds)
  end.

(** Lines 210 to 219: one curve. *)
Definition plot_body (ml : metric_lists) (n : nat) (store_folder : string)
    (md : metric_dict) : M unit :=
  do t0 <- lift (list_index (test_metric_list ml) 0);
  if nonempty t0 then
    emit (EvDrawCurve (seq 1 n) [md_train md; md_val md; md_test md]
            (md_name md) ["train"; "validation"; "test"]
            (path_join store_folder (md_name md +:+ "_FeatureNum.jpg")))
  else
    emit (EvDrawCurve (seq 1 n) [md_train md; md_val md]
            (md_name md) ["train"; "validation"]
            (path_join store_folder (md_name md +:+ "_FeatureNum.jpg"))).

(** Lines 208 to 219. *)
Definition plot (ml : metric_lists) (n : nat) (store_folder : string)
    (metric_list : list metric_dict) : M unit :=
  do is_dir <- path_isdir store_folder;
  if bool_decide (store_folder ≠ "") && is_dir then
    for_each metric_list tt (λ _ md, plot_body ml n store_folder md)
  else ret tt.

(** [for key in new_info.keys(): metric_info[key[n:]] = new_info[key]] *)
Fixpoint strip_into (n : nat) (new_info : dict pyval) (ks : list string)
    (metric_info : dict pyval) : result (dict pyval) :=
  match ks with
  | [] => mret metric_info
  | key :: ks' =>
      v ← getitem new_info key;
      strip_into n new_info ks' (set (string_drop n key) v metric_info)
  end.

(** Lines 226 to 231 and their two copies for the test records: the
    record at position [i] of [records], its keys cut by [n] characters,
    with the entry [feature_number]. *)
Definition selected (n : nat) (records : list (dict pyval)) (values : list Q)
  : result (dict pyval) :=
  i ← argmax values;
  new_info ← list_index records i;
  i' ← argmax values;
  let metric_info := set "feature_number" (PyInt (Z.of_nat i' + 1)) [] in
  metric_info ← strip_into n new_info (keys new_info) metric_info;
  mret (sorted_dict metric_info).

Record returned := {
  val_return_list : list (dict pyval);
  test_return_max_val_list : list (dict pyval);
  test_return_max_test_list : list (dict pyval)
}.

(** Lines 226 to 248. *)
Definition select_body (ml : metric_lists) (acc : returned) (md : metric_dict)
  : result returned :=
  val_info ← selected 4 (val_metric_list ml) (md_val md);
  let val_return_list' := val_return_list acc ++ [val_info] in
  t0 ← list_index (test_metric_list ml) 0;
  if nonempty t0 then
    at_val ← selected 5 (test_metric_list ml) (md_val md);
    at_test ← selected 5 (test_metric_list ml) (md_test md);
    mret {| val_return_list := val_return_list';
            test_return_max_val_list := test_return_max_val_list acc ++ [at_val];
            test_return_max_test_list := test_return_max_test_list acc ++ [at_test] |}
  else
    mret {| val_return_list := val_return_list';
            test_return_max_val_list := test_return_max_val_list acc;
            test_return_max_test_list := test_return_max_test_list acc |}.

(** Lines 221 to 250. *)
Fixpoint select_loop (ml : metric_lists) (acc : returned)
    (metric_list : list metric_dict) : result returned :=
  match metric_list with
  | [] => mret acc
  | md :: rest =>
      acc' ← select_body ml acc md;
      select_loop ml acc' rest
  end.

Definition select (ml : metric_lists) (metric_list : list metric_dict)
  : result returned :=
  select_loop ml
    {| val_return_list := []; test_return_max_val_list := [];
       test_return_max_test_list := [] |} metric_list.

(** Lines 197 to 250: what follows the sweep. *)
Definition summarise (ml : metric_lists) (store_folder : string)
    (metric_name_list : list string) : M returned :=
  do n <- ask max_feature_number;
  do metric_list <- lift (collect ml n metric_name_list);
  run plot ml n store_folder metric_list;
  lift (select ml metric_list).

Definition Run (data_container test_data_container : DataContainer)
    (store_folder : string) (metric_name_list : list string) : M returned :=
  do ml <- sweep data_container test_data_container store_folder;
  summarise ml store_folder metric_name_list.

(** [__init__(cv_method, max_feature_number=1)]; [Classifier()] and
    [FeatureSelectByAnalysis()] are [fresh] and [fresh_selector]. *)
Definition __init__ (fresh : C) (fresh_selector : S) (cv_method : string)
    (max_feature_number' : nat) : M unit :=
  run CrossValidation.__init__ fresh cv_method;
  λ w, Ok (tt, {| classifier := classifier w; cv := cv w;
                  max_feature_number := max_feature_number';
                  feature_selector := fresh_selector;
                  dirs := dirs w; trace := trace w |}).

Definition SetMaxFeatureNumber (max_feature_number' : nat) : M unit :=
  λ w, Ok (tt, {| classifier := classifier w; cv := cv w;
                  max_feature_number := max_feature_number';
                  feature_selector := feature_selector w;
                  dirs := dirs w; trace := trace w |}).

Definition GetMaxFeatureNumber : M nat := ask max_feature_number.

Definition SetFeatureSelector (feature_selector' : S) : M unit :=
  with_selector (λ _, (tt, feature_selector')).

Definition GetFeatureSelector : M S := ask feature_selector.
End Methods.
End CrossValidationOnFeatureNumber.

(** ** A small concrete setting

    A classifier that scores a sample by the sum of the features it was
    fitted on, a selector
    that keeps the leading columns, leave-one-out and round-robin folds, and
    an estimator that reports the share of samples whose thresholded score
    equals the label. *)
Module Toy.
Record toy_classifier := {
  toy_data : matrix;
  toy_label : list Z;
  toy_width : nat
}.

Definition Qsum (row : list Q) : Q := foldr Qplus 0%Q row.

Global Instance toy_Classifier : Classifier toy_classifier := {|
  SetData X y c := {| toy_data := X; toy_label := y; toy_width := toy_width c |};
  SetDataContainer d c :=
    {| toy_data := GetArray d; toy_label := GetLabel d; toy_width := toy_width c |};
  Fit c :=
    {| toy_data := toy_data c; toy_label := toy_label c;
       toy_width := length (default [] (head (toy_data c))) |};
  Predict c X := (λ row, Qsum (take (toy_width c) row)) <$> X;
  Save folder c := c
|}.

Global Instance toy_FeatureSelector : FeatureSelector nat := {|
  SetSelectedFeatureNumber n s := n;
  SelectorRun s d folder :=
    ({| GetArray := take s <$> GetArray d; GetLabel := GetLabel d |}, s)
|}.

Definition all_but (i n : nat) : list nat :=
  filter (λ j, j ≠ i) (seq 0 n).

Definition residue_class (k r n : nat) : list nat :=
  filter (λ j, j `mod` k = r) (seq 0 n).

Definition toy_split (s : splitter) (X : matrix) (y : list Z)
  : list (list nat * list nat) :=
  let n := length X `min` length y in
  match s with
  | LeaveOneOut => (λ i, (all_but i n, [i])) <$> seq 0 n
  | StratifiedKFold k =>
      (λ r, (filter (λ j, j `mod` k ≠ r) (seq 0 n), residue_class k r n))
        <$> seq 0 k
  end.

Definition hit (p : Q) (l : Z) : bool :=
  bool_decide ((if Qgtb p (1 # 2) then 1%Z else 0%Z) = l).

Fixpoint hits (pred : list Q) (lab : list Z) : nat :=
  match pred, lab with
  | p :: pred', l :: lab' => (if hit p l then 1 else 0) + hits pred' lab'
  | _, _ => 0
  end.

Definition share (pred : list Q) (lab : list Z) : Q :=
  Z.of_nat (hits pred lab) # Pos.of_nat (length lab).

Global Instance toy_Imports : Imports := {|
  cv_split := toy_split;
  EstimateMetirc pred lab phase :=
    [(phase +:+ "_auc", PyFloat (share pred lab));
     (phase +:+ "_accuracy", PyFloat (share pred lab));
     (phase +:+ "_sample_number", PyInt (Z.of_nat (length lab)))];
  float32 q := q
|}.

Definition toy_world (n : nat) (folders : list string)
  : world toy_classifier nat :=
  {| classifier := {| toy_data := []; toy_label := []; toy_width := 0 |};
     cv := CrossValidation.splitter_of "LOO";
     max_feature_number := n;
     feature_selector := 0;
     dirs := folders;
     trace := [] |}.

Definition train_set : DataContainer :=
  {| GetArray := [[1; 0; 0]; [1; -1; 1]; [1; 0; 0]; [0; 0; 0]]%Q;
     GetLabel := [1; 0; 1; 0]%Z |}.

Definition test_set : DataContainer :=
  {| GetArray := [[0; 0; 1]; [1; 0; -1]; [1; 0; 0]; [0; 0; 0]]%Q;
     GetLabel := [1; 0; 1; 0]%Z |}.

Definition no_test : DataContainer := {| GetArray := []; GetLabel := [] |}.
End Toy.


(** * Vocabulary of the statements

    Predicates on events and records, and the outcome of each passage of
    the two [Run] methods written as a function of what the passage starts
    from.  The lemmas below relate them to the monadic code above. *)
Section Vocabulary.
Context {C S : Type} `{!Classifier C} `{!FeatureSelector S} `{!Imports}.
Import CrossValidation.
Import CrossValidationOnFeatureNumber.

(** The order of [sorted] and [list.sort] on keys: byte-wise lexicographic. *)
Definition key_lt (a b : string) : Prop := String.ltb a b = true.

(** The cells that follow the key in a row. *)
Definition row_values (v : info_value) : list cell :=
  match v with
  | Scalar c => [c]
  | Sequence cs => cs
  end.

(** The row of one entry: the key, then its value or values. *)
Definition row_of_item (kv : string * info_value) : list cell :=
  CStr kv.1 :: row_values kv.2.

(** The first column of a row, when it is a name. *)
Definition row_key (r : list cell) : option string :=
  match r with
  | CStr k :: _ => Some k
  | _ => None
  end.

(** Rows ordered by their first column. *)
Definition row_lt (r1 r2 : list cell) : Prop :=
  ∃ k1 k2, row_key r1 = Some k1 ∧ row_key r2 = Some k2 ∧ key_lt k1 k2.

(** The world after a passage that left the classifier [c], the
    directories [ds] and appended the events [evs]. *)
Definition set_world {C S} (w : world C S) (c : C) (ds : list string)
    (evs : list event) : world C S :=
  {| classifier := c; cv := cv w;
     max_feature_number := max_feature_number w;
     feature_selector := feature_selector w;
     dirs := ds; trace := trace w ++ evs |}.

(** The table that [SaveResult] writes for [info]. *)
Definition table_rows (info : dict info_value) : list (list cell) :=
  row_of_item <$> sorted_items info.

(** The file that [SaveResult] writes to. *)
Definition table_path {C S} (w : world C S) (store_path : string) : string :=
  if bool_decide (store_path ∈ dirs w)
  then path_join store_path "result.csv" else store_path.

(** The loop over the folds as a function of the classifier it starts
    from: the pooled sequences, the classifier after the last fold and
    the events of the loop. *)
Fixpoint fold_outcomes (data : matrix) (label : list Z) (c : C)
    (acc : pooled) (folds : list (list nat * list nat))
  : result (pooled * C * list event) :=
  match folds with
  | [] => Ok (acc, c, [])
  | fold :: rest =>
      train_data ← take_rows data fold.1;
      train_label ← take_rows label fold.1;
      val_data ← take_rows data fold.2;
      val_label ← take_rows label fold.2;
      let c' := Fit (SetData train_data train_label c) in
      r ← fold_outcomes data label c'
             {| train_pred_list := train_pred_list acc ++ Predict c' train_data;
                train_label_list := train_label_list acc ++ train_label;
                val_pred_list := val_pred_list acc ++ Predict c' val_data;
                val_label_list := val_label_list acc ++ val_label;
                val_index_store := val_index_store acc ++ fold.2 |} rest;
      mret (r.1.1, r.1.2,
            [EvSetData train_data train_label; EvFit;
             EvPredict train_data; EvPredict val_data] ++ r.2)
  end.

(** What [Run] computes after the folds, as functions of the pooled
    sequences [acc] and of the classifier [c] left by the last fold. *)
Definition train_metric_of (acc : pooled) : dict pyval :=
  EstimateMetirc (float32 <$> train_pred_list acc)
    (uint8 <$> train_label_list acc) "train".

Definition val_metric_of (acc : pooled) : dict pyval :=
  EstimateMetirc (float32 <$> val_pred_list acc)
    (uint8 <$> val_label_list acc) "val".

Definition refit (d : DataContainer) (c : C) : C :=
  Fit (SetDataContainer d c).

Definition test_present (t : DataContainer) : bool :=
  bool_decide (0 < array_size (GetArray t)).

Definition test_pred_of (d t : DataContainer) (c : C) : list Q :=
  Predict (refit d c) (GetArray t).

Definition test_metric_of (d t : DataContainer) (c : C) : dict pyval :=
  if test_present t
  then EstimateMetirc (test_pred_of d t c) (GetLabel t) "test"
  else [].

Definition test_events (d t : DataContainer) (c : C) : list event :=
  if test_present t
  then [EvPredict (GetArray t);
        EvEstimate (test_pred_of d t c) (GetLabel t) "test"]
  else [].

Definition info_of (d t : DataContainer) (acc : pooled) (c : C)
  : dict info_value :=
  let info := info_update (info_update [] (train_metric_of acc))
                (val_metric_of acc) in
  if test_present t then info_update info (test_metric_of d t c) else info.

Definition test_artifacts (store : string) (d t : DataContainer) (c : C)
  : list event :=
  if test_present t
  then [EvSavePred (path_join store "test_predict.npy") (test_pred_of d t c);
        EvSaveLabel (path_join store "test_label.npy") (GetLabel t);
        EvDrawROCList (test_pred_of d t c) (GetLabel t)
          (path_join store "test_ROC.jpg")]
  else [].

Definition store_branch_events (ds : list string) (store : string)
    (d t : DataContainer) (acc : pooled) (c : C) : list event :=
    (if bool_decide (store ∈ ds) then [] else [EvMkdir store]) ++
    [EvSavePred (path_join store "train_predict.npy")
       (float32 <$> train_pred_list acc);
     EvSavePred (path_join store "val_predict.npy")
       (float32 <$> val_pred_list acc);
     EvSaveLabel (path_join store "train_label.npy")
       (uint8 <$> train_label_list acc);
     EvSaveLabel (path_join store "val_label.npy")
       (uint8 <$> val_label_list acc);
     EvToCsv (path_join store "cv_info.csv") (val_index_store acc);
     EvDrawROCList (float32 <$> train_pred_list acc)
       (uint8 <$> train_label_list acc) (path_join store "train_ROC.jpg");
     EvDrawROCList (float32 <$> val_pred_list acc)
       (uint8 <$> val_label_list acc) (path_join store "val_ROC.jpg")] ++
    test_artifacts store d t c ++
    [EvClassifierSave store;
     EvWriteRows (path_join store "result.csv") (table_rows (info_of d t acc c))].

Definition store_events (ds : list string) (store : string)
    (d t : DataContainer) (acc : pooled) (c : C) : list event :=
  if bool_decide (store ≠ "")
  then store_branch_events ds store d t acc c else [].

Definition stored_dirs (ds : list string) (store : string) : list string :=
  if bool_decide (store ≠ "") && negb (bool_decide (store ∈ ds))
  then ds ++ [store] else ds.

Definition stored_classifier (store : string) (c : C) : C :=
  if bool_decide (store ≠ "") then Save store c else c.

Definition run_events (ds : list string) (store : string)
    (d t : DataContainer) (acc : pooled) (c : C) (evs : list event)
  : list event :=
  [EvCallRun d t store] ++ evs ++
  [EvEstimate (float32 <$> train_pred_list acc)
     (uint8 <$> train_label_list acc) "train";
   EvEstimate (float32 <$> val_pred_list acc)
     (uint8 <$> val_label_list acc) "val";
   EvSetDataContainer d; EvFit] ++
  test_events d t c ++ store_events ds store d t acc c.

(** Events of the loop over the folds. *)
Definition fold_event (e : event) : bool :=
  match e with
  | EvSetData _ _ | EvFit | EvPredict _ => true
  | _ => false
  end.

Definition is_fit (e : event) : bool :=
  match e with
  | EvFit => true
  | _ => false
  end.

(** Events that change what the classifier has learnt. *)
Definition trains_classifier (e : event) : bool :=
  match e with
  | EvSetData _ _ | EvSetDataContainer _ | EvFit => true
  | _ => false
  end.

(** Every index of every fold addresses a sample and its label. *)
Definition folds_in_range (d : DataContainer)
    (folds : list (list nat * list nat)) : Prop :=
  Forall (λ fold,
            Forall (λ i, i < length (GetArray d) ∧ i < length (GetLabel d))
              (fold.1 ++ fold.2)) folds.

(** The number of samples in a training role and held out, over all folds. *)
Definition train_role_total (folds : list (list nat * list nat)) : nat :=
  sum_list ((λ fold, length fold.1) <$> folds).
Definition held_out_total (folds : list (list nat * list nat)) : nat :=
  sum_list ((λ fold, length fold.2) <$> folds).

(** Events that compute the test metric or write a test artifact under
    [store]. *)
Definition test_related (store : string) (e : event) : bool :=
  match e with
  | EvEstimate _ _ phase => bool_decide (phase = "test")
  | EvSavePred p _ => bool_decide (p = path_join store "test_predict.npy")
  | EvSaveLabel p _ => bool_decide (p = path_join store "test_label.npy")
  | EvDrawROCList _ _ p => bool_decide (p = path_join store "test_ROC.jpg")
  | _ => false
  end.

(** The value a call returns, without the world. *)
Definition returned_value {A W} (r : result (A * W)) : result A :=
  match r with
  | Ok (a, _) => Ok a
  | Raise e => Raise e
  end.

(** Calls of the feature selector and of the cross-validation run. *)
Definition is_call (e : event) : bool :=
  match e with
  | EvSetSelectedFeatureNumber _ | EvSelectorRun _ _ | EvCallRun _ _ _ => true
  | _ => false
  end.

(** The folder of one feature count. *)
Definition feature_folder (store_folder : string) (n : nat) : string :=
  path_join store_folder ("feature_" +:+ pretty n).

(** The selector after the passes for the feature counts [ns]. *)
Fixpoint selector_after (sel : S) (d : DataContainer) (store : string)
    (ns : list nat) : S :=
  match ns with
  | [] => sel
  | n :: rest =>
      selector_after
        (SelectorRun (SetSelectedFeatureNumber n sel) d (feature_folder store n)).2
        d store rest
  end.

(** The dataset that the selector returns for [n] when it starts from
    [sel]. *)
Definition reduced (sel : S) (d : DataContainer) (store : string) (n : nat)
  : DataContainer :=
  (SelectorRun (SetSelectedFeatureNumber n sel) d (feature_folder store n)).1.

(** The calls of selector and runner for the feature counts [ns], as the
    specification orders them: select [n] features, reduce the dataset,
    cross-validate the reduced dataset. *)
Fixpoint expected_calls (sel : S) (d t : DataContainer) (store : string)
    (ns : list nat) : list event :=
  match ns with
  | [] => []
  | n :: rest =>
      [EvSetSelectedFeatureNumber n;
       EvSelectorRun d (feature_folder store n);
       EvCallRun (reduced sel d store n) t (feature_folder store n)] ++
      expected_calls
        (SelectorRun (SetSelectedFeatureNumber n sel) d (feature_folder store n)).2
        d t store rest
  end.

(** The world in which the cross-validation run of feature count [n]
    starts. *)
Definition selected_world (w : world C S) (d : DataContainer)
    (store : string) (n : nat) : world C S :=
  {| classifier := classifier w; cv := cv w;
     max_feature_number := max_feature_number w;
     feature_selector :=
       (SelectorRun (SetSelectedFeatureNumber n (feature_selector w)) d
          (feature_folder store n)).2;
     dirs := if bool_decide (feature_folder store n ∈ dirs w) then dirs w
             else dirs w ++ [feature_folder store n];
     trace :=
       trace w ++ [EvLoadWaitBar (max_feature_number w) n] ++
       (if bool_decide (feature_folder store n ∈ dirs w) then []
        else [EvMkdir (feature_folder store n)]) ++
       [EvSetSelectedFeatureNumber n;
        EvSelectorRun d (feature_folder store n)] |}.

(** The splitter only yields indices of samples that exist. *)
Definition splitter_in_range : Prop :=
  ∀ (s : splitter) (d : DataContainer),
    folds_in_range d (cv_split s (GetArray d) (GetLabel d)).

(** What the sweep has established after the passes for [pre], started in
    [w0]. *)
Definition sweep_invariant (w0 : world C S) (d t : DataContainer)
    (store : string) (pre : list nat) (ml : metric_lists) (w : world C S)
  : Prop :=
  cv w = cv w0 ∧
  max_feature_number w = max_feature_number w0 ∧
  feature_selector w = selector_after (feature_selector w0) d store pre ∧
  length (train_metric_list ml) = length pre ∧
  length (val_metric_list ml) = length pre ∧
  length (test_metric_list ml) = length pre ∧
  Forall (λ r, ∃ p l, r = EstimateMetirc p l "train") (train_metric_list ml) ∧
  Forall (λ r, ∃ p l, r = EstimateMetirc p l "val") (val_metric_list ml) ∧
  Forall (λ r, if test_present t
               then ∃ p l, r = EstimateMetirc p l "test"
               else r = []) (test_metric_list ml) ∧
  ∃ new, trace w = trace w0 ++ new ∧
         filter (λ e, is_call e = true) new =
           expected_calls (feature_selector w0) d t store pre.

(** The keys of a record all start with [p]. *)
Definition keys_tagged (p : string) (r : dict pyval) : Prop :=
  ∀ key, key ∈ keys r → ∃ name, key = p +:+ name.

(** [values] is the sequence of [float(record[key])] over [records]. *)
Definition column (key : string) (records : list (dict pyval))
    (values : list Q) : Prop :=
  Forall2 (λ r q, float <$> get key r = Some q) records values.

(** The test of lines 203, 210 and 233: [test_metric_list[0] != {}]. *)
Definition test_exists (ml : metric_lists) : bool :=
  match test_metric_list ml with
  | t0 :: _ => nonempty t0
  | [] => false
  end.

(** Every record of every phase reports the metric [metric]. *)
Definition reports (ml : metric_lists) (metric : string) : Prop :=
  Forall (λ r, is_Some (get ("train_" +:+ metric) r)) (train_metric_list ml) ∧
  Forall (λ r, is_Some (get ("val_" +:+ metric) r)) (val_metric_list ml) ∧
  (test_exists ml = true →
   Forall (λ r, is_Some (get ("test_" +:+ metric) r)) (test_metric_list ml)).

(** The metric sequences that [collect] builds for one name. *)
Definition collected (ml : metric_lists) (metric : string) (md : metric_dict)
  : Prop :=
  md_name md = metric ∧
  column ("train_" +:+ metric) (train_metric_list ml) (md_train md) ∧
  column ("val_" +:+ metric) (val_metric_list ml) (md_val md) ∧
  (if test_exists ml
   then column ("test_" +:+ metric) (test_metric_list ml) (md_test md)
   else md_test md = []).

(** The three selections of lines 226 to 248 return for [md]. *)
Definition selections_return (ml : metric_lists) (md : metric_dict) : Prop :=
  (∃ r, selected 4 (val_metric_list ml) (md_val md) = Ok r) ∧
  (test_exists ml = true →
   (∃ r, selected 5 (test_metric_list ml) (md_val md) = Ok r) ∧
   (∃ r, selected 5 (test_metric_list ml) (md_test md) = Ok r)).

(** The lists that the selection loop returns for [mds]. *)
Definition selections (ml : metric_lists) (mds : list metric_dict)
    (out : returned) : Prop :=
  Forall2 (λ md r, selected 4 (val_metric_list ml) (md_val md) = Ok r)
    mds (val_return_list out) ∧
  (if test_exists ml
   then Forall2 (λ md r, selected 5 (test_metric_list ml) (md_val md) = Ok r)
          mds (test_return_max_val_list out) ∧
        Forall2 (λ md r, selected 5 (test_metric_list ml) (md_test md) = Ok r)
          mds (test_return_max_test_list out)
   else test_return_max_val_list out = [] ∧
        test_return_max_test_list out = []).

(** The curve drawn for one metric. *)
Definition curve_event (t0 : dict pyval) (n : nat) (store_folder : string)
    (md : metric_dict) : event :=
  if nonempty t0 then
    EvDrawCurve (seq 1 n) [md_train md; md_val md; md_test md]
      (md_name md) ["train"; "validation"; "test"]
      (path_join store_folder (md_name md +:+ "_FeatureNum.jpg"))
  else
    EvDrawCurve (seq 1 n) [md_train md; md_val md]
      (md_name md) ["train"; "validation"]
      (path_join store_folder (md_name md +:+ "_FeatureNum.jpg")).

(** What this module relies on from the metric estimator: every key is the
    phase tag, an underscore and a metric name; no metric is called
    [feature_number]; the requested metrics are reported. *)
Definition estimator_contract (names : list string) : Prop :=
  ∀ pred lab phase,
    keys_tagged (phase +:+ "_") (EstimateMetirc pred lab phase) ∧
    get (phase +:+ "_feature_number") (EstimateMetirc pred lab phase) = None ∧
    (∀ m, m ∈ names →
          is_Some (get (phase +:+ "_" +:+ m) (EstimateMetirc pred lab phase))).

(** The arguments of the calls of [SetSelectedFeatureNumber], in order. *)
Definition selected_numbers (evs : list event) : list nat :=
  omap (λ e, match e with
             | EvSetSelectedFeatureNumber n => Some n
             | _ => None
             end) evs.

(** What a sweep run returns about the test records, for one setting of
    the collaborators: the two lists, and for each metric the positions
    and records they are read from. *)
Definition test_selections_statement (w : world C S) (d t : DataContainer)
    (store : string) (names : list string) : Prop :=
  ∃ ml w1 out w2,
    sweep d t store w = Ok (ml, w1) ∧
    Run d t store names w = Ok (out, w2) ∧
    length (test_return_max_val_list out) = length names ∧
    length (test_return_max_test_list out) = length names ∧
    ∀ j metric, names !! j = Some metric →
      ∃ val_values test_values i_val i_test rec_val rec_test r_val r_test,
        column ("val_" +:+ metric) (val_metric_list ml) val_values ∧
        column ("test_" +:+ metric) (test_metric_list ml) test_values ∧
        is_first_argmax val_values i_val ∧
        is_first_argmax test_values i_test ∧
        test_metric_list ml !! i_val = Some rec_val ∧
        test_metric_list ml !! i_test = Some rec_test ∧
        test_return_max_val_list out !! j = Some r_val ∧
        test_return_max_test_list out !! j = Some r_test ∧
        get "feature_number" r_val = Some (PyInt (Z.of_nat i_val + 1)) ∧
        get "feature_number" r_test = Some (PyInt (Z.of_nat i_test + 1)) ∧
        (∀ k, k ≠ "feature_number" →
              get k r_val = get ("test_" +:+ k) rec_val) ∧
        (∀ k, k ≠ "feature_number" →
              get k r_test = get ("test_" +:+ k) rec_test).

(** The names that [__init__] and [SetCV] recognise. *)
Definition cv_names : list string := ["LOO"; "10-folder"; "5-folder"].

(** The phases of the estimates among [evs], in order. *)
Definition is_estimate (e : event) : bool :=
  match e with
  | EvEstimate _ _ _ => true
  | _ => false
  end.

(** The directory or file that an event creates or writes. *)
Definition written (e : event) : option string :=
  match e with
  | EvMkdir p | EvClassifierSave p => Some p
  | EvSavePred p _ | EvSaveLabel p _ | EvToCsv p _ | EvWriteRows p _ => Some p
  | EvDrawROCList _ _ p | EvDrawCurve _ _ _ _ p => Some p
  | _ => None
  end.

(** The entry of [k] after [info.update(train)], [info.update(val)],
    [info.update(test)]: the last record that has [k] wins. *)
Definition merged (metrics : dict pyval * dict pyval * dict pyval)
    (k : string) : option pyval :=
  match get k metrics.2 with
  | Some v => Some v
  | None =>
      match get k metrics.1.2 with
      | Some v => Some v
      | None => get k metrics.1.1
      end
  end.

(** The records that the estimates of [phase] among [evs] return, in order. *)
Definition estimates_of (phase : string) (evs : list event)
  : list (dict pyval) :=
  omap (λ e, match e with
             | EvEstimate pred lab phase' =>
                 if decide (phase' = phase)
                 then Some (EstimateMetirc pred lab phase') else None
             | _ => None
             end) evs.

(** What the sweep has written and estimated after the passes for [pre],
    started in [w0]. *)
Definition sweep_detail (w0 : world C S) (t : DataContainer)
    (store : string) (pre : list nat) (ml : metric_lists) (w : world C S)
  : Prop :=
  cv w = cv w0 ∧
  max_feature_number w = max_feature_number w0 ∧
  (∀ p, p ∈ dirs w0 → p ∈ dirs w) ∧
  ∃ new,
    trace w = trace w0 ++ new ∧
    train_metric_list ml = estimates_of "train" new ∧
    val_metric_list ml = estimates_of "val" new ∧
    test_metric_list ml =
      (if test_present t then estimates_of "test" new
       else replicate (length pre) []) ∧
    (test_present t = false → estimates_of "test" new = []) ∧
    length (train_metric_list ml) = length pre ∧
    length (val_metric_list ml) = length pre ∧
    length (test_metric_list ml) = length pre ∧
    ∀ n, n ∈ pre →
      feature_folder store n ∈ dirs w ∧
      EvClassifierSave (feature_folder store n) ∈ new ∧
      ∃ rows, EvWriteRows (path_join (feature_folder store n) "result.csv")
                rows ∈ new.

(** A record as [selected] returns it: keys in strictly increasing order
    and an entry [feature_number]. *)
Definition well_formed_selection (r : dict pyval) : Prop :=
  StronglySorted key_lt (keys r) ∧ is_Some (get "feature_number" r).
End Vocabulary.

(** * Properties *)

(** ** Comparison of floats and [np.argmax] *)

Lemma Qgtb_true (x y : Q) : Qgtb x y = true ↔ (y < x)%Q.
Proof.
  unfold Qgtb. rewrite negb_true_iff. split.
  - intros Hle. apply Qnot_le_lt. intros Hxy.
    apply Qle_bool_iff in Hxy. congruence.
  - intros Hlt. destruct (Qle_bool x y) eqn:Hb; [|done].
    apply Qle_bool_iff in Hb. exfalso. by apply (Qlt_not_le y x).
Qed.

Lemma Qgtb_false (x y : Q) : Qgtb x y = false ↔ (x <= y)%Q.
Proof.
  unfold Qgtb. rewrite negb_false_iff. apply Qle_bool_iff.
Qed.

(** The scan invariant: [mp] is the first maximum of the prefix read so
    far, and [max_ind] is where it stands. *)
Lemma argmax_go_first (ip pre : list Q) (mp : Q) (max_ind : nat) :
  pre !! max_ind = Some mp →
  (∀ j x, pre !! j = Some x → (x <= mp)%Q) →
  (∀ j x, j < max_ind → pre !! j = Some x → (x < mp)%Q) →
  is_first_argmax (pre ++ ip) (argmax_go mp max_ind (length pre) ip).
Proof.
  revert pre mp max_ind.
  induction ip as [|x rest IH]; intros pre mp max_ind Hat Hmax Hfirst.
  - simpl. rewrite app_nil_r. by exists mp.
  - simpl. assert (Hlen : length (pre ++ [x]) = Datatypes.S (length pre)).
    { rewrite length_app. simpl. lia. }
    replace (pre ++ x :: rest) with ((pre ++ [x]) ++ rest)
      by (by rewrite <- app_assoc).
    pose proof (IH (pre ++ [x])) as IH'. rewrite Hlen in IH'.
    destruct (Qgtb x mp) eqn:Hcmp.
    + apply Qgtb_true in Hcmp. apply IH'.
      * rewrite lookup_app_r by lia. by rewrite Nat.sub_diag.
      * intros j y Hj. apply lookup_app_Some in Hj as [Hj|[_ Hj]].
        -- apply Qlt_le_weak. eapply Qle_lt_trans; [by eapply Hmax|done].
        -- apply list_lookup_singleton_Some in Hj as [_ <-]. apply Qle_refl.
      * intros j y Hlt Hj. rewrite lookup_app_l in Hj by done.
        eapply Qle_lt_trans; [by eapply Hmax|done].
    + apply Qgtb_false in Hcmp. apply IH'.
      * apply lookup_app_Some. by left.
      * intros j y Hj. apply lookup_app_Some in Hj as [Hj|[_ Hj]].
        -- by eapply Hmax.
        -- by apply list_lookup_singleton_Some in Hj as [_ <-].
      * intros j y Hlt Hj. apply lookup_lt_Some in Hat.
        rewrite lookup_app_l in Hj by lia. by eapply Hfirst.
Qed.

Lemma argmax_first (a : list Q) :
  a ≠ [] → ∃ i, argmax a = Ok i ∧ is_first_argmax a i.
Proof.
  destruct a as [|x rest]; [done|]. intros _. eexists. split; [done|].
  apply (argmax_go_first rest [x] x 0).
  - done.
  - intros j y Hj. apply list_lookup_singleton_Some in Hj as [_ <-].
    apply Qle_refl.
  - intros j y Hj. lia.
Qed.

Lemma is_first_argmax_lt (a : list Q) (i : nat) :
  is_first_argmax a i → i < length a.
Proof. intros (m & Hm & _). by eapply lookup_lt_Some. Qed.

(** ** The order on keys *)

Lemma compare_refl_string (a : string) : String.compare a a = Eq.
Proof.
  pose proof (String.compare_antisym a a) as Hanti.
  destruct (String.compare a a); done.
Qed.

Lemma key_lt_le (a b : string) : key_lt a b ↔ String.le a b ∧ a ≠ b.
Proof.
  unfold key_lt, String.le, String.ltb, String.leb. split.
  - destruct (String.compare a b) eqn:Hc; try done.
    intros _. split; [done|]. intros ->.
    by rewrite compare_refl_string in Hc.
  - intros [Hle Hne]. destruct (String.compare a b) eqn:Hc; try done.
    by apply String.compare_eq_iff in Hc.
Qed.

Lemma key_lt_irrefl (a : string) : ¬ key_lt a a.
Proof. rewrite key_lt_le. naive_solver. Qed.

Lemma key_lt_trans (a b c : string) : key_lt a b → key_lt b c → key_lt a c.
Proof.
  rewrite !key_lt_le. intros [Hab Hne] [Hbc Hne']. split.
  - by etrans.
  - intros ->. apply Hne. by apply (anti_symm String.le).
Qed.

Lemma key_lt_total (a b : string) :
  String.ltb a b = false → a ≠ b → key_lt b a.
Proof.
  intros Hf Hne. apply key_lt_le. split; [|done].
  destruct (total String.le a b) as [Hle|Hle]; [|done].
  assert (key_lt a b) as Hlt by (by apply key_lt_le).
  unfold key_lt in Hlt. congruence.
Qed.

(** ** Dictionaries *)
Section DictFacts.
Context {V : Type}.
Implicit Types (d e : dict V) (k : string) (v : V).

Lemma get_Some_elem d k v : get k d = Some v → (k, v) ∈ d.
Proof.
  induction d as [|[k' v'] d IH]; simpl; [done|].
  case_decide as Hk; intros Hg.
  - simplify_eq. apply list_elem_of_here.
  - apply list_elem_of_further. by apply IH.
Qed.

Lemma get_None d k : get k d = None ↔ k ∉ keys d.
Proof.
  unfold keys. induction d as [|[k' v'] d IH]; simpl.
  - split; [intros _; apply not_elem_of_nil|done].
  - rewrite not_elem_of_cons. case_decide as Hk; naive_solver.
Qed.

Lemma get_is_Some d k : is_Some (get k d) ↔ k ∈ keys d.
Proof.
  rewrite <- not_eq_None_Some, get_None.
  destruct (decide (k ∈ keys d)); naive_solver.
Qed.

Lemma get_elem_wf d k v : wf d → (k, v) ∈ d → get k d = Some v.
Proof.
  unfold wf, keys. induction d as [|[k' v'] d IH]; simpl.
  - intros _ Hin. by apply not_elem_of_nil in Hin.
  - rewrite NoDup_cons. intros [Hfresh Hnd] Hin.
    apply elem_of_cons in Hin as [Heq|Hin].
    + simplify_eq. by rewrite decide_True.
    + rewrite decide_False; [by apply IH|].
      intros ->. apply Hfresh. apply list_elem_of_fmap.
      by exists (k, v).
Qed.

Lemma get_perm d e k : wf d → d ≡ₚ e → get k e = get k d.
Proof.
  intros Hwf Hp.
  assert (Hwf' : wf e).
  { unfold wf, keys in *. by rewrite <- Hp. }
  destruct (get k d) as [v|] eqn:Hd.
  - apply get_elem_wf; [done|]. rewrite <- Hp. by apply get_Some_elem.
  - apply get_None. apply get_None in Hd. unfold keys in *. by rewrite <- Hp.
Qed.

Lemma get_set d k k' v :
  get k' (set k v d) = if decide (k = k') then Some v else get k' d.
Proof.
  induction d as [|[k0 v0] d IH]; simpl.
  - done.
  - destruct (decide (k0 = k)) as [->|Hne]; simpl.
    + by destruct (decide (k = k')).
    + rewrite IH. destruct (decide (k0 = k')) as [->|]; [|done].
      by rewrite decide_False.
Qed.

Lemma set_fresh d k v : k ∉ keys d → set k v d = d ++ [(k, v)].
Proof.
  unfold keys. induction d as [|[k0 v0] d IH]; simpl; [done|].
  rewrite not_elem_of_cons. intros [Hne Hfresh].
  destruct (decide (k0 = k)) as [->|_]; [done|]. by rewrite IH.
Qed.

Lemma keys_set d k v :
  keys (set k v d) = if decide (k ∈ keys d) then keys d else keys d ++ [k].
Proof.
  unfold keys. induction d as [|[k0 v0] d IH].
  - simpl. destruct (decide (k ∈ [])) as [Hin|_]; [|done].
    by apply not_elem_of_nil in Hin.
  - cbn [set fmap list_fmap fst].
    destruct (decide (k0 = k)) as [->|Hne]; cbn [fmap list_fmap fst].
    + destruct (decide (k ∈ k :: d.*1)) as [_|Hnin]; [done|].
      exfalso. apply Hnin, list_elem_of_here.
    + rewrite IH. destruct (decide (k ∈ d.*1)) as [Hin|Hnin].
      * destruct (decide (k ∈ k0 :: d.*1)) as [_|Hnin]; [done|].
        exfalso. by apply Hnin, list_elem_of_further.
      * destruct (decide (k ∈ k0 :: d.*1)) as [Hin|_]; [|done].
        apply elem_of_cons in Hin. naive_solver.
Qed.

Lemma wf_set d k v : wf d → wf (set k v d).
Proof.
  unfold wf. rewrite keys_set. case_decide as Hin; [done|].
  intros Hnd. apply NoDup_app. split_and!; [done| |apply NoDup_singleton].
  intros x Hx Hx'. apply list_elem_of_singleton in Hx'. by subst.
Qed.

Lemma wf_update d e : wf d → wf (update d e).
Proof.
  unfold update. revert d.
  induction e as [|[k v] e IH]; intros d Hwf; simpl; [done|].
  apply IH. by apply wf_set.
Qed.

Lemma update_fresh d e : wf (d ++ e) → update d e = d ++ e.
Proof.
  unfold update. revert d.
  induction e as [|[k v] e IH]; intros d Hwf; simpl.
  - by rewrite app_nil_r.
  - replace (d ++ (k, v) :: e) with ((d ++ [(k, v)]) ++ e) in *
      by (by rewrite <- app_assoc).
    rewrite set_fresh.
    + by apply IH.
    + unfold wf, keys in *. rewrite !fmap_app in Hwf.
      apply NoDup_app in Hwf as (Hnd & _ & _).
      apply NoDup_app in Hnd as (_ & Hdisj & _).
      intros Hin. apply (Hdisj k Hin). apply list_elem_of_here.
Qed.

Lemma of_items_wf d : wf d → of_items d = d.
Proof. intros Hwf. by apply (update_fresh []). Qed.

Lemma insert_by_key_perm (kv : string * V) (l : list (string * V)) :
  insert_by_key kv l ≡ₚ kv :: l.
Proof.
  induction l as [|kv' l IH]; simpl; [done|].
  destruct (String.ltb kv.1 kv'.1); [done|].
  rewrite IH. apply Permutation_swap.
Qed.

Lemma insert_by_key_sorted (kv : string * V) (l : list (string * V)) :
  kv.1 ∉ keys l →
  StronglySorted (λ a b, key_lt a.1 b.1) l →
  StronglySorted (λ a b, key_lt a.1 b.1) (insert_by_key kv l).
Proof.
  unfold keys. induction l as [|kv' l IH]; simpl.
  - intros _ _. repeat constructor.
  - rewrite not_elem_of_cons. intros [Hne Hfresh] Hs.
    apply StronglySorted_cons in Hs as [Hall Hs].
    destruct (String.ltb kv.1 kv'.1) eqn:Hlt.
    + apply StronglySorted_cons. split.
      * constructor; [done|].
        eapply Forall_impl; [done|]. intros x Hx. by eapply key_lt_trans.
      * by apply StronglySorted_cons.
    + apply StronglySorted_cons. split; [|by apply IH].
      rewrite insert_by_key_perm. constructor; [|done].
      by apply key_lt_total.
Qed.

Lemma sorted_items_spec d :
  wf d →
  sorted_items d ≡ₚ d ∧
  StronglySorted (λ a b, key_lt a.1 b.1) (sorted_items d).
Proof.
  unfold sorted_items.
  assert (Hgen : ∀ acc,
    wf (acc ++ d) →
    StronglySorted (λ a b, key_lt a.1 b.1) acc →
    foldl (λ acc kv, insert_by_key kv acc) acc d ≡ₚ acc ++ d ∧
    StronglySorted (λ a b, key_lt a.1 b.1)
      (foldl (λ acc kv, insert_by_key kv acc) acc d)).
  { induction d as [|kv d IH]; intros acc Hwf Hs; simpl.
    - by rewrite app_nil_r.
    - assert (Hp0 : insert_by_key kv acc ++ d ≡ₚ acc ++ kv :: d).
      { rewrite insert_by_key_perm. simpl. apply Permutation_middle. }
      assert (Hwf' : wf (insert_by_key kv acc ++ d)).
      { unfold wf, keys in *. by rewrite Hp0. }
      destruct (IH (insert_by_key kv acc)) as [Hp Hs']; [done| |].
      + apply insert_by_key_sorted; [|done].
        unfold wf, keys in Hwf. rewrite fmap_app in Hwf. simpl in Hwf.
        apply NoDup_app in Hwf as (_ & Hdisj & _).
        intros Hin. apply (Hdisj _ Hin). apply list_elem_of_here.
      + split; [|done]. by rewrite Hp. }
  intros Hwf. apply (Hgen []); [done|constructor].
Qed.

Lemma sorted_dict_items d : wf d → sorted_dict d = sorted_items d.
Proof.
  intros Hwf. unfold sorted_dict. apply of_items_wf.
  destruct (sorted_items_spec d Hwf) as [Hp _].
  unfold wf, keys in *. by rewrite Hp.
Qed.

Lemma get_sorted_dict d k : wf d → get k (sorted_dict d) = get k d.
Proof.
  intros Hwf. rewrite sorted_dict_items by done.
  apply get_perm; [done|]. symmetry. by apply sorted_items_spec.
Qed.

Lemma wf_sorted_dict d : wf d → wf (sorted_dict d).
Proof.
  intros Hwf. rewrite sorted_dict_items by done.
  destruct (sorted_items_spec d Hwf) as [Hp _].
  unfold wf, keys in *. by rewrite Hp.
Qed.
End DictFacts.

(** ** The summary table of [SaveResult] *)

Section SaveResultFacts.
Import CrossValidation.

Lemma rows_of_items (info : dict info_value) (l : list (string * info_value)) :
  wf info → l ⊆ info →
  rows_of info l.*1 = Ok (row_of_item <$> l).
Proof.
  intros Hwf. induction l as [|[k v] l IH]; intros Hsub; [done|].
  rewrite fmap_cons. cbn [rows_of fst]. unfold row_of, getitem.
  rewrite (get_elem_wf info k v Hwf) by (apply Hsub, list_elem_of_here).
  rewrite IH by (intros x Hx; by apply Hsub, list_elem_of_further).
  by destruct v.
Qed.

Lemma row_ltb_keys (k1 k2 : string) (r1 r2 : list cell) :
  k1 ≠ k2 → row_ltb (CStr k1 :: r1) (CStr k2 :: r2) = Ok (String.ltb k1 k2).
Proof. intros Hne. simpl. by rewrite bool_decide_eq_false_2. Qed.

Lemma key_lt_asym (a b : string) : key_lt a b → String.ltb b a = false.
Proof.
  intros Hab. destruct (String.ltb b a) eqn:Hba; [|done].
  exfalso. apply (key_lt_irrefl a). by eapply key_lt_trans.
Qed.

Lemma insert_row_last (r : list cell) (l : list (list cell)) :
  Forall (λ r', row_lt r' r) l → insert_row r l = Ok (l ++ [r]).
Proof.
  induction l as [|r' l IH]; intros Hall; simpl; [done|].
  apply Forall_cons in Hall as [(k' & k & Hk' & Hk & Hlt) Hall].
  destruct r' as [|[k0|] r']; simplify_eq/=.
  destruct r as [|[k0|] r]; simplify_eq/=.
  rewrite bool_decide_eq_false_2.
  - rewrite (key_lt_asym _ _ Hlt). by rewrite IH.
  - intros ->. by apply key_lt_irrefl in Hlt.
Qed.

Lemma sort_rows_from_sorted (acc l : list (list cell)) :
  StronglySorted row_lt (acc ++ l) → sort_rows_from acc l = Ok (acc ++ l).
Proof.
  revert acc. induction l as [|r l IH]; intros acc Hs; simpl.
  - by rewrite app_nil_r.
  - replace (acc ++ r :: l) with ((acc ++ [r]) ++ l) in *
      by (by rewrite <- app_assoc).
    rewrite insert_row_last; [by apply IH|].
    apply StronglySorted_app_1_l in Hs.
    apply StronglySorted_app in Hs as (Hr & _ & _).
    apply Forall_forall. intros r' Hr'. apply Hr; [done|].
    apply list_elem_of_here.
Qed.

Lemma sort_rows_sorted (l : list (list cell)) :
  StronglySorted row_lt l → sort_rows l = Ok l.
Proof. apply (sort_rows_from_sorted []). Qed.

Lemma rows_sorted (l : list (string * info_value)) :
  StronglySorted (λ a b, key_lt a.1 b.1) l →
  StronglySorted row_lt (row_of_item <$> l).
Proof.
  induction 1 as [|kv l Hs IH Hall]; simpl; constructor; [done|].
  apply Forall_fmap. eapply Forall_impl; [done|].
  intros kv' Hlt. by exists kv.1, kv'.1.
Qed.
End SaveResultFacts.

Lemma set_world_id {C S} (w : world C S) :
  set_world w (classifier w) (dirs w) [] = w.
Proof. destruct w. unfold set_world. simpl. by rewrite app_nil_r. Qed.

Lemma set_world_set_world {C S} (w : world C S) c ds evs c' ds' evs' :
  set_world (set_world w c ds evs) c' ds' evs' = set_world w c' ds' (evs ++ evs').
Proof. unfold set_world. simpl. by rewrite app_assoc. Qed.

Lemma SaveResult_writes {C S : Type}
    (info : dict info_value) (store_path : string) (w : world C S) :
  wf info →
  CrossValidation.SaveResult info store_path w =
    Ok (tt, set_world w (classifier w) (dirs w)
              [EvWriteRows (table_path w store_path) (table_rows info)]).
Proof.
  intros Hwf.
  destruct (sorted_items_spec info Hwf) as [Hperm Hsorted].
  assert (Hwf' : wf (sorted_items info)).
  { unfold wf, keys in *. by rewrite Hperm. }
  unfold CrossValidation.SaveResult, bind, lift, path_isdir, ask, emit.
  rewrite sorted_dict_items by done. unfold keys.
  rewrite rows_of_items by done.
  rewrite sort_rows_sorted by (by apply rows_sorted). simpl.
  by rewrite sort_rows_sorted by (by apply rows_sorted).
Qed.

Lemma table_rows_sorted (info : dict info_value) :
  wf info → StronglySorted row_lt (table_rows info).
Proof. intros Hwf. by apply rows_sorted, sorted_items_spec. Qed.

Lemma table_rows_elem (info : dict info_value) (row : list cell) :
  wf info →
  row ∈ table_rows info ↔
    ∃ k v, get k info = Some v ∧ row = CStr k :: row_values v.
Proof.
  intros Hwf. destruct (sorted_items_spec info Hwf) as [Hperm _].
  unfold table_rows. rewrite list_elem_of_fmap. split.
  - intros ([k v] & -> & Hin). exists k, v. split; [|done].
    apply get_elem_wf; [done|]. by rewrite <- Hperm.
  - intros (k & v & Hget & ->). exists (k, v). split; [done|].
    rewrite Hperm. by apply get_Some_elem.
Qed.

(** C8. For every metric mapping handed to [SaveResult], the call returns
    and writes one table; its rows are in strictly increasing order of
    their first column, and the rows are exactly the entries of the mapping,
    each as the key followed by its value or values. *)
Theorem SaveResult_rows_sorted_by_key
    {C S : Type} (info : dict info_value) (store_path : string) (w : world C S) :
  wf info →
  ∃ rows w',
    CrossValidation.SaveResult info store_path w = Ok (tt, w') ∧
    trace w' =
      trace w ++
      [EvWriteRows
         (if bool_decide (store_path ∈ dirs w)
          then path_join store_path "result.csv" else store_path) rows] ∧
    StronglySorted row_lt rows ∧
    (∀ row, row ∈ rows ↔
       ∃ k v, get k info = Some v ∧ row = CStr k :: row_values v) ∧
    length rows = length info.
Proof.
  intros Hwf. exists (table_rows info). eexists. split_and!.
  - by apply SaveResult_writes.
  - done.
  - by apply table_rows_sorted.
  - intros row. by apply table_rows_elem.
  - unfold table_rows. rewrite length_fmap.
    by rewrite (proj1 (sorted_items_spec info Hwf)).
Qed.

(** ** Stepping through monadic code *)
Section Steps.
Context {C S : Type}.
Implicit Types (w : world C S) (c : C) (ds : list string) (evs : list event).

Lemma step_emit {A} e (k : unit → M C S A) w c ds evs :
  bind (emit e) k (set_world w c ds evs) =
  k tt (set_world w c ds (evs ++ [e])).
Proof. unfold bind, emit, set_world. simpl. by rewrite app_assoc. Qed.

Lemma step_mkdir {A} p (k : unit → M C S A) w c ds evs :
  bind (mkdir p) k (set_world w c ds evs) =
  k tt (set_world w c (ds ++ [p]) (evs ++ [EvMkdir p])).
Proof. unfold bind, mkdir, set_world. simpl. by rewrite app_assoc. Qed.

Lemma step_with_classifier {A} f (k : unit → M C S A) w c ds evs :
  bind (with_classifier f) k (set_world w c ds evs) =
  k tt (set_world w (f c) ds evs).
Proof. done. Qed.

Lemma step_ask {A B} (f : world C S → B) (k : B → M C S A) w c ds evs :
  bind (ask f) k (set_world w c ds evs) =
  k (f (set_world w c ds evs)) (set_world w c ds evs).
Proof. done. Qed.

Lemma step_ret {A B} (b : B) (k : B → M C S A) w :
  bind (ret b) k w = k b w.
Proof. done. Qed.

Lemma step_bind {A B D} (m : M C S A) (f : A → M C S B) (k : B → M C S D) w :
  bind (bind m f) k w = bind m (λ a, bind (f a) k) w.
Proof. unfold bind. by destruct (m w) as [[a w']|]. Qed.

Lemma step_lift_Ok {A B} (a : A) (k : A → M C S B) w :
  bind (lift (Ok a)) k w = k a w.
Proof. done. Qed.

Lemma step_lift_Raise {A B} e (k : A → M C S B) w :
  bind (lift (Raise e)) k w = Raise e.
Proof. done. Qed.

Lemma step_raise {A B} e (k : A → M C S B) w :
  bind (raise e) k w = Raise e.
Proof. done. Qed.

Lemma last_emit e w c ds evs :
  emit e (set_world w c ds evs) = Ok (tt, set_world w c ds (evs ++ [e])).
Proof. unfold emit, set_world. simpl. by rewrite app_assoc. Qed.

Lemma last_with_classifier f w c ds evs :
  with_classifier f (set_world w c ds evs) = Ok (tt, set_world w (f c) ds evs).
Proof. done. Qed.

Lemma last_ret {A} (a : A) w : ret a w = Ok (a, w).
Proof. done. Qed.
End Steps.

Ltac mstep :=
  first
    [ rewrite step_bind
    | rewrite step_emit
    | rewrite step_mkdir
    | rewrite step_with_classifier
    | rewrite step_ask
    | rewrite step_ret
    | rewrite step_lift_Ok
    | rewrite last_emit
    | rewrite last_with_classifier
    | rewrite last_ret ].

(** A loop whose every pass returns and keeps an invariant of the passes
    made so far returns, with the invariant of all passes. *)
Lemma for_each_total {C S A B} (I : list A → B → world C S → Prop)
    (l : list A) (acc : B) (body : B → A → M C S B) (w : world C S) :
  I [] acc w →
  (∀ pre x acc w,
     (∃ post, l = pre ++ x :: post) → I pre acc w →
     ∃ acc' w', body acc x w = Ok (acc', w') ∧ I (pre ++ [x]) acc' w') →
  ∃ acc' w', for_each l acc body w = Ok (acc', w') ∧ I l acc' w'.
Proof.
  intros Hinit Hstep.
  assert (Hgen : ∀ rest pre acc w,
            l = pre ++ rest → I pre acc w →
            ∃ acc' w', for_each rest acc body w = Ok (acc', w') ∧
                       I (pre ++ rest) acc' w').
  { induction rest as [|x rest IH]; intros pre acc0 w0 Hl Hinv.
    - exists acc0, w0. by rewrite app_nil_r.
    - destruct (Hstep pre x acc0 w0) as (acc1 & w1 & Hbody & Hinv1);
        [by exists rest|done|].
      destruct (IH (pre ++ [x]) acc1 w1) as (acc2 & w2 & Hrest & Hinv2);
        [by rewrite <- app_assoc|done|].
      exists acc2, w2. split.
      + cbn [for_each]. unfold bind. by rewrite Hbody.
      + by rewrite <- app_assoc in Hinv2. }
  by apply (Hgen l []).
Qed.

Lemma filter_none {A} (f : A → bool) (l : list A) :
  Forall (λ x, f x = false) l → filter (λ x, f x = true) l = [].
Proof.
  induction 1 as [|x l Hx _ IH]; [done|].
  rewrite filter_cons_False; [done|]. by rewrite Hx.
Qed.

(** ** One cross-validation pass *)
Section RunFacts.
Context {C S : Type} `{!Classifier C} `{!Imports}.
Import CrossValidation.

Lemma for_each_fold_body data label folds acc (w : world C S) :
  for_each folds acc (fold_body data label) w =
    match fold_outcomes data label (classifier w) acc folds with
    | Ok (acc', c', evs) => Ok (acc', set_world w c' (dirs w) evs)
    | Raise e => Raise e
    end.
Proof.
  revert acc w. induction folds as [|fold rest IH]; intros acc w.
  - simpl. unfold ret. by rewrite set_world_id.
  - cbn [for_each fold_outcomes]. unfold bind at 1. unfold fold_body.
    unfold bind, lift, mbind, result_bind, mret, result_ret.
    destruct (take_rows data fold.1) as [train_data|]; [|done].
    destruct (take_rows label fold.1) as [train_label|]; [|done].
    destruct (take_rows data fold.2) as [val_data|]; [|done].
    destruct (take_rows label fold.2) as [val_label|]; [|done].
    simpl. rewrite IH. simpl.
    match goal with
    | |- context [fold_outcomes ?d ?l ?c ?a ?r] =>
        destruct (fold_outcomes d l c a r) as [[[acc' c'] evs]|]; [|done]
    end.
    simpl. unfold set_world. simpl. do 2 f_equal. f_equal.
    by rewrite <- !app_assoc.
Qed.

Lemma wf_info_update info metric : wf info → wf (info_update info metric).
Proof. apply wf_update. Qed.

Lemma wf_info_of d t acc c : wf (info_of d t acc c).
Proof.
  unfold info_of.
  assert (wf (info_update (info_update [] (train_metric_of acc))
                (val_metric_of acc))) as Hwf.
  { do 2 apply wf_info_update. apply NoDup_nil_2. }
  destruct (test_present t); [by apply wf_info_update|done].
Qed.

Lemma store_results_outcome (store : string) (d t : DataContainer)
    (acc : pooled) (c : C) (w : world C S) :
  store_results store t
    (float32 <$> train_pred_list acc) (uint8 <$> train_label_list acc)
    (float32 <$> val_pred_list acc) (uint8 <$> val_label_list acc)
    (val_index_store acc)
    (train_metric_of acc) (val_metric_of acc) (test_metric_of d t c)
    (if test_present t then Some (test_pred_of d t c) else None)
    (if test_present t then Some (GetLabel t) else None) w =
  Ok (tt, set_world w (Save store (classifier w))
            (if bool_decide (store ∈ dirs w) then dirs w else dirs w ++ [store])
            (store_branch_events (dirs w) store d t acc c)).
Proof.
  pose proof (wf_info_of d t acc c) as Hwf.
  rewrite <- (set_world_id w) at 1.
  unfold store_results, store_branch_events, test_artifacts, info_of in *.
  unfold test_present in *.
  unfold classifier_Save, path_exists.
  mstep. cbn [dirs set_world].
  destruct (bool_decide (store ∈ dirs w)) eqn:Hdir;
    destruct (bool_decide (0 < array_size (GetArray t))) eqn:Htest;
    unfold read_local; repeat mstep;
    rewrite SaveResult_writes by done;
    rewrite set_world_set_world; unfold table_path; cbn [dirs set_world];
    [rewrite Hdir|rewrite Hdir
    |rewrite bool_decide_eq_true_2
       by (apply elem_of_app; right; apply list_elem_of_here)
    |rewrite bool_decide_eq_true_2
       by (apply elem_of_app; right; apply list_elem_of_here)];
    do 3 f_equal; rewrite <- ?app_assoc; reflexivity.
Qed.

(** [Run] as a function of the outcome of the folds. *)
Lemma Run_outcome (d t : DataContainer) (store : string) (w : world C S) :
  Run d t store w =
    match cv w with
    | None => Raise AttributeError
    | Some s =>
        match fold_outcomes (GetArray d) (GetLabel d) (classifier w)
                pooled_empty (cv_split s (GetArray d) (GetLabel d)) with
        | Raise e => Raise e
        | Ok (acc, c, evs) =>
            Ok ((train_metric_of acc, val_metric_of acc, test_metric_of d t c),
                set_world w (stored_classifier store (refit d c))
                  (stored_dirs (dirs w) store)
                  (run_events (dirs w) store d t acc c evs))
        end
    end.
Proof.
  rewrite <- (set_world_id w) at 1.
  unfold Run, run_folds, folds_of. mstep. do 2 rewrite step_bind. mstep.
  cbn [cv set_world]. fold (set_world w (classifier w) (dirs w) ([] ++ [EvCallRun d t store])).
  destruct (cv w) as [s|]; [|by rewrite step_raise].
  mstep. unfold bind at 1. rewrite for_each_fold_body.
  cbn [classifier dirs set_world].
  destruct (fold_outcomes _ _ _ _ _) as [[[acc c] evs]|]; [|done].
  rewrite set_world_set_world.
  pose proof (store_results_outcome store d t acc c) as Hst.
  unfold run_events, test_events, store_events, stored_dirs,
    stored_classifier, test_metric_of, test_pred_of, test_present, refit in *.
  unfold estimate, classifier_SetDataContainer, classifier_Fit,
    classifier_Predict.
  destruct (bool_decide (0 < array_size (GetArray t))) eqn:Htest;
    destruct (bool_decide (store ≠ "")) eqn:Hstore;
    cbv beta iota in Hst; repeat mstep; cbn [classifier set_world];
    repeat mstep;
    fold (train_metric_of acc) (val_metric_of acc);
    try (unfold bind at 1; rewrite Hst; cbn [classifier dirs set_world];
         rewrite set_world_set_world, last_ret);
    cbn [andb]; destruct (bool_decide (store ∈ dirs w)); cbn [negb];
    do 3 f_equal; rewrite <- ?app_assoc; reflexivity.
Qed.
End RunFacts.

(** ** The folds *)

Lemma take_rows_length {A} (a : list A) (index : list nat) (xs : list A) :
  take_rows a index = Ok xs → length xs = length index.
Proof.
  revert xs. induction index as [|i index IH]; intros xs; simpl.
  - by intros [= <-].
  - destruct (a !! i); [|done].
    destruct (take_rows a index) as [ys|]; [|done].
    intros [= <-]. simpl. f_equal. by apply IH.
Qed.

Lemma take_rows_in_range {A} (a : list A) (index : list nat) :
  Forall (λ i, i < length a) index → ∃ xs, take_rows a index = Ok xs.
Proof.
  induction 1 as [|i index Hi _ [xs IH]]; simpl; [by eexists|].
  apply lookup_lt_is_Some in Hi as [x ->]. rewrite IH. by eexists.
Qed.

Section FoldFacts.
Context {C : Type} `{!Classifier C}.
Import CrossValidation.

Lemma fold_outcomes_in_range d c acc folds :
  folds_in_range d folds →
  ∃ r, fold_outcomes (GetArray d) (GetLabel d) c acc folds = Ok r.
Proof.
  intros Hall. revert c acc.
  induction Hall as [|fold rest Hfold _ IH]; intros c acc; simpl.
  - by eexists.
  - apply Forall_app in Hfold as [H1 H2].
    destruct (take_rows_in_range (GetArray d) fold.1) as [x1 ->].
    { eapply Forall_impl; [done|]. naive_solver. }
    destruct (take_rows_in_range (GetLabel d) fold.1) as [x2 ->].
    { eapply Forall_impl; [done|]. naive_solver. }
    destruct (take_rows_in_range (GetArray d) fold.2) as [x3 ->].
    { eapply Forall_impl; [done|]. naive_solver. }
    destruct (take_rows_in_range (GetLabel d) fold.2) as [x4 ->].
    { eapply Forall_impl; [done|]. naive_solver. }
    simpl.
    match goal with
    | |- context [fold_outcomes ?a ?b ?c' ?acc' rest] =>
        destruct (IH c' acc') as [r ->]
    end.
    by eexists.
Qed.

Lemma fold_outcomes_events data label c acc folds acc' c' evs :
  fold_outcomes data label c acc folds = Ok (acc', c', evs) →
  Forall (λ e, fold_event e = true) evs ∧
  length (filter (λ e, is_fit e = true) evs) = length folds.
Proof.
  revert c acc acc' c' evs.
  induction folds as [|fold rest IH]; intros c acc acc' c' evs; simpl.
  - by intros [= <- <- <-].
  - destruct (take_rows data fold.1) as [x1|]; [|done].
    destruct (take_rows label fold.1) as [x2|]; [|done].
    destruct (take_rows data fold.2) as [x3|]; [|done].
    destruct (take_rows label fold.2) as [x4|]; [|done]. simpl.
    destruct (fold_outcomes _ _ _ _ rest) as [[[acc1 c1] evs1]|] eqn:Hrest;
      [|done].
    simpl. intros [= <- <- <-].
    destruct (IH _ _ _ _ _ Hrest) as [Hev Hfit]. split.
    + by repeat constructor.
    + rewrite !filter_cons. simpl. by rewrite Hfit.
Qed.

Lemma fold_outcomes_lengths data label c acc folds acc' c' evs :
  (∀ c X, length (Predict c X) = length X) →
  fold_outcomes data label c acc folds = Ok (acc', c', evs) →
  length (train_pred_list acc') =
    length (train_pred_list acc) + train_role_total folds ∧
  length (train_label_list acc') =
    length (train_label_list acc) + train_role_total folds ∧
  length (val_pred_list acc') =
    length (val_pred_list acc) + held_out_total folds ∧
  length (val_label_list acc') =
    length (val_label_list acc) + held_out_total folds ∧
  length (val_index_store acc') =
    length (val_index_store acc) + held_out_total folds.
Proof.
  intros Hpredict. revert c acc acc' c' evs.
  unfold train_role_total, held_out_total.
  induction folds as [|fold rest IH]; intros c acc acc' c' evs; simpl.
  - intros [= <- <- <-]. lia.
  - destruct (take_rows data fold.1) as [x1|] eqn:E1; [|done].
    destruct (take_rows label fold.1) as [x2|] eqn:E2; [|done].
    destruct (take_rows data fold.2) as [x3|] eqn:E3; [|done].
    destruct (take_rows label fold.2) as [x4|] eqn:E4; [|done]. simpl.
    destruct (fold_outcomes _ _ _ _ rest) as [[[acc1 c1] evs1]|] eqn:Hrest;
      [|done].
    simpl. intros [= <- <- <-].
    apply IH in Hrest. simpl in Hrest.
    rewrite !length_app, !Hpredict in Hrest.
    apply take_rows_length in E1, E2, E3, E4. unfold fmap in *. lia.
Qed.
End FoldFacts.

Lemma path_join_inj (a b b' : string) : path_join a b = path_join a b' → b = b'.
Proof.
  unfold path_join. destruct (decide (a = "")); [done|].
  destruct (ends_with_slash a).
  - apply (inj (String.app a)).
  - intros Heq. apply (inj (String.app a)) in Heq.
    by apply (inj (String.app "/")) in Heq.
Qed.

Section RunProperties.
Context {C S : Type} `{!Classifier C} `{!Imports}.
Import CrossValidation.

Lemma run_folds_outcome (d : DataContainer) (w : world C S) :
  run_folds d w =
    match cv w with
    | None => Raise AttributeError
    | Some s =>
        match fold_outcomes (GetArray d) (GetLabel d) (classifier w)
                pooled_empty (cv_split s (GetArray d) (GetLabel d)) with
        | Raise e => Raise e
        | Ok (acc, c, evs) => Ok (acc, set_world w c (dirs w) evs)
        end
    end.
Proof.
  unfold run_folds, folds_of. unfold bind at 1. unfold bind at 1.
  unfold ask. destruct (cv w) as [s|]; [|done].
  unfold ret. by rewrite for_each_fold_body.
Qed.

Lemma fold_event_not_test_related store e :
  fold_event e = true → test_related store e = false.
Proof. by destruct e. Qed.

Lemma store_events_no_test ds store d t acc c :
  test_present t = false →
  Forall (λ e, test_related store e = false) (store_events ds store d t acc c).
Proof.
  intros Ht. unfold store_events, store_branch_events, test_artifacts.
  rewrite Ht. destruct (bool_decide (store ≠ "")); [|done].
  apply Forall_app. split; [by destruct (bool_decide (store ∈ ds)); repeat constructor|].
  rewrite app_nil_l.
  repeat (apply Forall_cons; split); try apply Forall_nil; try done;
    cbn [test_related]; apply bool_decide_eq_false_2;
    intros Heq%path_join_inj; discriminate Heq.
Qed.

Lemma test_present_false t : array_size (GetArray t) = 0 → test_present t = false.
Proof.
  intros Hz. unfold test_present. apply bool_decide_eq_false_2. lia.
Qed.

Lemma test_present_true t : 0 < array_size (GetArray t) → test_present t = true.
Proof. intros Hz. unfold test_present. by apply bool_decide_eq_true_2. Qed.

Lemma store_events_no_training ds store d t acc c :
  Forall (λ e, trains_classifier e = false) (store_events ds store d t acc c).
Proof.
  unfold store_events, store_branch_events, test_artifacts.
  destruct (bool_decide (store ≠ "")); [|done].
  destruct (bool_decide (store ∈ ds)), (test_present t);
    by repeat constructor.
Qed.
End RunProperties.

Section CrossValidationTheorems.
Context {C S : Type} `{!Classifier C} `{!Imports}.
Import CrossValidation.

(** C7. When the classifier returns one score per sample and the folds
    address existing samples, the loop over the folds returns, and the
    pooled train predictions and the pooled train labels both have as many
    entries as there are samples in a training role over all folds; the
    pooled validation predictions and labels both have as many entries as
    there are samples held out over all folds. *)
Theorem pooled_sequences_have_role_lengths
    (d : DataContainer) (w : world C S) (s : splitter) :
  (∀ (c : C) (X : matrix), length (Predict c X) = length X) →
  cv w = Some s →
  folds_in_range d (cv_split s (GetArray d) (GetLabel d)) →
  ∃ acc w',
    run_folds d w = Ok (acc, w') ∧
    length (train_pred_list acc) = length (train_label_list acc) ∧
    length (train_pred_list acc) =
      train_role_total (cv_split s (GetArray d) (GetLabel d)) ∧
    length (val_pred_list acc) = length (val_label_list acc) ∧
    length (val_pred_list acc) =
      held_out_total (cv_split s (GetArray d) (GetLabel d)) ∧
    length (float32 <$> train_pred_list acc) =
      length (uint8 <$> train_label_list acc) ∧
    length (float32 <$> val_pred_list acc) =
      length (uint8 <$> val_label_list acc).
Proof.
  intros Hpredict Hcv Hrange.
  rewrite run_folds_outcome, Hcv.
  destruct (fold_outcomes_in_range d (classifier w) pooled_empty _ Hrange)
    as [[[acc c] evs] Hfolds].
  rewrite Hfolds. exists acc. eexists. split; [done|].
  destruct (fold_outcomes_lengths _ _ _ _ _ _ _ _ Hpredict Hfolds)
    as (H1 & H2 & H3 & H4 & _).
  simpl in H1, H2, H3, H4. rewrite !length_fmap. lia.
Qed.

(** C2. When the test dataset has no element and the folds address
    existing samples, [Run] returns (it does not raise), its third value
    is the empty mapping, and none of the events of the call computes a
    test metric or writes a test prediction array, a test label array or a
    test ROC plot. *)
Theorem empty_test_dataset_is_skipped
    (d t : DataContainer) (store : string) (w : world C S) (s : splitter) :
  array_size (GetArray t) = 0 →
  cv w = Some s →
  folds_in_range d (cv_split s (GetArray d) (GetLabel d)) →
  ∃ train_metric val_metric w' new,
    Run d t store w = Ok ((train_metric, val_metric, []), w') ∧
    trace w' = trace w ++ new ∧
    Forall (λ e, test_related store e = false) new.
Proof.
  intros Hempty Hcv Hrange.
  rewrite Run_outcome, Hcv.
  destruct (fold_outcomes_in_range d (classifier w) pooled_empty _ Hrange)
    as [[[acc c] evs] Hfolds].
  rewrite Hfolds.
  pose proof (test_present_false t Hempty) as Ht.
  exists (train_metric_of acc), (val_metric_of acc). eexists.
  exists (run_events (dirs w) store d t acc c evs).
  split_and!.
  - unfold test_metric_of. by rewrite Ht.
  - done.
  - unfold run_events, test_events. rewrite Ht.
    apply Forall_app. split; [by repeat constructor|].
    apply Forall_app. split.
    { eapply Forall_impl; [by eapply fold_outcomes_events|].
      intros e. apply fold_event_not_test_related. }
    apply Forall_app. split; [by repeat constructor|].
    rewrite app_nil_l. by apply store_events_no_test.
Qed.

(** C6. When the test dataset is not empty and the folds address existing
    samples, [Run] returns, and the test metric record is the estimate of
    the predictions of the classifier obtained from the one left by the
    last fold by [SetDataContainer] on the whole dataset followed by [Fit].
    In the events of the call, this refit stands after the events of the
    folds, which hold one [Fit] per fold and no [SetDataContainer], and no
    event after the test estimate trains the classifier again. *)
Theorem test_metric_comes_from_full_refit
    (d t : DataContainer) (store : string) (w : world C S) (s : splitter) :
  0 < array_size (GetArray t) →
  cv w = Some s →
  folds_in_range d (cv_split s (GetArray d) (GetLabel d)) →
  ∃ acc c evs post w',
    fold_outcomes (GetArray d) (GetLabel d) (classifier w) pooled_empty
      (cv_split s (GetArray d) (GetLabel d)) = Ok (acc, c, evs) ∧
    Run d t store w =
      Ok ((train_metric_of acc, val_metric_of acc,
           EstimateMetirc (Predict (Fit (SetDataContainer d c)) (GetArray t))
             (GetLabel t) "test"), w') ∧
    trace w' =
      trace w ++ [EvCallRun d t store] ++ evs ++
      [EvEstimate (float32 <$> train_pred_list acc)
         (uint8 <$> train_label_list acc) "train";
       EvEstimate (float32 <$> val_pred_list acc)
         (uint8 <$> val_label_list acc) "val"] ++
      [EvSetDataContainer d; EvFit; EvPredict (GetArray t);
       EvEstimate (Predict (Fit (SetDataContainer d c)) (GetArray t))
         (GetLabel t) "test"] ++ post ∧
    Forall (λ e, fold_event e = true) evs ∧
    length (filter (λ e, is_fit e = true) evs) =
      length (cv_split s (GetArray d) (GetLabel d)) ∧
    Forall (λ e, trains_classifier e = false) post.
Proof.
  intros Hfull Hcv Hrange.
  rewrite Run_outcome, Hcv.
  destruct (fold_outcomes_in_range d (classifier w) pooled_empty _ Hrange)
    as [[[acc c] evs] Hfolds].
  rewrite Hfolds.
  pose proof (test_present_true t Hfull) as Ht.
  destruct (fold_outcomes_events _ _ _ _ _ _ _ _ Hfolds) as [Hev Hfit].
  exists acc, c, evs, (store_events (dirs w) store d t acc c). eexists.
  split_and!.
  - done.
  - unfold test_metric_of, test_pred_of, refit. by rewrite Ht.
  - unfold set_world, run_events, test_events, test_pred_of, refit.
    rewrite Ht. cbn [trace]. f_equal.
  - done.
  - done.
  - apply store_events_no_training.
Qed.

(** C9. Two calls of [Run] on the same dataset and test dataset, from
    worlds that agree on the classifier and on the splitter, one with an
    empty [store_folder] and one with a folder, return the same three
    metric records, or raise the same fault. *)
Theorem store_folder_does_not_change_returned_metrics
    (d t : DataContainer) (store : string) (w1 w2 : world C S) :
  classifier w1 = classifier w2 →
  cv w1 = cv w2 →
  returned_value (Run d t "" w1) = returned_value (Run d t store w2).
Proof.
  intros Hclf Hcv. rewrite !Run_outcome, Hclf, Hcv.
  destruct (cv w2) as [s|]; [|done].
  by destruct (fold_outcomes _ _ _ _ _) as [[[acc c] evs]|].
Qed.
End CrossValidationTheorems.

(** ** The sweep over feature counts *)

Section SweepFacts.
Context {C S : Type} `{!Classifier C} `{!FeatureSelector S} `{!Imports}.
Import CrossValidationOnFeatureNumber.

Lemma selector_after_snoc sel d store ns n :
  selector_after sel d store (ns ++ [n]) =
  (SelectorRun (SetSelectedFeatureNumber n (selector_after sel d store ns))
     d (feature_folder store n)).2.
Proof.
  revert sel. induction ns as [|m ns IH]; intros sel; simpl; [done|].
  by rewrite IH.
Qed.

Lemma expected_calls_snoc sel d t store ns n :
  expected_calls sel d t store (ns ++ [n]) =
  expected_calls sel d t store ns ++
  [EvSetSelectedFeatureNumber n;
   EvSelectorRun d (feature_folder store n);
   EvCallRun (reduced (selector_after sel d store ns) d store n) t
     (feature_folder store n)].
Proof.
  revert sel. induction ns as [|m ns IH]; intros sel; simpl; [done|].
  by rewrite IH.
Qed.

Lemma sweep_body_outcome d t store acc n (w : world C S) :
  sweep_body d t store acc n w =
    match CrossValidation.Run (reduced (feature_selector w) d store n) t
            (feature_folder store n) (selected_world w d store n) with
    | Ok (metrics, w') =>
        Ok ({| train_metric_list := train_metric_list acc ++ [metrics.1.1];
               val_metric_list := val_metric_list acc ++ [metrics.1.2];
               test_metric_list := test_metric_list acc ++ [metrics.2] |}, w')
    | Raise e => Raise e
    end.
Proof.
  unfold sweep_body, selector_SetSelectedFeatureNumber, selector_Run.
  fold (feature_folder store n).
  unfold path_exists, mkdir.
  unfold bind, ask, emit, with_selector, ret.
  cbn [dirs trace classifier cv max_feature_number feature_selector fst snd].
  unfold selected_world, reduced.
  destruct (bool_decide (feature_folder store n ∈ dirs w));
    cbn [dirs trace classifier cv max_feature_number feature_selector fst snd].
  all: rewrite <- ?app_assoc; cbn [app]; reflexivity.
Qed.

Lemma run_events_calls ds store d t acc c evs :
  Forall (λ e, fold_event e = true) evs →
  filter (λ e, is_call e = true) (run_events ds store d t acc c evs) =
  [EvCallRun d t store].
Proof.
  intros Hev. unfold run_events.
  rewrite !filter_app. cbn [app].
  rewrite (filter_none is_call evs).
  2:{ eapply Forall_impl; [done|]. by intros []. }
  rewrite (filter_none is_call (test_events d t c)).
  2:{ unfold test_events. destruct (test_present t); by repeat constructor. }
  rewrite (filter_none is_call (store_events ds store d t acc c)).
  2:{ unfold store_events, store_branch_events, test_artifacts.
      destruct (bool_decide (store ≠ "")); [|done].
      destruct (bool_decide (store ∈ ds)), (test_present t);
        by repeat constructor. }
  done.
Qed.

Lemma sweep_body_step (w0 : world C S) d t store pre n ml w s :
  splitter_in_range →
  cv w0 = Some s →
  sweep_invariant w0 d t store pre ml w →
  ∃ ml' w', sweep_body d t store ml n w = Ok (ml', w') ∧
            sweep_invariant w0 d t store (pre ++ [n]) ml' w'.
Proof.
  intros Hsplit Hcv (Hcv' & Hmax & Hsel & Hl1 & Hl2 & Hl3 & Ht1 & Ht2 & Ht3
                     & new & Htrace & Hcalls).
  rewrite sweep_body_outcome, Run_outcome.
  cbn [cv classifier dirs selected_world]. rewrite Hcv', Hcv.
  set (d' := reduced (feature_selector w) d store n).
  destruct (fold_outcomes_in_range d' (classifier w) CrossValidation.pooled_empty
              _ (Hsplit s d')) as [[[acc c] evs] Hfolds].
  rewrite Hfolds. eexists _, _. split; [done|].
  destruct (fold_outcomes_events _ _ _ _ _ _ _ _ Hfolds) as [Hev _].
  unfold sweep_invariant.
  cbn [cv max_feature_number feature_selector trace set_world selected_world
       train_metric_list val_metric_list test_metric_list fst snd].
  rewrite !length_app, !Forall_app, !Forall_singleton. cbn [length].
  split_and!; try done; try lia.
  - by rewrite selector_after_snoc, Hsel.
  - by eexists _, _.
  - by eexists _, _.
  - unfold test_metric_of. destruct (test_present t); [by eexists _, _|done].
  - eexists. split.
    + rewrite Htrace, <- !app_assoc. reflexivity.
    + rewrite !filter_app, Hcalls, run_events_calls by done.
      rewrite expected_calls_snoc. f_equal.
      unfold d'. rewrite Hsel.
      by destruct (bool_decide (feature_folder store n ∈ dirs w)).
Qed.

Lemma sweep_outcome (w : world C S) d t store s :
  splitter_in_range →
  cv w = Some s →
  ∃ ml w', sweep d t store w = Ok (ml, w') ∧
           sweep_invariant w d t store (seq 1 (max_feature_number w)) ml w'.
Proof.
  intros Hsplit Hcv. unfold sweep. unfold bind at 1, ask.
  apply for_each_total.
  - unfold sweep_invariant. split_and!; try done.
    exists []. by rewrite app_nil_r.
  - intros pre n ml w1 _ Hinv. by eapply sweep_body_step.
Qed.
End SweepFacts.

(** ** Selecting the best feature count *)

Lemma string_app_assoc (a b c : string) : (a +:+ b) +:+ c = a +:+ (b +:+ c).
Proof.
  induction a as [|x a IH]; [done|].
  change (String x ((a +:+ b) +:+ c) = String x (a +:+ (b +:+ c))).
  by rewrite IH.
Qed.

Lemma string_drop_app (p k : string) : string_drop (String.length p) (p +:+ k) = k.
Proof. induction p as [|a p IH]; [done|]. simpl. apply IH. Qed.

Section SelectFacts.
Import CrossValidationOnFeatureNumber.

Lemma strip_into_get (p : string) (new_info : dict pyval) (ks : list string)
    (metric_info : dict pyval) :
  ks ⊆ keys new_info →
  (∀ key, key ∈ ks → ∃ name, key = p +:+ name) →
  wf metric_info →
  ∃ r, strip_into (String.length p) new_info ks metric_info = Ok r ∧
       wf r ∧
       ∀ k, get k r =
            if decide (p +:+ k ∈ ks) then get (p +:+ k) new_info
            else get k metric_info.
Proof.
  revert metric_info.
  induction ks as [|key ks IH]; intros metric_info Hsub Htag Hwf.
  - exists metric_info. split_and!; [done..|]. intros k.
    destruct (decide (p +:+ k ∈ [])) as [Hin|]; [|done].
    by apply not_elem_of_nil in Hin.
  - cbn [strip_into]. unfold getitem.
    destruct (get key new_info) as [v|] eqn:Hget.
    2:{ apply get_None in Hget. exfalso. apply Hget, Hsub, list_elem_of_here. }
    cbn [mbind result_bind].
    destruct (Htag key) as [name ->]; [apply list_elem_of_here|].
    rewrite string_drop_app.
    destruct (IH (set name v metric_info)) as (r & Hr & Hwfr & Hgetr).
    { intros x Hx. by apply Hsub, list_elem_of_further. }
    { intros x Hx. by apply Htag, list_elem_of_further. }
    { by apply wf_set. }
    exists r. split_and!; [done..|]. intros k. rewrite Hgetr, get_set.
    destruct (decide (p +:+ k ∈ ks)) as [Hin|Hnin].
    + rewrite decide_True; [done|by apply list_elem_of_further].
    + destruct (decide (name = k)) as [->|Hne].
      * rewrite decide_True; [done|apply list_elem_of_here].
      * rewrite decide_False; [done|].
        rewrite not_elem_of_cons. split; [|done].
        intros Heq. by apply (inj (String.app p)) in Heq.
Qed.

(** The record selected at the first maximum of [values]: the entries of
    the record at that position, under their keys without the tag [p], and
    the entry [feature_number]. *)
Lemma selected_spec (p : string) (records : list (dict pyval)) (values : list Q) :
  values ≠ [] →
  length values = length records →
  Forall (keys_tagged p) records →
  ∃ i rec r,
    selected (String.length p) records values = Ok r ∧
    is_first_argmax values i ∧
    records !! i = Some rec ∧
    wf r ∧
    ∀ k, get k r =
         match get (p +:+ k) rec with
         | Some v => Some v
         | None => if decide (k = "feature_number")
                   then Some (PyInt (Z.of_nat i + 1)) else None
         end.
Proof.
  intros Hne Hlen Htag.
  destruct (argmax_first values Hne) as (i & Hi & Hfirst).
  pose proof (is_first_argmax_lt _ _ Hfirst) as Hlt.
  destruct (lookup_lt_is_Some_2 records i) as [rec Hrec]; [lia|].
  destruct (strip_into_get p rec (keys rec)
              (set "feature_number" (PyInt (Z.of_nat i + 1)) []))
    as (r & Hr & Hwf & Hget).
  { done. }
  { eapply Forall_lookup_1 in Htag; [|done]. apply Htag. }
  { apply wf_set, NoDup_nil_2. }
  exists i, rec, (sorted_dict r). unfold selected, list_index.
  rewrite Hi. cbn [mbind result_bind]. rewrite Hrec. cbn [mbind result_bind].
  rewrite Hr. cbn [mbind result_bind mret result_ret].
  split_and!; [done..|by apply wf_sorted_dict|].
  intros k. rewrite get_sorted_dict by done. rewrite Hget.
  destruct (decide (p +:+ k ∈ keys rec)) as [Hin|Hnin].
  - apply get_is_Some in Hin as [v Hv]. by rewrite Hv.
  - apply get_None in Hnin. rewrite Hnin. rewrite get_set.
    destruct (decide ("feature_number" = k)) as [<-|Hne'].
    + by rewrite decide_True.
    + rewrite decide_False by done. done.
Qed.
End SelectFacts.

Section CollectFacts.
Import CrossValidationOnFeatureNumber.

Lemma collect_loop_app ml metric md l1 l2 :
  collect_loop ml metric md (l1 ++ l2) =
  md' ← collect_loop ml metric md l1; collect_loop ml metric md' l2.
Proof.
  revert md. induction l1 as [|x l1 IH]; intros md; [done|].
  cbn [app collect_loop].
  destruct (collect_body ml metric md x) as [md'|]; [|done].
  cbn [mbind result_bind]. apply IH.
Qed.

Lemma column_snoc key records values r q :
  column key records values → float <$> get key r = Some q →
  column key (records ++ [r]) (values ++ [q]).
Proof. intros Hc Hr. apply Forall2_app; [done|]. by constructor. Qed.

Lemma collect_loop_spec ml metric n :
  n ≤ length (train_metric_list ml) →
  n ≤ length (val_metric_list ml) →
  n ≤ length (test_metric_list ml) →
  reports ml metric →
  ∃ md,
    collect_loop ml metric
      {| md_train := []; md_val := []; md_test := []; md_name := metric |}
      (seq 0 n) = Ok md ∧
    md_name md = metric ∧
    column ("train_" +:+ metric) (take n (train_metric_list ml)) (md_train md) ∧
    column ("val_" +:+ metric) (take n (val_metric_list ml)) (md_val md) ∧
    (if test_exists ml
     then column ("test_" +:+ metric) (take n (test_metric_list ml)) (md_test md)
     else md_test md = []).
Proof.
  intros H1 H2 H3 (Htr & Hva & Hte).
  induction n as [|n IH].
  - eexists. split; [done|]. cbn [md_name md_train md_val md_test take].
    split_and!; try done; try apply Forall2_nil_2.
    destruct (test_exists ml); [apply Forall2_nil_2|done].
  - destruct IH as (md & Hmd & Hname & Ctr & Cva & Cte); [lia..|].
    rewrite seq_S, collect_loop_app, Hmd. cbn [mbind result_bind plus collect_loop].
    destruct (lookup_lt_is_Some_2 (train_metric_list ml) n) as [tr Etr]; [lia|].
    destruct (lookup_lt_is_Some_2 (val_metric_list ml) n) as [va Eva]; [lia|].
    destruct (lookup_lt_is_Some_2 (test_metric_list ml) n) as [te Ete]; [lia|].
    destruct (lookup_lt_is_Some_2 (test_metric_list ml) 0) as [t0 Et0]; [lia|].
    pose proof (Forall_lookup_1 _ _ _ _ Htr Etr) as [trv Htrv].
    pose proof (Forall_lookup_1 _ _ _ _ Hva Eva) as [vav Hvav].
    unfold collect_body, list_index, getitem.
    rewrite Etr. cbn [mbind result_bind]. rewrite Htrv. cbn [mbind result_bind].
    rewrite Eva. cbn [mbind result_bind]. rewrite Hvav. cbn [mbind result_bind].
    rewrite Et0. cbn [mbind result_bind].
    assert (Hex : test_exists ml = nonempty t0).
    { unfold test_exists. destruct (test_metric_list ml); [done|].
      by simplify_eq/=. }
    rewrite Hex in *.
    rewrite !(take_S_r _ _ _ Etr), !(take_S_r _ _ _ Eva), !(take_S_r _ _ _ Ete).
    destruct (nonempty t0).
    + rewrite Ete. cbn [mbind result_bind].
      pose proof (Forall_lookup_1 _ _ _ _ (Hte eq_refl) Ete) as [tev Htev].
      rewrite Htev. cbn [mbind result_bind mret result_ret].
      eexists. split; [done|].
      cbn [md_name md_train md_val md_test].
      split_and!; [done|apply column_snoc..]; try done.
      * by rewrite Htrv.
      * by rewrite Hvav.
      * by rewrite Htev.
    + cbn [mbind result_bind mret result_ret].
      eexists. split; [done|].
      cbn [md_name md_train md_val md_test].
      split_and!; [done|apply column_snoc..|done]; try done.
      * by rewrite Htrv.
      * by rewrite Hvav.
Qed.

Lemma collect_spec ml n names :
  length (train_metric_list ml) = n →
  length (val_metric_list ml) = n →
  length (test_metric_list ml) = n →
  Forall (reports ml) names →
  ∃ mds, collect ml n names = Ok mds ∧ Forall2 (collected ml) names mds.
Proof.
  intros H1 H2 H3 Hrep.
  induction Hrep as [|metric names Hm _ (mds & Hmds & Hall)].
  - by exists [].
  - destruct (collect_loop_spec ml metric n) as (md & Hmd & Hcol);
      [lia..|done|].
    cbn [collect]. rewrite Hmd, Hmds. cbn [mbind result_bind mret result_ret].
    eexists. split; [done|]. constructor; [|done].
    unfold collected.
    rewrite <- H1 in Hcol at 1. rewrite <- H2 in Hcol at 1.
    rewrite <- H3 in Hcol. by rewrite !firstn_all in Hcol.
Qed.
End CollectFacts.

Section SummariseFacts.
Context {C S : Type}.
Import CrossValidationOnFeatureNumber.

Lemma select_loop_spec ml acc mds :
  (mds = [] ∨ test_metric_list ml ≠ []) →
  Forall (selections_return ml) mds →
  ∃ out v t1 t2,
    select_loop ml acc mds = Ok out ∧
    val_return_list out = val_return_list acc ++ v ∧
    test_return_max_val_list out = test_return_max_val_list acc ++ t1 ∧
    test_return_max_test_list out = test_return_max_test_list acc ++ t2 ∧
    Forall2 (λ md r, selected 4 (val_metric_list ml) (md_val md) = Ok r) mds v ∧
    (if test_exists ml
     then Forall2 (λ md r, selected 5 (test_metric_list ml) (md_val md) = Ok r)
            mds t1 ∧
          Forall2 (λ md r, selected 5 (test_metric_list ml) (md_test md) = Ok r)
            mds t2
     else t1 = [] ∧ t2 = []).
Proof.
  intros Hne Hall. revert acc.
  induction Hall as [|md mds (Hv & Ht) _ IH]; intros acc.
  - exists acc, [], [], []. rewrite !app_nil_r.
    split_and!; try done. by destruct (test_exists ml).
  - destruct Hne as [|Hne]; [done|].
    destruct Hv as [rv Hrv].
    cbn [select_loop]. unfold select_body. rewrite Hrv.
    cbn [mbind result_bind]. unfold list_index, test_exists in *.
    destruct (test_metric_list ml) as [|t0 tests] eqn:Etests; [done|].
    cbn [lookup list_lookup mbind result_bind].
    destruct (nonempty t0) eqn:Ent.
    + destruct (Ht eq_refl) as [[r1 Hr1] [r2 Hr2]].
      rewrite Hr1. cbn [mbind result_bind]. rewrite Hr2.
      cbn [mbind result_bind mret result_ret].
      edestruct IH as (out & v & t1 & t2 & Hout & E1 & E2 & E3 & F1 & F2 & F3);
        [by right|].
      exists out, (rv :: v), (r1 :: t1), (r2 :: t2).
      rewrite Hout, E1, E2, E3.
      cbn [val_return_list test_return_max_val_list test_return_max_test_list].
      rewrite <- !app_assoc. split_and!; try done; by constructor.
    + cbn [mbind result_bind mret result_ret].
      edestruct IH as (out & v & t1 & t2 & Hout & E1 & E2 & E3 & F1 & -> & ->);
        [by right|].
      exists out, (rv :: v), [], [].
      rewrite Hout, E1, E2, E3.
      cbn [val_return_list test_return_max_val_list test_return_max_test_list].
      rewrite <- !app_assoc. split_and!; try done; by constructor.
Qed.

Lemma select_spec ml mds :
  (mds = [] ∨ test_metric_list ml ≠ []) →
  Forall (selections_return ml) mds →
  ∃ out, select ml mds = Ok out ∧ selections ml mds out.
Proof.
  intros Hne Hall.
  destruct (select_loop_spec ml
              {| val_return_list := []; test_return_max_val_list := [];
                 test_return_max_test_list := [] |} mds Hne Hall)
    as (out & v & t1 & t2 & Hout & E1 & E2 & E3 & F1 & F2).
  exists out. split; [done|]. unfold selections.
  rewrite E1, E2, E3. done.
Qed.

Lemma plot_loop_outcome ml n store t0 mds (w : world C S) c ds evs :
  test_metric_list ml !! 0 = Some t0 →
  for_each mds tt (λ _ md, plot_body ml n store md) (set_world w c ds evs) =
  Ok (tt, set_world w c ds (evs ++ (curve_event t0 n store <$> mds))).
Proof.
  intros Ht0. revert evs. induction mds as [|md mds IH]; intros evs.
  - cbn [for_each fmap list_fmap]. by rewrite app_nil_r.
  - cbn [for_each]. unfold plot_body at 1. rewrite step_bind.
    unfold list_index. rewrite Ht0, step_lift_Ok.
    unfold bind. rewrite fmap_cons.
    replace (evs ++ curve_event t0 n store md :: (curve_event t0 n store <$> mds))
      with ((evs ++ [curve_event t0 n store md]) ++ (curve_event t0 n store <$> mds))
      by (by rewrite <- app_assoc).
    rewrite <- IH. unfold curve_event.
    destruct (nonempty t0); by rewrite last_emit.
Qed.

(** [plot] raises only when there is a curve to draw and no first test
    record to look at. *)
Lemma plot_outcome ml n store mds (w : world C S) :
  plot ml n store mds w =
    if bool_decide (store ≠ "") && bool_decide (store ∈ dirs w) then
      match mds, test_metric_list ml !! 0 with
      | [], _ => Ok (tt, w)
      | _ :: _, None => Raise IndexError
      | _ :: _, Some t0 =>
          Ok (tt, set_world w (classifier w) (dirs w)
                    (curve_event t0 n store <$> mds))
      end
    else Ok (tt, w).
Proof.
  unfold plot, path_isdir. unfold bind at 1, ask.
  destruct (bool_decide (store ≠ "") && bool_decide (store ∈ dirs w)); [|done].
  destruct mds as [|md mds]; [done|].
  destruct (test_metric_list ml !! 0) as [t0|] eqn:Ht0.
  - rewrite <- (set_world_id w) at 1.
    by rewrite (plot_loop_outcome ml n store t0).
  - cbn [for_each]. unfold plot_body, bind, lift, list_index. by rewrite Ht0.
Qed.

Lemma summarise_outcome ml store names (w : world C S) :
  summarise ml store names w =
    match collect ml (max_feature_number w) names with
    | Raise e => Raise e
    | Ok mds =>
        match plot ml (max_feature_number w) store mds w with
        | Raise e => Raise e
        | Ok (_, w') =>
            match select ml mds with
            | Raise e => Raise e
            | Ok out => Ok (out, w')
            end
        end
    end.
Proof.
  unfold summarise. unfold bind, ask, lift.
  destruct (collect _ _ _) as [mds|]; [|done].
  destruct (plot _ _ _ _ _) as [[[] w']|]; [|done].
  by destruct (select _ _).
Qed.
End SummariseFacts.

(** ** The whole sweep run *)
Section SweepRun.
Context {C S : Type} `{!Classifier C} `{!FeatureSelector S} `{!Imports}.
Import CrossValidationOnFeatureNumber.

Lemma test_exists_present (w0 w : world C S) d t store pre ml :
  sweep_invariant w0 d t store pre ml w →
  test_exists ml = true → test_present t = true.
Proof.
  intros (_ & _ & _ & _ & _ & _ & _ & _ & Ht & _) Hex.
  unfold test_exists in Hex.
  destruct (test_metric_list ml) as [|t0 tests]; [done|].
  apply Forall_cons in Ht as [Ht0 _].
  destruct (test_present t); [done|]. by subst.
Qed.

Lemma sweep_reports (w0 w : world C S) d t store pre ml names :
  estimator_contract names →
  sweep_invariant w0 d t store pre ml w →
  Forall (reports ml) names.
Proof.
  intros Hest Hinv.
  pose proof (test_exists_present _ _ _ _ _ _ _ Hinv) as Hpresent.
  destruct Hinv as (_ & _ & _ & _ & _ & _ & Htr & Hva & Hte & _).
  apply Forall_forall. intros m Hm. split_and!.
  - eapply Forall_impl; [done|]. intros r (p & l & ->).
    by apply (Hest p l "train").
  - eapply Forall_impl; [done|]. intros r (p & l & ->).
    by apply (Hest p l "val").
  - intros Hex. rewrite (Hpresent Hex) in Hte.
    eapply Forall_impl; [done|]. intros r (p & l & ->).
    by apply (Hest p l "test").
Qed.

Lemma sweep_tagged (w0 w : world C S) d t store pre ml names :
  estimator_contract names →
  sweep_invariant w0 d t store pre ml w →
  Forall (keys_tagged "val_") (val_metric_list ml) ∧
  Forall (λ r, get "val_feature_number" r = None) (val_metric_list ml) ∧
  (test_exists ml = true →
   Forall (keys_tagged "test_") (test_metric_list ml) ∧
   Forall (λ r, get "test_feature_number" r = None) (test_metric_list ml)).
Proof.
  intros Hest Hinv.
  pose proof (test_exists_present _ _ _ _ _ _ _ Hinv) as Hpresent.
  destruct Hinv as (_ & _ & _ & _ & _ & _ & Htr & Hva & Hte & _).
  split_and!.
  - eapply Forall_impl; [done|]. intros r (p & l & ->).
    by apply (Hest p l "val").
  - eapply Forall_impl; [done|]. intros r (p & l & ->).
    by apply (Hest p l "val").
  - intros Hex. rewrite (Hpresent Hex) in Hte. split.
    + eapply Forall_impl; [done|]. intros r (p & l & ->).
      by apply (Hest p l "test").
    + eapply Forall_impl; [done|]. intros r (p & l & ->).
      by apply (Hest p l "test").
Qed.

Lemma column_length key records values :
  column key records values → length values = length records.
Proof. intros Hc. symmetry. by eapply Forall2_length. Qed.

(** A sweep over at least one feature count, with a splitter and an
    estimator that keep their contracts, returns; its result is the
    selection over the collected sequences, and what it adds to the events
    of the loop is no call of the selector or of the runner. *)
Lemma Run_returns (w : world C S) d t store names s :
  splitter_in_range →
  estimator_contract names →
  cv w = Some s →
  1 ≤ max_feature_number w →
  ∃ ml w1 mds out w2,
    sweep d t store w = Ok (ml, w1) ∧
    sweep_invariant w d t store (seq 1 (max_feature_number w)) ml w1 ∧
    Forall2 (collected ml) names mds ∧
    selections ml mds out ∧
    Run d t store names w = Ok (out, w2) ∧
    ∃ extra, trace w2 = trace w1 ++ extra ∧
             Forall (λ e, is_call e = false) extra.
Proof.
  intros Hsplit Hest Hcv Hpos.
  destruct (sweep_outcome w d t store s Hsplit Hcv) as (ml & w1 & Hsweep & Hinv).
  pose proof (sweep_reports _ _ _ _ _ _ _ _ Hest Hinv) as Hrep.
  pose proof (sweep_tagged _ _ _ _ _ _ _ _ Hest Hinv) as (Htv & _ & Htt).
  pose proof Hinv as (_ & Hmax & _ & L1 & L2 & L3 & _).
  rewrite length_seq in L1, L2, L3.
  destruct (collect_spec ml (max_feature_number w) names L1 L2 L3 Hrep)
    as (mds & Hcollect & Hcollected).
  assert (Hne : test_metric_list ml ≠ []).
  { intros Hnil. rewrite Hnil in L3. simpl in L3. lia. }
  assert (Hsel : Forall (selections_return ml) mds).
  { apply Forall_forall. intros md Hmd.
    apply list_elem_of_lookup in Hmd as [j Hj].
    destruct (Forall2_lookup_r _ _ _ _ _ Hcollected Hj)
      as (m & _ & _ & _ & Cva & Cte).
    pose proof (column_length _ _ _ Cva) as Lva.
    assert (md_val md ≠ []) as Hva.
    { intros Hnil. rewrite Hnil in Lva. simpl in Lva. lia. }
    split.
    - destruct (selected_spec "val_" (val_metric_list ml) (md_val md))
        as (i & rec & r & Hr & _); [done..|]. by exists r.
    - intros Hex. rewrite Hex in Cte. destruct (Htt Hex) as [Htag _].
      pose proof (column_length _ _ _ Cte) as Lte. split.
      + destruct (selected_spec "test_" (test_metric_list ml) (md_val md))
          as (i & rec & r & Hr & _); [done|lia|done|]. by exists r.
      + destruct (selected_spec "test_" (test_metric_list ml) (md_test md))
          as (i & rec & r & Hr & _); [|done|done|by exists r].
        intros Hnil. rewrite Hnil in Lte. simpl in Lte. lia. }
  destruct (select_spec ml mds (or_intror Hne) Hsel) as (out & Hout & Hselns).
  destruct (lookup_lt_is_Some_2 (test_metric_list ml) 0) as [t0 Ht0]; [lia|].
  exists ml, w1, mds, out.
  unfold Run. unfold bind at 1. rewrite Hsweep, summarise_outcome.
  rewrite Hmax, Hcollect, plot_outcome, Ht0, Hout.
  destruct (bool_decide (store ≠ "") && bool_decide (store ∈ dirs w1)).
  - destruct mds as [|md mds].
    + eexists. split_and!; [done..|]. exists []. by rewrite app_nil_r.
    + eexists. split_and!; [done..|]. eexists. split; [done|].
      apply Forall_fmap, Forall_forall. intros md' _.
      unfold curve_event. simpl. by destruct (nonempty t0).
  - eexists. split_and!; [done..|]. exists []. by rewrite app_nil_r.
Qed.
End SweepRun.

Lemma selected_numbers_cons (e : event) (evs : list event) :
  selected_numbers (e :: evs) =
  match e with
  | EvSetSelectedFeatureNumber n => n :: selected_numbers evs
  | _ => selected_numbers evs
  end.
Proof. by destruct e. Qed.

Lemma selected_numbers_calls (evs : list event) :
  selected_numbers (filter (λ e, is_call e = true) evs) = selected_numbers evs.
Proof.
  induction evs as [|e evs IH]; [done|].
  destruct (decide (is_call e = true)) as [Hc|Hc].
  - rewrite filter_cons_True by done.
    rewrite !selected_numbers_cons. by rewrite IH.
  - rewrite filter_cons_False by done.
    rewrite selected_numbers_cons, IH. by destruct e.
Qed.

Section SweepTheorems.
Context {C S : Type} `{!Classifier C} `{!FeatureSelector S} `{!Imports}.
Import CrossValidationOnFeatureNumber.

Lemma selected_numbers_expected (sel : S) d t store ns :
  selected_numbers (expected_calls sel d t store ns) = ns.
Proof.
  revert sel. induction ns as [|n ns IH]; intros sel; [done|].
  cbn [expected_calls app]. rewrite !selected_numbers_cons. by rewrite IH.
Qed.

(** C1. In a sweep over at least one feature count, with a splitter and an
    estimator that keep their contracts, the run returns one record per
    requested metric.  For the metric at position [j], let [values] be the
    validation values of that metric over the feature counts; the record
    returned at [j] carries [feature_number] = [i + 1] where [i] is the
    first position of the maximum of [values], and its other entries are
    those of the validation record at position [i], with the tag [val_]
    removed from the keys. *)
Theorem best_by_validation_is_first_argmax
    (w : world C S) (d t : DataContainer) (store : string)
    (names : list string) (s : splitter) :
  splitter_in_range →
  estimator_contract names →
  cv w = Some s →
  1 ≤ max_feature_number w →
  ∃ ml w1 out w2,
    sweep d t store w = Ok (ml, w1) ∧
    length (val_metric_list ml) = max_feature_number w ∧
    Run d t store names w = Ok (out, w2) ∧
    length (val_return_list out) = length names ∧
    ∀ j metric, names !! j = Some metric →
      ∃ values i rec r,
        column ("val_" +:+ metric) (val_metric_list ml) values ∧
        is_first_argmax values i ∧
        val_metric_list ml !! i = Some rec ∧
        val_return_list out !! j = Some r ∧
        get "feature_number" r = Some (PyInt (Z.of_nat i + 1)) ∧
        ∀ k, k ≠ "feature_number" → get k r = get ("val_" +:+ k) rec.
Proof.
  intros Hsplit Hest Hcv Hpos.
  destruct (Run_returns w d t store names s Hsplit Hest Hcv Hpos)
    as (ml & w1 & mds & out & w2 & Hsweep & Hinv & Hcollected
        & (Hvals & _) & HRun & _).
  pose proof (sweep_tagged _ _ _ _ _ _ _ _ Hest Hinv) as (Htag & Hfn & _).
  pose proof Hinv as (_ & _ & _ & _ & L2 & _). rewrite length_seq in L2.
  exists ml, w1, out, w2. split_and!; [done..| |].
  - rewrite <- (Forall2_length _ _ _ Hvals). symmetry.
    by eapply Forall2_length.
  - intros j metric Hj.
    destruct (Forall2_lookup_l _ _ _ _ _ Hcollected Hj)
      as (md & Hmd & _ & _ & Cva & _).
    destruct (Forall2_lookup_l _ _ _ _ _ Hvals Hmd) as (r & Hr & Hsel).
    pose proof (column_length _ _ _ Cva) as Lva.
    destruct (selected_spec "val_" (val_metric_list ml) (md_val md))
      as (i & rec & r' & Hr' & Hfirst & Hrec & _ & Hget); [|done..|].
    { intros Hnil. rewrite Hnil in Lva. simpl in Lva. lia. }
    change (String.length "val_") with 4 in Hr'.
    rewrite Hsel in Hr'. injection Hr' as <-.
    exists (md_val md), i, rec, r. split_and!; [done..| |].
    + rewrite Hget.
      change ("val_" +:+ "feature_number") with "val_feature_number".
      by rewrite (Forall_lookup_1 _ _ _ _ Hfn Hrec).
    + intros k Hk. rewrite Hget. destruct (get ("val_" +:+ k) rec); [done|].
      by rewrite decide_False.
Qed.

(** C3. With a splitter that keeps its contract, the loop of the sweep
    returns; [SetSelectedFeatureNumber] is called with 1, 2, ..., M in
    this order and with nothing else, and the calls of the selector and of
    the cross-validation run are, for each count in turn: select the
    count, reduce the dataset into the folder of the count, run the
    cross-validation on the dataset just returned.  A sweep run that
    returns has made exactly these calls. *)
Theorem sweep_calls_selector_and_runner_in_order
    (w : world C S) (d t : DataContainer) (store : string) (s : splitter) :
  splitter_in_range →
  cv w = Some s →
  (∃ ml w1 new,
     sweep d t store w = Ok (ml, w1) ∧
     trace w1 = trace w ++ new ∧
     selected_numbers new = seq 1 (max_feature_number w) ∧
     filter (λ e, is_call e = true) new =
       expected_calls (feature_selector w) d t store
         (seq 1 (max_feature_number w))) ∧
  (∀ names out w2,
     Run d t store names w = Ok (out, w2) →
     ∃ new,
       trace w2 = trace w ++ new ∧
       selected_numbers new = seq 1 (max_feature_number w) ∧
       filter (λ e, is_call e = true) new =
         expected_calls (feature_selector w) d t store
           (seq 1 (max_feature_number w))).
Proof.
  intros Hsplit Hcv.
  destruct (sweep_outcome w d t store s Hsplit Hcv) as (ml & w1 & Hsweep & Hinv).
  destruct Hinv as (_ & Hmax & _ & _ & _ & _ & _ & _ & _ & new & Htrace & Hcalls).
  assert (Hnum : selected_numbers new = seq 1 (max_feature_number w)).
  { by rewrite <- selected_numbers_calls, Hcalls, selected_numbers_expected. }
  split; [by exists ml, w1, new|].
  intros names out w2. unfold Run. unfold bind at 1.
  rewrite Hsweep, summarise_outcome.
  destruct (collect _ _ _) as [mds|]; [|done].
  rewrite plot_outcome.
  destruct (bool_decide (store ≠ "") && bool_decide (store ∈ dirs w1)).
  - destruct mds as [|md mds].
    + destruct (select _ _); [|done]. intros [= <- <-]. by exists new.
    + destruct (test_metric_list ml !! 0) as [t0|]; [|done].
      destruct (select _ _); [|done]. intros [= <- <-].
      set (curves := curve_event t0 (max_feature_number w1) store <$> md :: mds).
      assert (Hcurves : Forall (λ e, is_call e = false) curves).
      { apply Forall_fmap, Forall_forall. intros md' _.
        unfold curve_event. simpl. by destruct (nonempty t0). }
      exists (new ++ curves). cbn [trace set_world]. split_and!.
      * by rewrite Htrace, <- app_assoc.
      * rewrite <- selected_numbers_calls, filter_app.
        rewrite (filter_none is_call curves Hcurves), app_nil_r.
        by rewrite selected_numbers_calls.
      * rewrite filter_app.
        by rewrite (filter_none is_call curves Hcurves), app_nil_r.
  - destruct (select _ _); [|done]. intros [= <- <-]. by exists new.
Qed.

(** C5. In a sweep over at least one feature count whose test dataset has
    no element, with a splitter and an estimator that keep their
    contracts, the run returns, every test record of the sweep is the
    empty mapping, and the two lists of test records are returned empty. *)
Theorem no_test_metrics_leave_test_lists_empty
    (w : world C S) (d t : DataContainer) (store : string)
    (names : list string) (s : splitter) :
  splitter_in_range →
  estimator_contract names →
  cv w = Some s →
  1 ≤ max_feature_number w →
  array_size (GetArray t) = 0 →
  ∃ ml w1 out w2,
    sweep d t store w = Ok (ml, w1) ∧
    Forall (λ r, r = []) (test_metric_list ml) ∧
    Run d t store names w = Ok (out, w2) ∧
    length (val_return_list out) = length names ∧
    test_return_max_val_list out = [] ∧
    test_return_max_test_list out = [].
Proof.
  intros Hsplit Hest Hcv Hpos Hempty.
  destruct (Run_returns w d t store names s Hsplit Hest Hcv Hpos)
    as (ml & w1 & mds & out & w2 & Hsweep & Hinv & Hcollected
        & (Hvals & Htests) & HRun & _).
  pose proof (test_exists_present _ _ _ _ _ _ _ Hinv) as Hpresent.
  destruct Hinv as (_ & _ & _ & _ & _ & _ & _ & _ & Hte & _).
  rewrite (test_present_false t Hempty) in Hte, Hpresent.
  destruct (test_exists ml); [by specialize (Hpresent eq_refl)|].
  destruct Htests as [E1 E2].
  exists ml, w1, out, w2. split_and!; try done.
  rewrite <- (Forall2_length _ _ _ Hvals). symmetry.
  by eapply Forall2_length.
Qed.
End SweepTheorems.

(** ** The concrete setting keeps the contracts *)
Section ToyFacts.
Import Toy.

Lemma toy_predict_length (c : toy_classifier) (X : matrix) :
  length (Predict c X) = length X.
Proof. simpl. by rewrite length_fmap. Qed.

Lemma toy_splitter_in_range : splitter_in_range.
Proof.
  intros s d. unfold folds_in_range. simpl. unfold toy_split.
  set (n := length (GetArray d) `min` length (GetLabel d)).
  assert (Hn : ∀ (P : nat → Prop) `{!∀ j, Decision (P j)} i,
            i ∈ filter P (seq 0 n) →
            i < length (GetArray d) ∧ i < length (GetLabel d)).
  { intros P ? i [_ Hi%elem_of_seq]%list_elem_of_filter. lia. }
  destruct s as [|k]; apply Forall_fmap, Forall_forall; intros i Hi;
    apply Forall_app; split; apply Forall_forall; intros j Hj; simpl in Hj.
  - unfold all_but in Hj. by eapply Hn.
  - apply list_elem_of_singleton in Hj as ->. apply elem_of_seq in Hi. lia.
  - by eapply Hn.
  - unfold residue_class in Hj. by eapply Hn.
Qed.

Lemma toy_estimator_contract :
  estimator_contract ["auc"; "accuracy"].
Proof.
  intros pred lab phase. simpl. split_and!.
  - intros key Hkey. unfold keys in Hkey. simpl in Hkey.
    rewrite !elem_of_cons in Hkey.
    destruct Hkey as [->|[->|[->|Hkey]]].
    + exists "auc". by rewrite string_app_assoc.
    + exists "accuracy". by rewrite string_app_assoc.
    + exists "sample_number". by rewrite string_app_assoc.
    + by apply not_elem_of_nil in Hkey.
  - cbn [get].
    rewrite !decide_False; [done|..]; intros Heq;
      apply (inj (String.app phase)) in Heq; discriminate Heq.
  - intros m Hm. rewrite !elem_of_cons in Hm.
    destruct Hm as [->|[->|Hm]].
    + cbn [get]. by rewrite decide_True.
    + cbn [get]. rewrite decide_False; [by rewrite decide_True|].
      intros Heq. apply (inj (String.app phase)) in Heq. discriminate Heq.
    + by apply not_elem_of_nil in Hm.
Qed.
End ToyFacts.

(** ** Test records at the two optima *)
Section TestSelections.
Context {C S : Type} `{!Classifier C} `{!FeatureSelector S} `{!Imports}.
Import CrossValidationOnFeatureNumber.

Lemma test_exists_reported (w0 w : world C S) d t store pre ml names metric :
  estimator_contract names →
  sweep_invariant w0 d t store pre ml w →
  test_present t = true →
  test_metric_list ml ≠ [] →
  metric ∈ names →
  test_exists ml = true.
Proof.
  intros Hest (_ & _ & _ & _ & _ & _ & _ & _ & Hte & _) Hpresent Hne Hm.
  unfold test_exists. destruct (test_metric_list ml) as [|t0 tests]; [done|].
  apply Forall_cons in Hte as [Ht0 _]. rewrite Hpresent in Ht0.
  destruct Ht0 as (p & l & ->).
  destruct (Hest p l "test") as (_ & _ & Hrep).
  destruct (Hrep metric Hm) as [v Hv].
  by destruct (EstimateMetirc p l "test").
Qed.

Lemma test_selections_hold (w : world C S) d t store names s :
  splitter_in_range →
  estimator_contract names →
  cv w = Some s →
  1 ≤ max_feature_number w →
  0 < array_size (GetArray t) →
  test_selections_statement w d t store names.
Proof.
  intros Hsplit Hest Hcv Hpos Hfull.
  destruct (Run_returns w d t store names s Hsplit Hest Hcv Hpos)
    as (ml & w1 & mds & out & w2 & Hsweep & Hinv & Hcollected
        & (_ & Htests) & HRun & _).
  pose proof (sweep_tagged _ _ _ _ _ _ _ _ Hest Hinv) as (_ & _ & Htt).
  pose proof Hinv as (_ & _ & _ & _ & _ & L3 & _). rewrite length_seq in L3.
  assert (Hne : test_metric_list ml ≠ []).
  { intros Hnil. rewrite Hnil in L3. simpl in L3. lia. }
  assert (Hexists : ∀ metric, metric ∈ names → test_exists ml = true).
  { intros metric Hm. eapply test_exists_reported; try done.
    by apply test_present_true. }
  exists ml, w1, out, w2.
  destruct names as [|m0 names'].
  { apply Forall2_nil_inv_l in Hcollected as ->.
    destruct (test_exists ml).
    - destruct Htests as [F1 F2].
      apply Forall2_nil_inv_l in F1 as ->. apply Forall2_nil_inv_l in F2 as ->.
      by split_and!.
    - destruct Htests as [-> ->]. by split_and!. }
  rewrite (Hexists m0) in Htests, Htt by apply list_elem_of_here.
  destruct Htests as [F1 F2]. destruct (Htt eq_refl) as [Htag Hfn].
  pose proof (Forall2_length _ _ _ Hcollected) as Lc.
  split_and!; [done..| | |].
  - rewrite <- (Forall2_length _ _ _ F1). by symmetry.
  - rewrite <- (Forall2_length _ _ _ F2). by symmetry.
  - intros j metric Hj.
    assert (Hm : metric ∈ m0 :: names') by (by eapply list_elem_of_lookup_2).
    destruct (Forall2_lookup_l _ _ _ _ _ Hcollected Hj)
      as (md & Hmd & _ & _ & Cva & Cte).
    rewrite (Hexists metric Hm) in Cte.
    destruct (Forall2_lookup_l _ _ _ _ _ F1 Hmd) as (r1 & Hr1 & Hsel1).
    destruct (Forall2_lookup_l _ _ _ _ _ F2 Hmd) as (r2 & Hr2 & Hsel2).
    pose proof (column_length _ _ _ Cva) as Lva.
    pose proof (column_length _ _ _ Cte) as Lte.
    pose proof Hinv as (_ & _ & _ & _ & L2 & _). rewrite length_seq in L2.
    destruct (selected_spec "test_" (test_metric_list ml) (md_val md))
      as (i1 & rec1 & r1' & Hr1' & Hfirst1 & Hrec1 & _ & Hget1);
      [|lia|done|].
    { intros Hnil. rewrite Hnil in Lva. simpl in Lva. lia. }
    destruct (selected_spec "test_" (test_metric_list ml) (md_test md))
      as (i2 & rec2 & r2' & Hr2' & Hfirst2 & Hrec2 & _ & Hget2);
      [|lia|done|].
    { intros Hnil. rewrite Hnil in Lte. simpl in Lte. lia. }
    change (String.length "test_") with 5 in Hr1', Hr2'.
    rewrite Hsel1 in Hr1'. injection Hr1' as <-.
    rewrite Hsel2 in Hr2'. injection Hr2' as <-.
    exists (md_val md), (md_test md), i1, i2, rec1, rec2, r1, r2.
    split_and!; [done..| | | |].
    + rewrite Hget1.
      change ("test_" +:+ "feature_number") with "test_feature_number".
      by rewrite (Forall_lookup_1 _ _ _ _ Hfn Hrec1).
    + rewrite Hget2.
      change ("test_" +:+ "feature_number") with "test_feature_number".
      by rewrite (Forall_lookup_1 _ _ _ _ Hfn Hrec2).
    + intros k Hk. rewrite Hget1. destruct (get ("test_" +:+ k) rec1); [done|].
      by rewrite decide_False.
    + intros k Hk. rewrite Hget2. destruct (get ("test_" +:+ k) rec2); [done|].
      by rewrite decide_False.
Qed.
End TestSelections.

(** C4. In a sweep over at least one feature count whose test dataset is
    not empty, with a splitter and an estimator that keep their contracts,
    the run returns two more lists with one record per requested metric.
    For each metric the first holds the test record at the first maximum
    of the validation values, the second the test record at the first
    maximum of the test values; both carry [feature_number] = position + 1
    and the other entries of that test record with the tag [test_]
    removed.  The two positions are found independently: in the concrete
    setting the first record names 2 features and the second 3. *)
Theorem test_records_at_validation_and_test_optimum :
  (∀ (C S : Type) (HC : Classifier C) (HS : FeatureSelector S) (HI : Imports)
     (w : world C S) (d t : DataContainer) (store : string)
     (names : list string) (s : splitter),
     splitter_in_range →
     estimator_contract names →
     cv w = Some s →
     1 ≤ max_feature_number w →
     0 < array_size (GetArray t) →
     test_selections_statement w d t store names) ∧
  (∃ out w2 r_val r_test,
     CrossValidationOnFeatureNumber.Run Toy.train_set Toy.test_set "" ["auc"]
       (Toy.toy_world 3 []) = Ok (out, w2) ∧
     CrossValidationOnFeatureNumber.test_return_max_val_list out = [r_val] ∧
     CrossValidationOnFeatureNumber.test_return_max_test_list out = [r_test] ∧
     get "feature_number" r_val = Some (PyInt 2) ∧
     get "feature_number" r_test = Some (PyInt 3)).
Proof.
  split.
  - intros C S HC HS HI w d t store names s. apply test_selections_hold.
  - eexists _, _, _, _. split_and!.
    + vm_compute. reflexivity.
    + reflexivity.
    + reflexivity.
    + reflexivity.
    + reflexivity.
Qed.

Section NoFeatureCount.
Context {C S : Type} `{!Classifier C} `{!FeatureSelector S} `{!Imports}.
Import CrossValidationOnFeatureNumber.

Lemma collect_zero (ml : metric_lists) (names : list string) :
  collect ml 0 names =
  Ok ((λ metric, {| md_train := []; md_val := []; md_test := [];
                    md_name := metric |}) <$> names).
Proof.
  induction names as [|m names IH]; [done|].
  cbn [collect seq collect_loop]. rewrite IH. done.
Qed.

(** C10, as the code has it.  With [max_feature_number] = 0 the loop of the
    sweep makes no pass and leaves the three metric lists empty.  When at
    least one metric name is requested the run then raises: [IndexError]
    from [test_metric_list[0]] when [store_folder] is a directory that
    exists, [ValueError] from [np.argmax] on the empty validation sequence
    otherwise.  When no metric name is requested the run returns three
    empty lists. *)
Theorem sweep_without_feature_counts
    (w : world C S) (d t : DataContainer) (store : string)
    (names : list string) :
  max_feature_number w = 0 →
  sweep d t store w = Ok (metric_lists_empty, w) ∧
  Run d t store names w =
    match names with
    | [] => Ok ({| val_return_list := []; test_return_max_val_list := [];
                   test_return_max_test_list := [] |}, w)
    | _ :: _ =>
        if bool_decide (store ≠ "") && bool_decide (store ∈ dirs w)
        then Raise IndexError else Raise ValueError
    end.
Proof.
  intros Hzero.
  assert (Hsweep : sweep d t store w = Ok (metric_lists_empty, w)).
  { unfold sweep, bind, ask. by rewrite Hzero. }
  split; [done|].
  unfold Run. unfold bind at 1. rewrite Hsweep, summarise_outcome.
  rewrite Hzero, collect_zero, plot_outcome.
  destruct names as [|m names]; cbn [fmap list_fmap].
  - by destruct (bool_decide (store ≠ "") && bool_decide (store ∈ dirs w)).
  - by destruct (bool_decide (store ≠ "") && bool_decide (store ∈ dirs w)).
Qed.
End NoFeatureCount.

(** C10, as stated, fails: with [max_feature_number] = 0 and no metric name
    the run does not raise, it returns three empty lists. *)
Lemma zero_feature_counts_and_no_names_returns :
  max_feature_number (Toy.toy_world 0 []) = 0 ∧
  CrossValidationOnFeatureNumber.Run Toy.train_set Toy.no_test "" []
    (Toy.toy_world 0 []) =
  Ok ({| CrossValidationOnFeatureNumber.val_return_list := [];
         CrossValidationOnFeatureNumber.test_return_max_val_list := [];
         CrossValidationOnFeatureNumber.test_return_max_test_list := [] |},
      Toy.toy_world 0 []).
Proof. split; reflexivity. Qed.

(** ** The theorems at work in the concrete setting *)

Lemma SaveResult_rows_sorted_by_key_witness :
  wf [("val_auc", Scalar (CNum (PyFloat (17 # 20))));
      ("train_auc", Scalar (CNum (PyFloat (9 # 10))));
      ("classes", Sequence [CStr "benign"; CStr "malignant"])] ∧
  ∃ w',
    CrossValidation.SaveResult
      [("val_auc", Scalar (CNum (PyFloat (17 # 20))));
       ("train_auc", Scalar (CNum (PyFloat (9 # 10))));
       ("classes", Sequence [CStr "benign"; CStr "malignant"])]
      "out" (Toy.toy_world 1 ["out"]) = Ok (tt, w') ∧
    trace w' =
      [EvWriteRows "out/result.csv"
         [[CStr "classes"; CStr "benign"; CStr "malignant"];
          [CStr "train_auc"; CNum (PyFloat (9 # 10))];
          [CStr "val_auc"; CNum (PyFloat (17 # 20))]]].
Proof.
  assert (Hwf : wf [("val_auc", Scalar (CNum (PyFloat (17 # 20))));
                    ("train_auc", Scalar (CNum (PyFloat (9 # 10))));
                    ("classes", Sequence [CStr "benign"; CStr "malignant"])]).
  { apply (bool_decide_unpack _). vm_compute. exact I. }
  split; [exact Hwf|].
  destruct (SaveResult_rows_sorted_by_key _ "out" (Toy.toy_world 1 ["out"]) Hwf)
    as (rows & w' & Hsave & Htrace & _).
  exists w'. split; [exact Hsave|].
  vm_compute in Hsave. injection Hsave as <-. reflexivity.
Defined.

Lemma pooled_sequences_have_role_lengths_witness :
  cv (Toy.toy_world 3 []) = Some LeaveOneOut ∧
  ∃ acc w',
    CrossValidation.run_folds Toy.train_set (Toy.toy_world 3 []) = Ok (acc, w') ∧
    length (CrossValidation.train_pred_list acc) = 12 ∧
    length (CrossValidation.train_label_list acc) = 12 ∧
    length (CrossValidation.val_pred_list acc) = 4 ∧
    length (CrossValidation.val_label_list acc) = 4.
Proof.
  split; [reflexivity|].
  destruct (pooled_sequences_have_role_lengths Toy.train_set (Toy.toy_world 3 [])
              LeaveOneOut toy_predict_length eq_refl
              (toy_splitter_in_range _ _))
    as (acc & w' & Hrun & H1 & H2 & H3 & H4 & _).
  exists acc, w'. split; [exact Hrun|].
  rewrite <- H1, <- H3, H2, H4. vm_compute. repeat split; reflexivity.
Defined.

Lemma empty_test_dataset_is_skipped_witness :
  array_size (GetArray Toy.no_test) = 0 ∧
  cv (Toy.toy_world 3 []) = Some LeaveOneOut ∧
  ∃ train_metric val_metric w',
    CrossValidation.Run Toy.train_set Toy.no_test "out" (Toy.toy_world 3 []) =
      Ok ((train_metric, val_metric, []), w') ∧
    Forall (λ e, test_related "out" e = false) (trace w').
Proof.
  split; [reflexivity|]. split; [reflexivity|].
  destruct (empty_test_dataset_is_skipped Toy.train_set Toy.no_test "out"
              (Toy.toy_world 3 []) LeaveOneOut eq_refl eq_refl
              (toy_splitter_in_range _ _))
    as (tr & va & w' & new & Hrun & Htrace & Hnone).
  exists tr, va, w'. split; [exact Hrun|].
  rewrite Htrace. exact Hnone.
Defined.

Lemma test_metric_comes_from_full_refit_witness :
  0 < array_size (GetArray Toy.test_set) ∧
  cv (Toy.toy_world 3 []) = Some LeaveOneOut ∧
  ∃ metrics w',
    CrossValidation.Run Toy.train_set Toy.test_set "" (Toy.toy_world 3 []) =
      Ok (metrics, w') ∧
    metrics.2 =
      [("test_auc", PyFloat (4 # 4)); ("test_accuracy", PyFloat (4 # 4));
       ("test_sample_number", PyInt 4)] ∧
    length (filter (λ e, is_fit e = true) (trace w')) = 5.
Proof.
  split; [vm_compute; lia|]. split; [reflexivity|].
  destruct (test_metric_comes_from_full_refit Toy.train_set Toy.test_set ""
              (Toy.toy_world 3 []) LeaveOneOut)
    as (acc & c & evs & post & w' & Hfolds & Hrun & Htrace & _).
  { vm_compute. lia. }
  { reflexivity. }
  { apply toy_splitter_in_range. }
  eexists _, w'. split; [exact Hrun|].
  vm_compute in Hfolds. injection Hfolds as <- <- <-.
  vm_compute in Hrun. injection Hrun as <-.
  split; reflexivity.
Defined.

Lemma store_folder_does_not_change_returned_metrics_witness :
  classifier (Toy.toy_world 3 []) = classifier (Toy.toy_world 3 ["out"]) ∧
  cv (Toy.toy_world 3 []) = cv (Toy.toy_world 3 ["out"]) ∧
  returned_value
    (CrossValidation.Run Toy.train_set Toy.test_set "" (Toy.toy_world 3 [])) =
  returned_value
    (CrossValidation.Run Toy.train_set Toy.test_set "out"
       (Toy.toy_world 3 ["out"])).
Proof.
  split; [reflexivity|]. split; [reflexivity|].
  apply (store_folder_does_not_change_returned_metrics Toy.train_set
           Toy.test_set "out" (Toy.toy_world 3 []) (Toy.toy_world 3 ["out"]));
    reflexivity.
Defined.

Lemma best_by_validation_is_first_argmax_witness :
  cv (Toy.toy_world 3 []) = Some LeaveOneOut ∧
  1 ≤ max_feature_number (Toy.toy_world 3 []) ∧
  ∃ out w2 r,
    CrossValidationOnFeatureNumber.Run Toy.train_set Toy.test_set ""
      ["auc"; "accuracy"] (Toy.toy_world 3 []) = Ok (out, w2) ∧
    CrossValidationOnFeatureNumber.val_return_list out !! 0 = Some r ∧
    get "feature_number" r = Some (PyInt 2) ∧
    get "auc" r = Some (PyFloat (4 # 4)).
Proof.
  split; [reflexivity|]. split; [simpl; lia|].
  destruct (best_by_validation_is_first_argmax (Toy.toy_world 3 [])
              Toy.train_set Toy.test_set "" ["auc"; "accuracy"] LeaveOneOut
              toy_splitter_in_range toy_estimator_contract eq_refl)
    as (ml & w1 & out & w2 & Hsweep & Hlen & Hrun & _).
  { simpl. lia. }
  exists out, w2. vm_compute in Hrun. injection Hrun as <- <-.
  eexists. repeat split; reflexivity.
Defined.

Lemma sweep_calls_selector_and_runner_in_order_witness :
  cv (Toy.toy_world 3 []) = Some LeaveOneOut ∧
  ∃ ml w1,
    CrossValidationOnFeatureNumber.sweep Toy.train_set Toy.test_set ""
      (Toy.toy_world 3 []) = Ok (ml, w1) ∧
    selected_numbers (trace w1) = [1; 2; 3] ∧
    length (filter (λ e, is_call e = true) (trace w1)) = 9.
Proof.
  split; [reflexivity|].
  destruct (sweep_calls_selector_and_runner_in_order (Toy.toy_world 3 [])
              Toy.train_set Toy.test_set "" LeaveOneOut
              toy_splitter_in_range eq_refl)
    as [(ml & w1 & new & Hsweep & Htrace & Hnum & Hcalls) _].
  exists ml, w1. split; [exact Hsweep|].
  rewrite Htrace. cbn [trace Toy.toy_world app]. rewrite Hnum, Hcalls.
  split; reflexivity.
Defined.

Lemma no_test_metrics_leave_test_lists_empty_witness :
  cv (Toy.toy_world 3 []) = Some LeaveOneOut ∧
  1 ≤ max_feature_number (Toy.toy_world 3 []) ∧
  array_size (GetArray Toy.no_test) = 0 ∧
  ∃ out w2,
    CrossValidationOnFeatureNumber.Run Toy.train_set Toy.no_test ""
      ["auc"; "accuracy"] (Toy.toy_world 3 []) = Ok (out, w2) ∧
    length (CrossValidationOnFeatureNumber.val_return_list out) = 2 ∧
    CrossValidationOnFeatureNumber.test_return_max_val_list out = [] ∧
    CrossValidationOnFeatureNumber.test_return_max_test_list out = [].
Proof.
  split; [reflexivity|]. split; [simpl; lia|]. split; [reflexivity|].
  destruct (no_test_metrics_leave_test_lists_empty (Toy.toy_world 3 [])
              Toy.train_set Toy.no_test "" ["auc"; "accuracy"] LeaveOneOut
              toy_splitter_in_range toy_estimator_contract eq_refl)
    as (ml & w1 & out & w2 & _ & _ & Hrun & Hlen & H1 & H2).
  { simpl. lia. }
  { reflexivity. }
  exists out, w2. split; [exact Hrun|]. split; [exact Hlen|].
  split; [exact H1|exact H2].
Defined.

Lemma test_records_at_validation_and_test_optimum_witness :
  cv (Toy.toy_world 3 []) = Some LeaveOneOut ∧
  1 ≤ max_feature_number (Toy.toy_world 3 []) ∧
  0 < array_size (GetArray Toy.test_set) ∧
  test_selections_statement (Toy.toy_world 3 []) Toy.train_set Toy.test_set ""
    ["auc"; "accuracy"].
Proof.
  split; [reflexivity|]. split; [simpl; lia|]. split; [vm_compute; lia|].
  apply (proj1 test_records_at_validation_and_test_optimum _ _ _ _ _
           (Toy.toy_world 3 []) Toy.train_set Toy.test_set ""
           ["auc"; "accuracy"] LeaveOneOut).
  - apply toy_splitter_in_range.
  - apply toy_estimator_contract.
  - reflexivity.
  - simpl. lia.
  - vm_compute. lia.
Defined.

Lemma sweep_without_feature_counts_witness :
  max_feature_number (Toy.toy_world 0 []) = 0 ∧
  CrossValidationOnFeatureNumber.Run Toy.train_set Toy.test_set ""
    ["auc"; "accuracy"] (Toy.toy_world 0 []) = Raise ValueError ∧
  CrossValidationOnFeatureNumber.Run Toy.train_set Toy.test_set "out"
    ["auc"; "accuracy"] (Toy.toy_world 0 ["out"]) = Raise IndexError.
Proof.
  split; [reflexivity|]. split.
  - apply (sweep_without_feature_counts (Toy.toy_world 0 []) Toy.train_set
             Toy.test_set "" ["auc"; "accuracy"] eq_refl).
  - apply (sweep_without_feature_counts (Toy.toy_world 0 ["out"]) Toy.train_set
             Toy.test_set "out" ["auc"; "accuracy"] eq_refl).
Defined.

(** The two sequences of the specification: validation AUC 0.70, 0.85, 0.81
    selects 2 features; test AUC 0.60, 0.62, 0.75 selects 3; a tie keeps
    the first position. *)
Example argmax_validation_sequence :
  argmax [7 # 10; 17 # 20; 81 # 100] = Ok 1.
Proof. reflexivity. Qed.

Example argmax_test_sequence :
  argmax [3 # 5; 31 # 50; 3 # 4] = Ok 2.
Proof. reflexivity. Qed.

Example argmax_tie_keeps_first :
  argmax [1 # 2; 9 # 10; 18 # 20; 1 # 3] = Ok 1.
Proof. reflexivity. Qed.

Example argmax_empty_raises : argmax [] = Raise ValueError.
Proof. reflexivity. Qed.

(** * Further properties of the code *)

(** ** Construction and the splitter *)
Section SplitterProperties.
Context {C S : Type} `{!Classifier C} `{!Imports}.
Import CrossValidation.

Lemma splitter_of_unknown (name : string) :
  name ∉ cv_names → splitter_of name = None.
Proof.
  unfold cv_names, splitter_of. rewrite !not_elem_of_cons.
  intros (H1 & H2 & H3 & _). by rewrite !decide_False.
Qed.

(** X1. An instance built with a [cv_method] that is not one of the three
    recognised names has no splitter: its [Run] raises [AttributeError],
    and it still does after a [SetCV] with another unrecognised name. *)
Theorem unknown_cv_method_makes_Run_raise
    (fresh : C) (cv_method name : string) (d t : DataContainer)
    (store : string) (w w1 w2 : world C S) :
  cv_method ∉ cv_names →
  name ∉ cv_names →
  __init__ fresh cv_method w = Ok (tt, w1) →
  SetCV name w1 = Ok (tt, w2) →
  Run d t store w1 = Raise AttributeError ∧
  Run d t store w2 = Raise AttributeError.
Proof.
  intros Hm Hn Hinit Hset.
  unfold cv_names in Hm, Hn. rewrite !not_elem_of_cons in Hm, Hn.
  destruct Hm as (M1 & M2 & M3 & _). destruct Hn as (N1 & N2 & N3 & _).
  unfold __init__ in Hinit. injection Hinit as <-.
  unfold SetCV in Hset. injection Hset as <-.
  rewrite !Run_outcome. cbn [cv]. by rewrite !decide_False by done.
Qed.

(** X2. [SetCV] installs for a recognised name the splitter that
    [__init__] installs for it, touches nothing else, and with any other
    name leaves the instance as it is, splitter included. *)
Theorem SetCV_agrees_with_init_and_ignores_unknown_names
    (fresh : C) (name : string) (w : world C S) :
  ∃ w1 w2,
    SetCV name w = Ok (tt, w1) ∧
    __init__ fresh name w = Ok (tt, w2) ∧
    classifier w1 = classifier w ∧
    max_feature_number w1 = max_feature_number w ∧
    feature_selector w1 = feature_selector w ∧
    dirs w1 = dirs w ∧ trace w1 = trace w ∧
    (name ∈ cv_names → cv w1 = cv w2 ∧ cv w1 = splitter_of name ∧
                        is_Some (cv w1)) ∧
    (name ∉ cv_names → w1 = w ∧ cv w2 = None).
Proof.
  eexists _, _. split; [reflexivity|]. split; [reflexivity|].
  cbn [classifier max_feature_number feature_selector dirs trace cv].
  split_and!; try done.
  - unfold cv_names, splitter_of. rewrite !elem_of_cons.
    intros [->|[->|[->|Hin]]]; [by eauto..|].
    by apply not_elem_of_nil in Hin.
  - intros Hn. pose proof (splitter_of_unknown _ Hn) as En.
    unfold cv_names in Hn. rewrite !not_elem_of_cons in Hn.
    destruct Hn as (H1 & H2 & H3 & _). rewrite !decide_False by done.
    by destruct w.
Qed.
End SplitterProperties.

Lemma unknown_cv_method_makes_Run_raise_witness :
  ("3-folder" ∉ cv_names) ∧ ("LOOCV" ∉ cv_names) ∧
  ∃ w1 w2,
    CrossValidation.__init__ (classifier (Toy.toy_world 3 [])) "3-folder"
      (Toy.toy_world 3 []) = Ok (tt, w1) ∧
    CrossValidation.SetCV "LOOCV" w1 = Ok (tt, w2) ∧
    CrossValidation.Run Toy.train_set Toy.test_set "" w2 = Raise AttributeError.
Proof.
  assert (H1 : "3-folder" ∉ cv_names).
  { apply (bool_decide_unpack _). vm_compute. exact I. }
  assert (H2 : "LOOCV" ∉ cv_names).
  { apply (bool_decide_unpack _). vm_compute. exact I. }
  split; [exact H1|]. split; [exact H2|].
  eexists _, _. split; [reflexivity|]. split; [reflexivity|].
  eapply (unknown_cv_method_makes_Run_raise _ "3-folder" "LOOCV" _ _ _
            (Toy.toy_world 3 [])); [exact H1|exact H2|reflexivity|reflexivity].
Defined.

(** ** When one cross-validation pass returns *)

Lemma take_rows_lookup {A} (a : list A) (index : list nat) (xs : list A) :
  take_rows a index = Ok xs → Forall2 (λ i x, a !! i = Some x) index xs.
Proof.
  revert xs. induction index as [|i index IH]; intros xs; simpl.
  - intros [= <-]. constructor.
  - destruct (a !! i) as [x|] eqn:Hx; [|done].
    destruct (take_rows a index) as [ys|]; [|done].
    intros [= <-]. constructor; [done|]. by apply IH.
Qed.

Lemma take_rows_Raise {A} (a : list A) (index : list nat) (e : exn) :
  take_rows a index = Raise e → e = IndexError.
Proof.
  induction index as [|i index IH]; simpl; [done|].
  destruct (a !! i) as [x|].
  - destruct (take_rows a index) as [ys|e']; [done|].
    intros [= <-]. by apply IH.
  - by intros [= <-].
Qed.

Lemma take_rows_Ok_in_range {A} (a : list A) (index : list nat) (xs : list A) :
  take_rows a index = Ok xs → Forall (λ i, i < length a) index.
Proof.
  intros Hx%take_rows_lookup.
  induction Hx as [|i x index xs Hi _ IH]; constructor; [|done].
  by eapply lookup_lt_Some.
Qed.

Section ReturnProperties.
Context {C S : Type} `{!Classifier C} `{!Imports}.
Import CrossValidation.

Lemma fold_outcomes_Ok_in_range d c acc folds r :
  fold_outcomes (GetArray d) (GetLabel d) c acc folds = Ok r →
  folds_in_range d folds.
Proof.
  revert c acc r. unfold folds_in_range.
  induction folds as [|fold rest IH]; intros c acc r; simpl; [constructor|].
  destruct (take_rows (GetArray d) fold.1) as [x1|] eqn:E1; [|done].
  destruct (take_rows (GetLabel d) fold.1) as [x2|] eqn:E2; [|done].
  destruct (take_rows (GetArray d) fold.2) as [x3|] eqn:E3; [|done].
  destruct (take_rows (GetLabel d) fold.2) as [x4|] eqn:E4; [|done]. simpl.
  destruct (fold_outcomes _ _ _ _ rest) as [r'|] eqn:Hrest; [|done].
  intros _. constructor; [|by eapply IH].
  apply take_rows_Ok_in_range in E1, E2, E3, E4.
  rewrite Forall_forall in E1, E2, E3, E4.
  apply Forall_app. split; apply Forall_forall; intros i Hi; eauto.
Qed.

Lemma fold_outcomes_Raise data label c acc folds e :
  fold_outcomes data label c acc folds = Raise e → e = IndexError.
Proof.
  revert c acc. induction folds as [|fold rest IH]; intros c acc; simpl; [done|].
  destruct (take_rows data fold.1) as [x1|e1] eqn:E1;
    [|intros [= <-]; by eapply take_rows_Raise].
  destruct (take_rows label fold.1) as [x2|e2] eqn:E2;
    [|intros [= <-]; by eapply take_rows_Raise].
  destruct (take_rows data fold.2) as [x3|e3] eqn:E3;
    [|intros [= <-]; by eapply take_rows_Raise].
  destruct (take_rows label fold.2) as [x4|e4] eqn:E4;
    [|intros [= <-]; by eapply take_rows_Raise]. simpl.
  destruct (fold_outcomes _ _ _ _ rest) as [r'|e'] eqn:Hrest; [done|].
  simpl. intros [= <-]. by eapply IH.
Qed.

(** X3. [Run] returns exactly when a splitter is set and every index of
    every fold addresses a sample and a label of the dataset.  Without a
    splitter it raises [AttributeError]; with a fold index out of range
    it raises [IndexError]; it raises nothing else, whatever the store
    folder and the test dataset. *)
Theorem Run_returns_iff_splitter_and_indices_in_range
    (d t : DataContainer) (store : string) (w : world C S) :
  ((∃ r, Run d t store w = Ok r) ↔
   ∃ s, cv w = Some s ∧
        folds_in_range d (cv_split s (GetArray d) (GetLabel d))) ∧
  (∀ e, Run d t store w = Raise e →
        (e = AttributeError ∧ cv w = None) ∨
        (e = IndexError ∧
         ∃ s, cv w = Some s ∧
              ¬ folds_in_range d (cv_split s (GetArray d) (GetLabel d)))).
Proof.
  rewrite Run_outcome. destruct (cv w) as [s|].
  - destruct (fold_outcomes _ _ _ _ _) as [[[acc c] evs]|e'] eqn:Hfolds.
    + apply fold_outcomes_Ok_in_range in Hfolds. split; [|done].
      split; [by exists s|by eexists].
    + split.
      * split; [by intros [r Hr]|].
        intros (s' & [= <-] & Hrange).
        destruct (fold_outcomes_in_range d (classifier w) pooled_empty _ Hrange)
          as [r Hr].
        congruence.
      * intros e [= <-]. right. split; [by eapply fold_outcomes_Raise|].
        exists s. split; [done|]. intros Hrange.
        destruct (fold_outcomes_in_range d (classifier w) pooled_empty _ Hrange)
          as [r Hr].
        congruence.
  - split.
    + split; [by intros [r Hr]|by intros (s & Hs & _)].
    + intros e [= <-]. by left.
Qed.

Lemma fold_outcomes_indices data label c acc folds acc' c' evs :
  fold_outcomes data label c acc folds = Ok (acc', c', evs) →
  val_index_store acc' = val_index_store acc ++ concat (snd <$> folds) ∧
  ∃ tl vl,
    train_label_list acc' = train_label_list acc ++ tl ∧
    val_label_list acc' = val_label_list acc ++ vl ∧
    Forall2 (λ i l, label !! i = Some l) (concat (fst <$> folds)) tl ∧
    Forall2 (λ i l, label !! i = Some l) (concat (snd <$> folds)) vl.
Proof.
  revert c acc acc' c' evs.
  induction folds as [|fold rest IH]; intros c acc acc' c' evs; simpl.
  - intros [= <- <- <-]. rewrite app_nil_r. split; [done|].
    exists [], []. rewrite !app_nil_r. by repeat split.
  - destruct (take_rows data fold.1) as [x1|] eqn:E1; [|done].
    destruct (take_rows label fold.1) as [x2|] eqn:E2; [|done].
    destruct (take_rows data fold.2) as [x3|] eqn:E3; [|done].
    destruct (take_rows label fold.2) as [x4|] eqn:E4; [|done]. simpl.
    destruct (fold_outcomes _ _ _ _ rest) as [[[acc1 c1] evs1]|] eqn:Hrest;
      [|done].
    simpl. intros [= <- <- <-].
    destruct (IH _ _ _ _ _ Hrest) as (Hidx & tl & vl & Htl & Hvl & Ftl & Fvl).
    cbn [val_index_store train_label_list val_label_list] in Hidx, Htl, Hvl.
    split; [by rewrite Hidx, <- app_assoc|].
    exists (x2 ++ tl), (x4 ++ vl). rewrite Htl, Hvl, <- !app_assoc.
    split_and!; [done..| |].
    + apply Forall2_app; [by apply take_rows_lookup|done].
    + apply Forall2_app; [by apply take_rows_lookup|done].
Qed.

(** X4. After the loop over the folds, the stored validation indices are
    the validation index sets of the folds one after the other, and the
    pooled validation labels are the labels of the dataset read at these
    indices, position by position; likewise the pooled train labels and
    the train index sets.  So a held-out label, and the prediction pooled
    at the same position, is traced back to its sample. *)
Theorem pooled_labels_follow_the_fold_indices
    (d : DataContainer) (w w' : world C S) (acc : pooled) :
  run_folds d w = Ok (acc, w') →
  ∃ s, cv w = Some s ∧
    val_index_store acc =
      concat (snd <$> cv_split s (GetArray d) (GetLabel d)) ∧
    Forall2 (λ i l, GetLabel d !! i = Some l)
      (val_index_store acc) (val_label_list acc) ∧
    Forall2 (λ i l, GetLabel d !! i = Some l)
      (concat (fst <$> cv_split s (GetArray d) (GetLabel d)))
      (train_label_list acc).
Proof.
  rewrite run_folds_outcome. destruct (cv w) as [s|]; [|done].
  destruct (fold_outcomes _ _ _ _ _) as [[[acc' c] evs]|] eqn:Hfolds; [|done].
  intros [= <- <-]. exists s. split; [done|].
  destruct (fold_outcomes_indices _ _ _ _ _ _ _ _ Hfolds)
    as (Hidx & tl & vl & Htl & Hvl & Ftl & Fvl).
  cbn [pooled_empty val_index_store train_label_list val_label_list app]
    in Hidx, Htl, Hvl.
  rewrite Hidx, Htl, Hvl. done.
Qed.
End ReturnProperties.

Lemma pooled_labels_follow_the_fold_indices_witness :
  ∃ acc w',
    CrossValidation.run_folds Toy.train_set (Toy.toy_world 3 []) = Ok (acc, w') ∧
    CrossValidation.val_index_store acc = [0; 1; 2; 3] ∧
    CrossValidation.val_label_list acc = [1; 0; 1; 0]%Z.
Proof.
  destruct (CrossValidation.run_folds Toy.train_set (Toy.toy_world 3 []))
    as [[acc w']|e] eqn:Hrun; [|vm_compute in Hrun; discriminate Hrun].
  exists acc, w'. split; [reflexivity|].
  destruct (pooled_labels_follow_the_fold_indices Toy.train_set
              (Toy.toy_world 3 []) w' acc Hrun) as (s & Hs & Hidx & _).
  injection Hs as <-. split; [rewrite Hidx; reflexivity|].
  vm_compute in Hrun. injection Hrun as <- <-. reflexivity.
Defined.

(** ** What one cross-validation pass estimates and writes *)


Lemma omap_none {A B} (f : A → option B) (l : list A) :
  Forall (λ x, f x = None) l → omap f l = [].
Proof.
  induction 1 as [|x l Hx _ IH]; [done|].
  cbn [omap list_omap]. rewrite Hx. apply IH.
Qed.

Section DictMerge.
Context {V W : Type}.

Lemma keys_fmap_values (f : V → W) (d : dict V) :
  keys (prod_map id f <$> d) = keys d.
Proof.
  unfold keys. induction d as [|[k v] d IH]; [done|].
  rewrite !fmap_cons. cbn [fst prod_map id]. by rewrite IH.
Qed.

Lemma get_fmap_values (f : V → W) (d : dict V) (k : string) :
  get k (prod_map id f <$> d) = f <$> get k d.
Proof.
  induction d as [|[k' v] d IH]; [done|].
  rewrite fmap_cons. cbn [get prod_map id fst snd].
  by destruct (decide (k' = k)).
Qed.

Lemma get_update_wf (d e : dict V) (k : string) :
  wf e →
  get k (update d e) = match get k e with
                       | Some v => Some v
                       | None => get k d
                       end.
Proof.
  revert d. induction e as [|[k0 v0] e IH]; intros d Hwf; [done|].
  assert (Hfresh : (k0 ∉ keys e) ∧ wf e).
  { unfold wf, keys in *. rewrite fmap_cons in Hwf.
    by apply NoDup_cons in Hwf. }
  destruct Hfresh as [Hfresh Hwf'].
  change (update d ((k0, v0) :: e)) with (update (set k0 v0 d) e).
  rewrite IH by done. rewrite get_set. cbn [get].
  destruct (decide (k0 = k)) as [->|Hne]; [|done].
  apply get_None in Hfresh. by rewrite Hfresh.
Qed.
End DictMerge.

Section WriteProperties.
Context {C S : Type} `{!Classifier C} `{!Imports}.
Import CrossValidation.

Lemma Run_Ok_inv (d t : DataContainer) (store : string) (w w' : world C S) r :
  Run d t store w = Ok (r, w') →
  ∃ s acc c evs,
    cv w = Some s ∧
    fold_outcomes (GetArray d) (GetLabel d) (classifier w) pooled_empty
      (cv_split s (GetArray d) (GetLabel d)) = Ok (acc, c, evs) ∧
    Forall (λ e, fold_event e = true) evs ∧
    r = (train_metric_of acc, val_metric_of acc, test_metric_of d t c) ∧
    w' = set_world w (stored_classifier store (refit d c))
           (stored_dirs (dirs w) store)
           (run_events (dirs w) store d t acc c evs).
Proof.
  rewrite Run_outcome. destruct (cv w) as [s|]; [|done].
  destruct (fold_outcomes _ _ _ _ _) as [[[acc c] evs]|] eqn:Hfolds; [|done].
  intros [= <- <-]. exists s, acc, c, evs. split_and!; try done.
  by eapply fold_outcomes_events.
Qed.


(** X6. With an empty [store_folder] a run that returns writes nothing and
    creates no directory: none of its events writes a path, and the
    directories are the ones it found. *)
Theorem Run_without_store_folder_writes_nothing
    (d t : DataContainer) (w w' : world C S)
    (r : dict pyval * dict pyval * dict pyval) :
  Run d t "" w = Ok (r, w') →
  dirs w' = dirs w ∧
  ∃ new, trace w' = trace w ++ new ∧ Forall (λ e, written e = None) new.
Proof.
  intros Hrun.
  destruct (Run_Ok_inv _ _ _ _ _ _ Hrun)
    as (s & acc & c & evs & Hcv & Hfolds & Hev & -> & ->).
  split; [done|]. eexists. split; [done|].
  unfold run_events, store_events, test_events.
  rewrite bool_decide_eq_false_2 by (by intros []).
  apply Forall_app. split; [by repeat constructor|].
  apply Forall_app. split.
  { eapply Forall_impl; [done|]. by intros []. }
  apply Forall_app. split; [by repeat constructor|].
  rewrite app_nil_r. destruct (test_present t); by repeat constructor.
Qed.

(** X7. With a store folder a run that returns leaves the folder in
    existence and removes no directory.  It creates the folder only when
    it was absent, then writes, in this order: the train and validation
    prediction arrays, the train and validation label arrays, the table of
    validation indices, the train and validation ROC plots, the three
    test artifacts when the test dataset is not empty, the classifier,
    and [result.csv]. *)
Theorem Run_with_store_folder_writes_its_artifacts_in_order
    (d t : DataContainer) (store : string) (w w' : world C S)
    (r : dict pyval * dict pyval * dict pyval) :
  store ≠ "" →
  Run d t store w = Ok (r, w') →
  store ∈ dirs w' ∧
  (∀ p, p ∈ dirs w → p ∈ dirs w') ∧
  ∃ new,
    trace w' = trace w ++ new ∧
    omap written new =
      (if bool_decide (store ∈ dirs w) then [] else [store]) ++
      (path_join store <$>
         ["train_predict.npy"; "val_predict.npy"; "train_label.npy";
          "val_label.npy"; "cv_info.csv"; "train_ROC.jpg"; "val_ROC.jpg"]) ++
      (if bool_decide (0 < array_size (GetArray t))
       then path_join store <$>
              ["test_predict.npy"; "test_label.npy"; "test_ROC.jpg"]
       else []) ++
      [store; path_join store "result.csv"].
Proof.
  intros Hstore Hrun.
  destruct (Run_Ok_inv _ _ _ _ _ _ Hrun)
    as (s & acc & c & evs & Hcv & Hfolds & Hev & -> & ->).
  cbn [dirs trace set_world]. unfold stored_dirs.
  rewrite (bool_decide_eq_true_2 _ Hstore). cbn [andb].
  split_and!.
  - destruct (bool_decide (store ∈ dirs w)) eqn:Hdir; cbn [negb].
    + by apply bool_decide_eq_true_1 in Hdir.
    + apply elem_of_app. right. apply list_elem_of_here.
  - intros p Hp. destruct (bool_decide (store ∈ dirs w)); cbn [negb]; [done|].
    apply elem_of_app. by left.
  - eexists. split; [done|].
    unfold run_events, store_events, store_branch_events, test_events,
      test_artifacts, test_present.
    rewrite (bool_decide_eq_true_2 _ Hstore).
    rewrite !omap_app. rewrite (omap_none written evs).
    2:{ eapply Forall_impl; [done|]. by intros []. }
    destruct (bool_decide (store ∈ dirs w)),
      (bool_decide (0 < array_size (GetArray t))); reflexivity.
Qed.

(** X8. With a store folder, and an estimator that returns mappings, the
    table that a returning run writes to [result.csv] has its rows in
    strictly increasing order of the key and merges the three returned
    records: a key has a row when one of them has it, and the row holds
    the key and the value of the last of train, validation and test that
    has the key. *)
Theorem Run_summary_table_merges_the_metric_records
    (d t : DataContainer) (store : string) (w w' : world C S)
    (r : dict pyval * dict pyval * dict pyval) :
  store ≠ "" →
  (∀ pred lab phase, wf (EstimateMetirc pred lab phase)) →
  Run d t store w = Ok (r, w') →
  ∃ rows,
    EvWriteRows (path_join store "result.csv") rows ∈ trace w' ∧
    StronglySorted row_lt rows ∧
    ∀ row, row ∈ rows ↔ ∃ k v, merged r k = Some v ∧ row = [CStr k; CNum v].
Proof.
  intros Hstore Hwf Hrun.
  destruct (Run_Ok_inv _ _ _ _ _ _ Hrun)
    as (s & acc & c & evs & Hcv & Hfolds & Hev & -> & ->).
  exists (table_rows (info_of d t acc c)). split_and!.
  - cbn [trace set_world]. unfold run_events, store_events, store_branch_events.
    rewrite (bool_decide_eq_true_2 _ Hstore).
    do 8 (apply elem_of_app; right).
    apply list_elem_of_further, list_elem_of_here.
  - apply table_rows_sorted, wf_info_of.
  - intros row. rewrite (table_rows_elem _ _ (wf_info_of d t acc c)).
    assert (Hget : ∀ k, get k (info_of d t acc c) =
              (λ v, Scalar (CNum v)) <$>
                merged (train_metric_of acc, val_metric_of acc,
                        test_metric_of d t c) k).
    { intros k. unfold info_of, merged, test_metric_of, info_update.
      cbn [fst snd].
      assert (Hwf' : ∀ m : dict pyval, wf m →
                wf (prod_map id (λ v, Scalar (CNum v)) <$> m)).
      { intros m Hm. unfold wf. by rewrite keys_fmap_values. }
      destruct (test_present t).
      - rewrite !get_update_wf by (apply Hwf', Hwf).
        rewrite !get_fmap_values. cbn [get].
        destruct (get k (EstimateMetirc _ _ "test")); [done|].
        destruct (get k (val_metric_of acc)); [done|].
        by destruct (get k (train_metric_of acc)).
      - rewrite !get_update_wf by (apply Hwf', Hwf).
        rewrite !get_fmap_values. cbn [get].
        destruct (get k (val_metric_of acc)); [done|].
        by destruct (get k (train_metric_of acc)). }
    split.
    + intros (k & v' & Hk & ->). rewrite Hget in Hk.
      destruct (merged _ k) as [v|] eqn:Hm; [|done].
      injection Hk as <-. by exists k, v.
    + intros (k & v & Hk & ->). exists k, (Scalar (CNum v)).
      by rewrite Hget, Hk.
Qed.

(** X9. After a run that returns, [GetClassifier] gives the classifier
    that was set on the whole dataset and fitted after the last fold, and
    then saved when a store folder is given; this does not depend on the
    test dataset. *)
Theorem GetClassifier_after_Run_is_the_full_refit
    (d t : DataContainer) (store : string) (w w' : world C S)
    (r : dict pyval * dict pyval * dict pyval) :
  Run d t store w = Ok (r, w') →
  ∃ acc w1,
    run_folds d w = Ok (acc, w1) ∧
    GetClassifier w' =
      Ok (if bool_decide (store ≠ "")
          then Save store (Fit (SetDataContainer d (classifier w1)))
          else Fit (SetDataContainer d (classifier w1)), w').
Proof.
  intros Hrun.
  destruct (Run_Ok_inv _ _ _ _ _ _ Hrun)
    as (s & acc & c & evs & Hcv & Hfolds & Hev & -> & ->).
  exists acc. rewrite run_folds_outcome, Hcv, Hfolds.
  eexists. split; [done|].
  unfold GetClassifier, ask, stored_classifier, refit.
  cbn [classifier set_world]. by destruct (bool_decide (store ≠ "")).
Qed.
End WriteProperties.

Lemma toy_estimates_are_mappings (pred : list Q) (lab : list Z) (phase : string) :
  wf (EstimateMetirc pred lab phase).
Proof.
  unfold wf, keys. simpl. repeat constructor.
  - rewrite !not_elem_of_cons. split_and!; [| |apply not_elem_of_nil];
      intros Heq; apply (inj (String.app phase)) in Heq; discriminate Heq.
  - rewrite !not_elem_of_cons. split_and!; [|apply not_elem_of_nil];
      intros Heq; apply (inj (String.app phase)) in Heq; discriminate Heq.
  - apply not_elem_of_nil.
Qed.


Lemma Run_without_store_folder_writes_nothing_witness :
  ∃ r w',
    CrossValidation.Run Toy.train_set Toy.test_set "" (Toy.toy_world 3 ["out"]) =
      Ok (r, w') ∧
    dirs w' = ["out"] ∧ omap written (trace w') = [].
Proof.
  destruct (CrossValidation.Run Toy.train_set Toy.test_set ""
              (Toy.toy_world 3 ["out"])) as [[r w']|e] eqn:Hrun;
    [|vm_compute in Hrun; discriminate Hrun].
  exists r, w'. split; [reflexivity|].
  destruct (Run_without_store_folder_writes_nothing _ _ _ _ _ Hrun)
    as (Hdirs & new & Htrace & Hnone).
  split; [exact Hdirs|]. rewrite Htrace. apply (omap_none written new Hnone).
Defined.

Lemma Run_with_store_folder_writes_its_artifacts_in_order_witness :
  "out" ≠ "" ∧
  ∃ r w',
    CrossValidation.Run Toy.train_set Toy.no_test "out" (Toy.toy_world 3 []) =
      Ok (r, w') ∧
    "out" ∈ dirs w' ∧
    omap written (trace w') =
      ["out"; "out/train_predict.npy"; "out/val_predict.npy";
       "out/train_label.npy"; "out/val_label.npy"; "out/cv_info.csv";
       "out/train_ROC.jpg"; "out/val_ROC.jpg"; "out"; "out/result.csv"].
Proof.
  assert (Hne : "out" ≠ "") by discriminate.
  split; [exact Hne|].
  destruct (CrossValidation.Run Toy.train_set Toy.no_test "out"
              (Toy.toy_world 3 [])) as [[r w']|e] eqn:Hrun;
    [|vm_compute in Hrun; discriminate Hrun].
  exists r, w'. split; [reflexivity|].
  destruct (Run_with_store_folder_writes_its_artifacts_in_order _ _ _ _ _ _
              Hne Hrun) as (Hin & _ & new & Htrace & Hwritten).
  split; [exact Hin|]. rewrite Htrace. cbn [trace Toy.toy_world app].
  rewrite Hwritten. reflexivity.
Defined.

Lemma Run_summary_table_merges_the_metric_records_witness :
  "out" ≠ "" ∧
  ∃ r w' rows,
    CrossValidation.Run Toy.train_set Toy.test_set "out" (Toy.toy_world 3 []) =
      Ok (r, w') ∧
    EvWriteRows "out/result.csv" rows ∈ trace w' ∧
    [CStr "test_auc"; CNum (PyFloat (4 # 4))] ∈ rows.
Proof.
  assert (Hne : "out" ≠ "") by discriminate.
  split; [exact Hne|].
  destruct (CrossValidation.Run Toy.train_set Toy.test_set "out"
              (Toy.toy_world 3 [])) as [[r w']|e] eqn:Hrun;
    [|vm_compute in Hrun; discriminate Hrun].
  destruct (Run_summary_table_merges_the_metric_records _ _ _ _ _ _ Hne
              toy_estimates_are_mappings Hrun) as (rows & Hin & _ & Hrows).
  exists r, w', rows. split; [reflexivity|]. split; [exact Hin|].
  apply Hrows. exists "test_auc", (PyFloat (4 # 4)). split; [|reflexivity].
  vm_compute in Hrun. injection Hrun as <- _. reflexivity.
Defined.

Lemma GetClassifier_after_Run_is_the_full_refit_witness :
  ∃ r w' c,
    CrossValidation.Run Toy.train_set Toy.no_test "" (Toy.toy_world 3 []) =
      Ok (r, w') ∧
    CrossValidation.GetClassifier w' = Ok (c, w') ∧
    Toy.toy_data c = GetArray Toy.train_set ∧ Toy.toy_width c = 3.
Proof.
  destruct (CrossValidation.Run Toy.train_set Toy.no_test ""
              (Toy.toy_world 3 [])) as [[r w']|e] eqn:Hrun;
    [|vm_compute in Hrun; discriminate Hrun].
  destruct (GetClassifier_after_Run_is_the_full_refit _ _ _ _ _ _ Hrun)
    as (acc & w1 & Hfolds & Hget).
  exists r, w'. eexists. split; [reflexivity|]. split; [exact Hget|].
  split; reflexivity.
Defined.

(** ** The summary table and the order of insertion *)

(** X10. The table that [SaveResult] writes does not depend on the order
    in which the entries were put into the mapping: two mappings with the
    same entries give the same call result, same rows in the same order. *)
Theorem SaveResult_ignores_the_insertion_order
    {C S : Type} (info info' : dict info_value) (store_path : string)
    (w : world C S) :
  wf info →
  info ≡ₚ info' →
  CrossValidation.SaveResult info store_path w =
  CrossValidation.SaveResult info' store_path w.
Proof.
  intros Hwf Hperm.
  assert (Hwf' : wf info').
  { unfold wf, keys in *. by rewrite <- Hperm. }
  rewrite !SaveResult_writes by done. do 5 f_equal.
  unfold table_rows. f_equal.
  destruct (sorted_items_spec info Hwf) as [P1 S1].
  destruct (sorted_items_spec info' Hwf') as [P2 S2].
  eapply StronglySorted_unique_strong; [|exact S1|exact S2|].
  - intros x1 x2 _ _ H12 H21. apply key_lt_asym in H12.
    unfold key_lt in H21. congruence.
  - by rewrite P1, P2.
Qed.

Lemma SaveResult_ignores_the_insertion_order_witness :
  CrossValidation.SaveResult
    [("val_auc", Scalar (CNum (PyFloat (17 # 20))));
     ("train_auc", Scalar (CNum (PyFloat (9 # 10))))]
    "out" (Toy.toy_world 1 ["out"]) =
  CrossValidation.SaveResult
    [("train_auc", Scalar (CNum (PyFloat (9 # 10))));
     ("val_auc", Scalar (CNum (PyFloat (17 # 20))))]
    "out" (Toy.toy_world 1 ["out"]).
Proof.
  apply SaveResult_ignores_the_insertion_order.
  - apply (bool_decide_unpack _). vm_compute. exact I.
  - apply Permutation_swap.
Defined.

(** ** [np.argmax] *)

Lemma is_first_argmax_unique (a : list Q) (i j : nat) :
  is_first_argmax a i → is_first_argmax a j → i = j.
Proof.
  intros (m & Hm & Hmax & Hfirst) (m' & Hm' & Hmax' & Hfirst').
  destruct (lt_eq_lt_dec i j) as [[Hlt|Heq]|Hgt]; [|done|].
  - pose proof (Hfirst' i m Hlt Hm) as H1. pose proof (Hmax j m' Hm') as H2.
    exfalso. by apply (Qlt_not_le m m').
  - pose proof (Hfirst j m' Hgt Hm') as H1. pose proof (Hmax' i m Hm) as H2.
    exfalso. by apply (Qlt_not_le m' m).
Qed.

(** X11. [argmax] raises exactly on the empty sequence, and then
    [ValueError]; otherwise it returns the one position that holds a value
    no smaller than any other and strictly greater than all values before
    it: the first maximum, within the bounds of the sequence. *)
Theorem argmax_is_the_first_maximum (a : list Q) :
  (∀ e, argmax a = Raise e ↔ a = [] ∧ e = ValueError) ∧
  (∀ i, argmax a = Ok i ↔ is_first_argmax a i) ∧
  (∀ i, argmax a = Ok i → i < length a).
Proof.
  destruct a as [|x rest].
  - split_and!.
    + intros e. split; [by intros [= <-]|by intros [_ ->]].
    + intros i. split; [done|]. intros (m & Hm & _). done.
    + done.
  - destruct (argmax_first (x :: rest)) as (i0 & Hi0 & Hfirst0); [done|].
    split_and!.
    + intros e. rewrite Hi0. split; [done|by intros [? _]].
    + intros i. rewrite Hi0. split.
      * by intros [= <-].
      * intros Hfirst. f_equal. by eapply is_first_argmax_unique.
    + intros i. rewrite Hi0. intros [= <-]. by eapply is_first_argmax_lt.
Qed.

(** ** What the sweep writes and collects *)

Lemma string_app_nonempty (a b : string) : a ≠ "" → a +:+ b ≠ "".
Proof. destruct a; [done|]. intros _. discriminate. Qed.

Lemma feature_folder_nonempty (store : string) (n : nat) :
  feature_folder store n ≠ "".
Proof.
  unfold feature_folder, path_join.
  destruct (decide (store = "")) as [->|Hne].
  - by apply string_app_nonempty.
  - destruct (ends_with_slash store); by apply string_app_nonempty.
Qed.

Section SweepDetail.
Context {C S : Type} `{!Classifier C} `{!FeatureSelector S} `{!Imports}.
Import CrossValidationOnFeatureNumber.

Lemma estimates_of_app phase evs1 evs2 :
  estimates_of phase (evs1 ++ evs2) =
  estimates_of phase evs1 ++ estimates_of phase evs2.
Proof. apply omap_app. Qed.

Lemma estimates_of_none phase evs :
  Forall (λ e, is_estimate e = false) evs → estimates_of phase evs = [].
Proof.
  intros Hall. apply omap_none. eapply Forall_impl; [done|]. by intros [].
Qed.

Lemma store_events_no_estimate ds store d t acc c :
  Forall (λ e, is_estimate e = false) (store_events ds store d t acc c).
Proof.
  unfold store_events, store_branch_events, test_artifacts.
  destruct (bool_decide (store ≠ "")); [|done].
  destruct (bool_decide (store ∈ ds)), (test_present t); by repeat constructor.
Qed.

Lemma estimates_of_run_events phase ds store d t acc c evs :
  Forall (λ e, fold_event e = true) evs →
  estimates_of phase (run_events ds store d t acc c evs) =
  (if decide ("train" = phase) then [train_metric_of acc] else []) ++
  (if decide ("val" = phase) then [val_metric_of acc] else []) ++
  (if test_present t
   then if decide ("test" = phase) then [test_metric_of d t c] else []
   else []).
Proof.
  intros Hev. unfold run_events. rewrite !estimates_of_app.
  rewrite (estimates_of_none phase evs).
  2:{ eapply Forall_impl; [done|]. by intros []. }
  rewrite (estimates_of_none phase (store_events ds store d t acc c))
    by apply store_events_no_estimate.
  rewrite app_nil_r. unfold test_events, test_metric_of, estimates_of.
  cbn [omap list_omap app].
  destruct (decide ("train" = phase)), (decide ("val" = phase)),
    (test_present t); cbn [omap list_omap app]; try done;
    by destruct (decide ("test" = phase)).
Qed.

Lemma sweep_body_explicit (w : world C S) d t store ml n s :
  splitter_in_range →
  cv w = Some s →
  ∃ acc c evs,
    Forall (λ e, fold_event e = true) evs ∧
    sweep_body d t store ml n w =
      Ok ({| train_metric_list := train_metric_list ml ++ [train_metric_of acc];
             val_metric_list := val_metric_list ml ++ [val_metric_of acc];
             test_metric_list :=
               test_metric_list ml ++
               [test_metric_of (reduced (feature_selector w) d store n) t c] |},
          set_world (selected_world w d store n)
            (stored_classifier (feature_folder store n)
               (refit (reduced (feature_selector w) d store n) c))
            (stored_dirs (dirs (selected_world w d store n))
               (feature_folder store n))
            (run_events (dirs (selected_world w d store n))
               (feature_folder store n)
               (reduced (feature_selector w) d store n) t acc c evs)).
Proof.
  intros Hsplit Hcv.
  rewrite sweep_body_outcome, Run_outcome.
  cbn [cv classifier selected_world]. rewrite Hcv.
  set (d' := reduced (feature_selector w) d store n).
  destruct (fold_outcomes_in_range d' (classifier w) CrossValidation.pooled_empty
              _ (Hsplit s d')) as [[[acc c] evs] Hfolds].
  rewrite Hfolds. exists acc, c, evs. split; [|done].
  by eapply fold_outcomes_events.
Qed.

Lemma sweep_detail_step (w0 w : world C S) d t store pre n ml s :
  splitter_in_range →
  cv w0 = Some s →
  sweep_detail w0 t store pre ml w →
  ∃ ml' w', sweep_body d t store ml n w = Ok (ml', w') ∧
            sweep_detail w0 t store (pre ++ [n]) ml' w'.
Proof.
  intros Hsplit Hcv (Hcv' & Hmax & Hdirs & new & Htrace & Etr & Eva & Ete
                     & Hnone & L1 & L2 & L3 & Hpre).
  destruct (sweep_body_explicit w d t store ml n s Hsplit)
    as (acc & c & evs & Hev & Hbody); [congruence|].
  rewrite Hbody. eexists _, _. split; [done|].
  set (folder := feature_folder store n) in *.
  set (d' := reduced (feature_selector w) d store n) in *.
  set (ds := dirs (selected_world w d store n)) in *.
  assert (Hds : ∀ p, p ∈ dirs w → p ∈ ds).
  { intros p Hp. unfold ds. cbn [dirs selected_world]. fold folder.
    destruct (bool_decide (folder ∈ dirs w)); [done|].
    apply elem_of_app. by left. }
  assert (Hstored : ∀ p, p ∈ ds → p ∈ stored_dirs ds folder).
  { intros p Hp. unfold stored_dirs.
    destruct (bool_decide (folder ≠ "") && negb (bool_decide (folder ∈ ds)));
      [|done].
    apply elem_of_app. by left. }
  assert (Hfolder : folder ∈ ds).
  { unfold ds. cbn [dirs selected_world]. fold folder.
    destruct (bool_decide (folder ∈ dirs w)) eqn:Hin.
    - by apply bool_decide_eq_true_1 in Hin.
    - apply elem_of_app. right. apply list_elem_of_here. }
  pose proof (feature_folder_nonempty store n) as Hne. fold folder in Hne.
  set (head := [EvLoadWaitBar (max_feature_number w) n] ++
               (if bool_decide (folder ∈ dirs w) then [] else [EvMkdir folder]) ++
               [EvSetSelectedFeatureNumber n; EvSelectorRun d folder]).
  assert (Hhead : Forall (λ e, is_estimate e = false) head).
  { unfold head. destruct (bool_decide (folder ∈ dirs w)); by repeat constructor. }
  set (body := run_events ds folder d' t acc c evs).
  unfold sweep_detail.
  cbn [cv max_feature_number dirs trace set_world selected_world
       train_metric_list val_metric_list test_metric_list].
  fold folder. fold head.
  split_and!; [done|done|by eauto|].
  exists (new ++ head ++ body). split; [by rewrite Htrace, <- !app_assoc|].
  rewrite !estimates_of_app, !(estimates_of_none _ head Hhead).
  unfold body. rewrite !estimates_of_run_events by done.
  rewrite !length_app, L1, L2, L3. cbn [length app].
  rewrite Etr, Eva, Ete.
  split_and!; try done; try lia.
  - destruct (test_present t); simpl; by rewrite ?app_nil_r.
  - destruct (test_present t); simpl; by rewrite ?app_nil_r.
  - unfold test_metric_of. destruct (test_present t) eqn:Ht; simpl.
    + done.
    + by rewrite replicate_add.
  - intros Ht. rewrite Ht. simpl. rewrite ?app_nil_r. by apply Hnone.
  - intros m Hm. apply elem_of_app in Hm as [Hm|Hm].
    + destruct (Hpre m Hm) as (Hd & Hsave & rows & Hrows).
      split_and!; [by eauto| |exists rows]; apply elem_of_app; by left.
    + apply list_elem_of_singleton in Hm as ->. fold folder.
      split; [by apply Hstored|].
      assert (Hstore :
        ∃ pre' post',
          store_events ds folder d' t acc c =
          pre' ++ [EvClassifierSave folder;
                   EvWriteRows (path_join folder "result.csv")
                     (table_rows (info_of d' t acc c))] ++ post').
      { unfold store_events, store_branch_events.
        rewrite (bool_decide_eq_true_2 _ Hne).
        eexists _, []. rewrite app_nil_r, !app_assoc. reflexivity. }
      destruct Hstore as (pre' & post' & Hstore).
      unfold run_events. rewrite Hstore. split.
      * do 2 (apply elem_of_app; right). do 4 (apply elem_of_app; right).
        apply elem_of_app; right. apply elem_of_app; left.
        apply list_elem_of_here.
      * eexists. do 2 (apply elem_of_app; right). do 4 (apply elem_of_app; right).
        apply elem_of_app; right. apply elem_of_app; left.
        apply list_elem_of_further, list_elem_of_here.
Qed.

Lemma sweep_detail_outcome (w : world C S) d t store s :
  splitter_in_range →
  cv w = Some s →
  ∃ ml w', sweep d t store w = Ok (ml, w') ∧
           sweep_detail w t store (seq 1 (max_feature_number w)) ml w'.
Proof.
  intros Hsplit Hcv. unfold sweep. unfold bind at 1, ask.
  apply for_each_total.
  - unfold sweep_detail. split_and!; try done.
    exists []. rewrite app_nil_r. split_and!; try done.
    + by destruct (test_present t).
    + intros n Hn. by apply not_elem_of_nil in Hn.
  - intros pre n ml w1 _ Hinv. by eapply sweep_detail_step.
Qed.
End SweepDetail.

Section SweepFurther.
Context {C S : Type} `{!Classifier C} `{!FeatureSelector S} `{!Imports}.
Import CrossValidationOnFeatureNumber.

(** X12. With a splitter that keeps its contract, the loop of the sweep
    returns, removes no directory, and for every feature count from 1 to
    [max_feature_number] the folder of the count exists afterwards, the
    classifier has been saved into it and a [result.csv] written in it.
    This holds for the empty [store_folder] too: the folders are then
    [feature_1], [feature_2], ... relative to the working directory. *)
Theorem sweep_stores_every_feature_count
    (w : world C S) (d t : DataContainer) (store : string) (s : splitter) :
  splitter_in_range →
  cv w = Some s →
  ∃ ml w1 new,
    sweep d t store w = Ok (ml, w1) ∧
    trace w1 = trace w ++ new ∧
    (∀ p, p ∈ dirs w → p ∈ dirs w1) ∧
    ∀ n, 1 ≤ n ≤ max_feature_number w →
      feature_folder store n ≠ "" ∧
      feature_folder store n ∈ dirs w1 ∧
      EvClassifierSave (feature_folder store n) ∈ new ∧
      ∃ rows, EvWriteRows (path_join (feature_folder store n) "result.csv")
                rows ∈ new.
Proof.
  intros Hsplit Hcv.
  destruct (sweep_detail_outcome w d t store s Hsplit Hcv)
    as (ml & w1 & Hsweep & _ & _ & Hdirs & new & Htrace & _ & _ & _ & _ & _
        & _ & _ & Hpre).
  exists ml, w1, new. split_and!; [done..|].
  intros n Hn. split; [apply feature_folder_nonempty|].
  apply Hpre. apply elem_of_seq. lia.
Qed.

(** X13. With a splitter that keeps its contract, the loop of the sweep
    returns three lists of [max_feature_number] records each.  The train
    and validation lists are, in order, the records that the estimator
    returned for the train and validation phases during the loop.  The
    test list is the same for the test phase when the test dataset is not
    empty; otherwise it holds empty mappings only and the estimator was
    never called for the test phase. *)
Theorem sweep_metric_lists_are_the_estimates_in_order
    (w : world C S) (d t : DataContainer) (store : string) (s : splitter) :
  splitter_in_range →
  cv w = Some s →
  ∃ ml w1 new,
    sweep d t store w = Ok (ml, w1) ∧
    trace w1 = trace w ++ new ∧
    length (train_metric_list ml) = max_feature_number w ∧
    length (val_metric_list ml) = max_feature_number w ∧
    length (test_metric_list ml) = max_feature_number w ∧
    train_metric_list ml = estimates_of "train" new ∧
    val_metric_list ml = estimates_of "val" new ∧
    (0 < array_size (GetArray t) →
     test_metric_list ml = estimates_of "test" new) ∧
    (array_size (GetArray t) = 0 →
     test_metric_list ml = replicate (max_feature_number w) [] ∧
     estimates_of "test" new = []).
Proof.
  intros Hsplit Hcv.
  destruct (sweep_detail_outcome w d t store s Hsplit Hcv)
    as (ml & w1 & Hsweep & _ & _ & _ & new & Htrace & Etr & Eva & Ete & Hnone
        & L1 & L2 & L3 & _).
  rewrite length_seq in L1, L2, L3, Ete.
  exists ml, w1, new. split_and!; try done.
  - intros Hfull. by rewrite (test_present_true t Hfull) in Ete.
  - intros Hempty. pose proof (test_present_false t Hempty) as Ht.
    rewrite Ht in Ete. split; [done|by apply Hnone].
Qed.

(** X14. A sweep over at least one feature count on an instance without a
    splitter raises [AttributeError], whatever the metric names. *)
Theorem sweep_without_splitter_raises
    (w : world C S) (d t : DataContainer) (store : string)
    (names : list string) :
  cv w = None →
  1 ≤ max_feature_number w →
  Run d t store names w = Raise AttributeError.
Proof.
  intros Hcv Hpos. unfold Run. unfold bind at 1. unfold sweep.
  unfold bind at 1, ask.
  destruct (max_feature_number w) as [|m] eqn:Hm; [lia|].
  cbn [seq for_each]. unfold bind at 1.
  rewrite sweep_body_outcome, Run_outcome.
  cbn [cv selected_world]. by rewrite Hcv.
Qed.

(** X15. In a sweep over at least one feature count, when the estimator
    never reports the first requested metric for the train phase, the run
    raises [KeyError] with the key [train_] + metric. *)
Theorem sweep_raises_KeyError_for_an_unreported_metric
    (w : world C S) (d t : DataContainer) (store metric : string)
    (names : list string) (s : splitter) :
  splitter_in_range →
  cv w = Some s →
  1 ≤ max_feature_number w →
  (∀ pred lab, get ("train_" +:+ metric) (EstimateMetirc pred lab "train") = None) →
  Run d t store (metric :: names) w = Raise (KeyError ("train_" +:+ metric)).
Proof.
  intros Hsplit Hcv Hpos Hmissing.
  destruct (sweep_outcome w d t store s Hsplit Hcv) as (ml & w1 & Hsweep & Hinv).
  destruct Hinv as (_ & Hmax & _ & L1 & _ & _ & Htr & _).
  rewrite length_seq in L1.
  unfold Run. unfold bind at 1. rewrite Hsweep, summarise_outcome, Hmax.
  destruct (max_feature_number w) as [|m] eqn:Hm; [lia|].
  destruct (train_metric_list ml) as [|tr trs] eqn:Etr; [done|].
  apply Forall_cons in Htr as [(p & l & ->) _].
  cbn [collect seq collect_loop]. unfold collect_body, list_index, getitem.
  rewrite Etr. cbn [lookup list_lookup mbind result_bind].
  by rewrite Hmissing.
Qed.
End SweepFurther.

(** ** The returned records *)

Section ReturnedRecords.
Import CrossValidationOnFeatureNumber.

Lemma strip_into_keeps (n : nat) (new_info : dict pyval) (ks : list string)
    (metric_info r : dict pyval) :
  strip_into n new_info ks metric_info = Ok r →
  wf metric_info →
  wf r ∧ ∀ k, k ∈ keys metric_info → k ∈ keys r.
Proof.
  revert metric_info. induction ks as [|key ks IH]; intros metric_info.
  - cbn [strip_into]. by intros [= <-].
  - cbn [strip_into]. destruct (getitem new_info key) as [v|]; [|done].
    cbn [mbind result_bind]. intros Hr Hwf.
    destruct (IH _ Hr) as [Hwfr Hkeys]; [by apply wf_set|].
    split; [done|]. intros k Hk. apply Hkeys. rewrite keys_set.
    destruct (decide (string_drop n key ∈ keys metric_info)); [done|].
    apply elem_of_app. by left.
Qed.

Lemma sorted_dict_keys_sorted (d : dict pyval) :
  wf d → StronglySorted key_lt (keys (sorted_dict d)).
Proof.
  intros Hwf. rewrite sorted_dict_items by done.
  destruct (sorted_items_spec d Hwf) as [_ Hs]. unfold keys.
  induction Hs as [|kv l _ IH Hall]; [constructor|].
  rewrite fmap_cons. constructor; [done|]. by apply Forall_fmap.
Qed.

Lemma selected_well_formed (n : nat) (records : list (dict pyval))
    (values : list Q) (r : dict pyval) :
  selected n records values = Ok r → well_formed_selection r.
Proof.
  unfold selected.
  destruct (argmax values) as [i|]; [|done]. cbn [mbind result_bind].
  destruct (list_index records i) as [new_info|]; [|done].
  cbn [mbind result_bind].
  destruct (strip_into _ _ _ _) as [r'|] eqn:Hstrip; [|done].
  cbn [mbind result_bind mret result_ret]. intros [= <-].
  destruct (strip_into_keeps _ _ _ _ _ Hstrip) as [Hwf Hkeys].
  { apply wf_set, NoDup_nil_2. }
  split; [by apply sorted_dict_keys_sorted|].
  rewrite get_sorted_dict by done. apply get_is_Some, Hkeys.
  apply list_elem_of_here.
Qed.

Lemma select_loop_well_formed ml acc mds out :
  select_loop ml acc mds = Ok out →
  Forall well_formed_selection (val_return_list acc) →
  Forall well_formed_selection (test_return_max_val_list acc) →
  Forall well_formed_selection (test_return_max_test_list acc) →
  Forall well_formed_selection (val_return_list out) ∧
  Forall well_formed_selection (test_return_max_val_list out) ∧
  Forall well_formed_selection (test_return_max_test_list out).
Proof.
  revert acc. induction mds as [|md mds IH]; intros acc.
  - cbn [select_loop]. by intros [= <-].
  - cbn [select_loop]. unfold select_body.
    destruct (selected 4 _ _) as [rv|] eqn:Hrv; [|done].
    cbn [mbind result_bind].
    destruct (list_index _ 0) as [t0|]; [|done]. cbn [mbind result_bind].
    apply selected_well_formed in Hrv.
    destruct (nonempty t0).
    + destruct (selected 5 _ (md_val md)) as [r1|] eqn:Hr1; [|done].
      cbn [mbind result_bind].
      destruct (selected 5 _ (md_test md)) as [r2|] eqn:Hr2; [|done].
      cbn [mbind result_bind mret result_ret].
      apply selected_well_formed in Hr1, Hr2.
      intros Hout H1 H2 H3. apply (IH _ Hout); cbn; apply Forall_app;
        split; try done; by constructor.
    + cbn [mbind result_bind mret result_ret].
      intros Hout H1 H2 H3. apply (IH _ Hout); cbn; try done.
      apply Forall_app. split; [done|]. by constructor.
Qed.
End ReturnedRecords.

Section SweepReturned.
Context {C S : Type} `{!Classifier C} `{!FeatureSelector S} `{!Imports}.
Import CrossValidationOnFeatureNumber.

(** X16. Every record of the three lists that a sweep run returns has its
    keys in strictly increasing order, so no key twice, and has an entry
    [feature_number]; this needs nothing from the estimator. *)
Theorem returned_records_are_sorted_and_carry_feature_number
    (w w2 : world C S) (d t : DataContainer) (store : string)
    (names : list string) (out : returned) :
  Run d t store names w = Ok (out, w2) →
  Forall well_formed_selection (val_return_list out) ∧
  Forall well_formed_selection (test_return_max_val_list out) ∧
  Forall well_formed_selection (test_return_max_test_list out).
Proof.
  unfold Run. unfold bind at 1.
  destruct (sweep d t store w) as [[ml w1]|]; [|done].
  rewrite summarise_outcome.
  destruct (collect _ _ _) as [mds|]; [|done].
  destruct (plot _ _ _ _ _) as [[[] w1']|]; [|done].
  destruct (select ml mds) as [out'|] eqn:Hsel; [|done].
  intros [= <- <-]. unfold select in Hsel.
  by apply (select_loop_well_formed _ _ _ _ Hsel).
Qed.

(** X17. In a sweep over at least one feature count, with a splitter and
    an estimator that keep their contracts, the run adds after the loop
    nothing but the curves.  It draws none when [store_folder] is empty or
    is not a directory; otherwise it draws one curve per requested metric,
    in the order of the names, over the feature counts 1 to
    [max_feature_number], into [store_folder]/name[_FeatureNum.jpg], with
    the train and validation sequences of the metric, and the test
    sequence as a third series when the test dataset is not empty. *)
Theorem sweep_draws_one_curve_per_metric
    (w : world C S) (d t : DataContainer) (store : string)
    (names : list string) (s : splitter) :
  splitter_in_range →
  estimator_contract names →
  cv w = Some s →
  1 ≤ max_feature_number w →
  ∃ ml w1 out w2 curves,
    sweep d t store w = Ok (ml, w1) ∧
    Run d t store names w = Ok (out, w2) ∧
    trace w2 = trace w1 ++ curves ∧
    dirs w2 = dirs w1 ∧
    if bool_decide (store ≠ "") && bool_decide (store ∈ dirs w1) then
      Forall2
        (λ metric e,
           ∃ tr va te,
             column ("train_" +:+ metric) (train_metric_list ml) tr ∧
             column ("val_" +:+ metric) (val_metric_list ml) va ∧
             e = EvDrawCurve (seq 1 (max_feature_number w))
                   (if bool_decide (0 < array_size (GetArray t))
                    then [tr; va; te] else [tr; va])
                   metric
                   (if bool_decide (0 < array_size (GetArray t))
                    then ["train"; "validation"; "test"]
                    else ["train"; "validation"])
                   (path_join store (metric +:+ "_FeatureNum.jpg")) ∧
             (0 < array_size (GetArray t) →
              column ("test_" +:+ metric) (test_metric_list ml) te))
        names curves
    else curves = [].
Proof.
  intros Hsplit Hest Hcv Hpos.
  destruct (Run_returns w d t store names s Hsplit Hest Hcv Hpos)
    as (ml & w1 & mds0 & out & w2 & Hsweep & Hinv & _ & _ & HRun & _).
  pose proof (sweep_reports _ _ _ _ _ _ _ _ Hest Hinv) as Hrep.
  pose proof (test_exists_present _ _ _ _ _ _ _ Hinv) as Hpresent.
  pose proof Hinv as (_ & Hmax & _ & L1 & L2 & L3 & _).
  rewrite length_seq in L1, L2, L3.
  destruct (collect_spec ml (max_feature_number w) names L1 L2 L3 Hrep)
    as (mds & Hcollect & Hcollected).
  destruct (lookup_lt_is_Some_2 (test_metric_list ml) 0) as [t0 Ht0]; [lia|].
  assert (Hne : test_metric_list ml ≠ []).
  { intros Hnil. rewrite Hnil in L3. simpl in L3. lia. }
  assert (Hex : test_exists ml = nonempty t0).
  { unfold test_exists. destruct (test_metric_list ml); [done|].
    by simplify_eq/=. }
  exists ml, w1, out, w2. pose proof HRun as HRun'.
  unfold Run in HRun. unfold bind at 1 in HRun.
  rewrite Hsweep, summarise_outcome, Hmax, Hcollect, plot_outcome, Ht0 in HRun.
  destruct (bool_decide (store ≠ "") && bool_decide (store ∈ dirs w1)).
  - assert (Hw2 : w2 = set_world w1 (classifier w1) (dirs w1)
                         (curve_event t0 (max_feature_number w) store <$> mds)).
    { destruct mds as [|md mds'].
      - destruct (select ml []); [|done]. injection HRun as <- <-.
        by rewrite set_world_id.
      - destruct (select ml (md :: mds')); [|done]. by injection HRun as <- <-. }
    exists (curve_event t0 (max_feature_number w) store <$> mds).
    split_and!; [done|done|by rewrite Hw2..|].
    apply Forall2_fmap_r.
    assert (Hm : test_exists ml = test_present t ∨ names = []).
    { destruct names as [|m0 names']; [by right|]. left.
      destruct (test_present t) eqn:Ht.
      - eapply test_exists_reported; try done. apply list_elem_of_here.
      - destruct (test_exists ml); [by specialize (Hpresent eq_refl)|done]. }
    destruct Hm as [Hm|Hnil].
    2:{ rewrite Hnil in Hcollected |- *.
        apply Forall2_nil_inv_l in Hcollected as ->. constructor. }
    eapply Forall2_impl; [exact Hcollected|].
    intros metric md (Hname & Ctr & Cva & Cte).
    exists (md_train md), (md_val md), (md_test md).
    unfold curve_event. rewrite <- Hex, Hm, Hname. rewrite Hm in Cte.
    fold (test_present t). split_and!; [done..| |].
    + by destruct (test_present t).
    + intros Hfull. by rewrite (test_present_true t Hfull) in Cte.
  - exists []. rewrite app_nil_r.
    destruct (select ml mds); [|done]. by injection HRun as <- <-.
Qed.

(** X18. [SetMaxFeatureNumber] and [SetFeatureSelector] decide what the
    sweep does next: after them the getters return the values set, and,
    with a splitter that keeps its contract, the loop of the sweep calls
    [SetSelectedFeatureNumber] with 1, ..., [n] on the selector that was
    installed and returns [n] records per list. *)
Theorem setters_decide_the_next_sweep
    (w w1 w2 : world C S) (n : nat) (sel : S) (d t : DataContainer)
    (store : string) (s : splitter) :
  splitter_in_range →
  cv w = Some s →
  SetMaxFeatureNumber n w = Ok (tt, w1) →
  SetFeatureSelector sel w1 = Ok (tt, w2) →
  GetMaxFeatureNumber w2 = Ok (n, w2) ∧
  GetFeatureSelector w2 = Ok (sel, w2) ∧
  ∃ ml w3 new,
    sweep d t store w2 = Ok (ml, w3) ∧
    trace w3 = trace w ++ new ∧
    selected_numbers new = seq 1 n ∧
    filter (λ e, is_call e = true) new = expected_calls sel d t store (seq 1 n) ∧
    length (train_metric_list ml) = n ∧
    length (val_metric_list ml) = n ∧
    length (test_metric_list ml) = n.
Proof.
  intros Hsplit Hcv [= <-] [= <-]. split; [done|]. split; [done|].
  match goal with
  | |- context [sweep d t store ?w2] =>
      destruct (sweep_outcome w2 d t store s Hsplit Hcv)
        as (ml & w3 & Hsweep & Hinv)
  end.
  destruct Hinv as (_ & _ & _ & L1 & L2 & L3 & _ & _ & _ & new & Htrace & Hcalls).
  cbn [max_feature_number feature_selector trace fst snd] in *.
  rewrite length_seq in L1, L2, L3.
  exists ml, w3, new. split_and!; try done.
  by rewrite <- selected_numbers_calls, Hcalls, selected_numbers_expected.
Qed.
End SweepReturned.

Lemma sweep_stores_every_feature_count_witness :
  cv (Toy.toy_world 3 []) = Some LeaveOneOut ∧
  ∃ ml w1,
    CrossValidationOnFeatureNumber.sweep Toy.train_set Toy.no_test ""
      (Toy.toy_world 3 []) = Ok (ml, w1) ∧
    "feature_2" ∈ dirs w1 ∧
    EvClassifierSave "feature_2" ∈ trace w1.
Proof.
  split; [reflexivity|].
  destruct (sweep_stores_every_feature_count (Toy.toy_world 3 [])
              Toy.train_set Toy.no_test "" LeaveOneOut
              toy_splitter_in_range eq_refl)
    as (ml & w1 & new & Hsweep & Htrace & _ & Hall).
  exists ml, w1. split; [exact Hsweep|].
  destruct (Hall 2) as (_ & Hdir & Hsave & _); [simpl; lia|].
  split; [exact Hdir|]. rewrite Htrace. exact Hsave.
Defined.

Lemma sweep_metric_lists_are_the_estimates_in_order_witness :
  cv (Toy.toy_world 3 []) = Some LeaveOneOut ∧
  ∃ ml w1,
    CrossValidationOnFeatureNumber.sweep Toy.train_set Toy.no_test ""
      (Toy.toy_world 3 []) = Ok (ml, w1) ∧
    CrossValidationOnFeatureNumber.test_metric_list ml = [[]; []; []] ∧
    length (CrossValidationOnFeatureNumber.val_metric_list ml) = 3.
Proof.
  split; [reflexivity|].
  destruct (sweep_metric_lists_are_the_estimates_in_order (Toy.toy_world 3 [])
              Toy.train_set Toy.no_test "" LeaveOneOut
              toy_splitter_in_range eq_refl)
    as (ml & w1 & new & Hsweep & _ & _ & L2 & _ & _ & _ & _ & Hempty).
  exists ml, w1. split; [exact Hsweep|].
  destruct (Hempty eq_refl) as [Htests _].
  split; [exact Htests|exact L2].
Defined.

Lemma sweep_without_splitter_raises_witness :
  CrossValidationOnFeatureNumber.Run Toy.train_set Toy.test_set "" ["auc"]
    {| classifier := classifier (Toy.toy_world 2 []); cv := None;
       max_feature_number := 2; feature_selector := 0;
       dirs := []; trace := [] |} = Raise AttributeError.
Proof.
  apply sweep_without_splitter_raises; [reflexivity|simpl; lia].
Defined.

Lemma sweep_raises_KeyError_for_an_unreported_metric_witness :
  cv (Toy.toy_world 3 []) = Some LeaveOneOut ∧
  CrossValidationOnFeatureNumber.Run Toy.train_set Toy.test_set ""
    ["f1"; "auc"] (Toy.toy_world 3 []) = Raise (KeyError "train_f1").
Proof.
  split; [reflexivity|].
  apply (sweep_raises_KeyError_for_an_unreported_metric (Toy.toy_world 3 [])
           Toy.train_set Toy.test_set "" "f1" ["auc"] LeaveOneOut).
  - apply toy_splitter_in_range.
  - reflexivity.
  - simpl. lia.
  - intros pred lab. reflexivity.
Defined.

Lemma returned_records_are_sorted_and_carry_feature_number_witness :
  ∃ out w2,
    CrossValidationOnFeatureNumber.Run Toy.train_set Toy.test_set ""
      ["auc"] (Toy.toy_world 3 []) = Ok (out, w2) ∧
    Forall well_formed_selection
      (CrossValidationOnFeatureNumber.val_return_list out) ∧
    keys <$> CrossValidationOnFeatureNumber.val_return_list out =
      [["accuracy"; "auc"; "feature_number"; "sample_number"]].
Proof.
  destruct (CrossValidationOnFeatureNumber.Run Toy.train_set Toy.test_set ""
              ["auc"] (Toy.toy_world 3 [])) as [[out w2]|e] eqn:Hrun;
    [|vm_compute in Hrun; discriminate Hrun].
  exists out, w2. split; [reflexivity|].
  destruct (returned_records_are_sorted_and_carry_feature_number _ _ _ _ _ _ _
              Hrun) as (Hval & _).
  split; [exact Hval|].
  vm_compute in Hrun. injection Hrun as <- _. reflexivity.
Defined.

Lemma sweep_draws_one_curve_per_metric_witness :
  cv (Toy.toy_world 3 ["out"]) = Some LeaveOneOut ∧
  1 ≤ max_feature_number (Toy.toy_world 3 ["out"]) ∧
  ∃ out w2,
    CrossValidationOnFeatureNumber.Run Toy.train_set Toy.test_set "out"
      ["auc"; "accuracy"] (Toy.toy_world 3 ["out"]) = Ok (out, w2) ∧
    omap (λ e, match e with
               | EvDrawCurve x _ _ _ p => Some (x, p)
               | _ => None
               end) (trace w2) =
      [([1; 2; 3], "out/auc_FeatureNum.jpg");
       ([1; 2; 3], "out/accuracy_FeatureNum.jpg")].
Proof.
  split; [reflexivity|]. split; [simpl; lia|].
  destruct (sweep_draws_one_curve_per_metric (Toy.toy_world 3 ["out"])
              Toy.train_set Toy.test_set "out" ["auc"; "accuracy"] LeaveOneOut
              toy_splitter_in_range toy_estimator_contract eq_refl)
    as (ml & w1 & out & w2 & curves & _ & Hrun & _).
  { simpl. lia. }
  exists out, w2. split; [exact Hrun|].
  vm_compute in Hrun. injection Hrun as _ <-. reflexivity.
Defined.

Lemma setters_decide_the_next_sweep_witness :
  cv (Toy.toy_world 1 []) = Some LeaveOneOut ∧
  ∃ w1 w2 ml w3,
    CrossValidationOnFeatureNumber.SetMaxFeatureNumber 2 (Toy.toy_world 1 []) =
      Ok (tt, w1) ∧
    CrossValidationOnFeatureNumber.SetFeatureSelector 7 w1 = Ok (tt, w2) ∧
    CrossValidationOnFeatureNumber.sweep Toy.train_set Toy.no_test "" w2 =
      Ok (ml, w3) ∧
    selected_numbers (trace w3) = [1; 2].
Proof.
  split; [reflexivity|].
  eexists _, _.
  destruct (setters_decide_the_next_sweep (Toy.toy_world 1 []) _ _ 2 7
              Toy.train_set Toy.no_test "" LeaveOneOut
              toy_splitter_in_range eq_refl eq_refl eq_refl)
    as (_ & _ & ml & w3 & new & Hsweep & Htrace & Hnum & _).
  exists ml, w3. split; [reflexivity|]. split; [reflexivity|].
  split; [exact Hsweep|]. rewrite Htrace. exact Hnum.
Defined.
